(** * Container Geometry Analyzer: segmentation and reconstruction engine

    A shallow embedding of the geometry engine of the container geometry
    analyzer (transition detection, segment validation, shape fitting,
    segment merging, Hermite blending and profile reconstruction) together
    with the properties stated about it.

    The repository holds the analyzer module twice.  The module under
    the repository's [src] directory,
    [src/container_geometry_analyzer_gui_v3_11_8.py], with
    [src/stability_detection.py], is the later one: its fitting stage
    tries four volume models, prefers cylinders to near-cylindrical
    frustums and merges adjacent segments.  The module at the
    repository root, [container_geometry_analyzer_gui_v3_11_8.py] (and
    [container_analyzer_v3.11.0_enhanced.py] before it), tries two
    models and has no preference rule and no merge pass: its stage is
    the module [RootCopy] below.  The improved detector (but for the
    percentile applied without adaptive thresholding, 96 under [src] and
    80 at the root) and the Hermite transition are the same in both; the
    profile reconstruction at the root lacks the cone and sphere-cap
    branches.

    Conventions of the embedding.
    - Python floats are idealised as exact rationals ([Q]); indices and
      counts are [Z] or [nat].
    - numpy and scipy routines that are not part of the repository
      (Savitzky-Golay filtering, [np.gradient], [np.percentile],
      [find_peaks], [curve_fit], square roots, ...) are the fields of the
      record [SciLib]; every function of the repository takes the library
      as its first argument.  Elementary numpy operations ([np.abs],
      [np.diff], [np.mean], [np.clip], [np.linspace], ...) are written out.
    - A Python exception is the value [None] of an [option] result.
    - Logging calls have no effect on the results and are left out.
    - Of the three exporters, which write files, the numerical part is
      embedded: the vertex, face and cell arrays written out.  [np.cos],
      [np.sin] and the [np.polyfit] call of [compute_areas] are
      parameters of the functions that use them. *)

From Stdlib Require Import Strings.String.
From Stdlib Require Import ZArith QArith Qabs Qround List Lia Lqa Bool.
From Stdlib Require Import Sorting.Sorted.
Import ListNotations.

Open Scope Q_scope.

(** ** Python and numpy primitives *)

Module Py.

(** Strict comparison on rationals as a boolean. *)
Definition Qltb (x y : Q) : bool := negb (Qle_bool y x).

(** Python's [max(a, b)] and [min(a, b)]: the first argument wins ties. *)
Definition max (a b : Q) : Q := if Qltb a b then b else a.
Definition min (a b : Q) : Q := if Qltb b a then b else a.

(** [np.clip(x, lo, hi)] is [minimum(maximum(x, lo), hi)]. *)
Definition clip (x lo hi : Q) : Q := min (max x lo) hi.

(** [range(a, b)] on integers. *)
Definition range (a b : Z) : list Z :=
  map (fun k => (a + Z.of_nat k)%Z) (seq 0 (Z.to_nat (b - a))).

(** [np.linspace(a, b, num)]: [num] evenly spaced samples, both ends
    included; a single sample is the start point. *)
Definition linspace (a b : Q) (num : nat) : list Q :=
  match num with
  | 1%nat => [a]
  | _ => map (fun k => a + inject_Z (Z.of_nat k) * ((b - a) / inject_Z (Z.of_nat num - 1)))
             (seq 0 num)
  end.

(** Normalisation of a Python index: negative indices count from the end;
    [None] is an [IndexError]. *)
Definition index {A} (l : list A) (i : Z) : option nat :=
  let n := Z.of_nat (length l) in
  let j := if (i <? 0)%Z then (i + n)%Z else i in
  if ((0 <=? j) && (j <? n))%Z then Some (Z.to_nat j) else None.

(** [l[i]]. *)
Definition getitem {A} (l : list A) (i : Z) : option A :=
  match index l i with
  | Some j => nth_error l j
  | None => None
  end.

Fixpoint update {A} (l : list A) (j : nat) (v : A) : list A :=
  match l, j with
  | [], _ => []
  | _ :: t, O => v :: t
  | h :: t, S j' => h :: update t j' v
  end.

(** [l[i] = v]. *)
Definition setitem {A} (l : list A) (i : Z) (v : A) : option (list A) :=
  match index l i with
  | Some j => Some (update l j v)
  | None => None
  end.

(** Clamping of a slice bound as Python does for [l[a:b]]. *)
Definition slice_bound (n i : Z) : Z :=
  let j := if (i <? 0)%Z then (i + n)%Z else i in
  Z.max 0 (Z.min n j).

(** [l[a:b]]. *)
Definition slice {A} (l : list A) (a b : Z) : list A :=
  let n := Z.of_nat (length l) in
  let a' := slice_bound n a in
  let b' := slice_bound n b in
  firstn (Z.to_nat (b' - a')) (skipn (Z.to_nat a') l).

(** [l[a:]] and [l[:b]]. *)
Definition slice_from {A} (l : list A) (a : Z) : list A :=
  slice l a (Z.of_nat (length l)).
Definition slice_to {A} (l : list A) (b : Z) : list A := slice l 0 b.

(** [l[-1]] of a list. *)
Definition last_item {A} (l : list A) : option A := getitem l (-1).

Definition sum (l : list Q) : Q := fold_right Qplus 0 l.

(** [np.mean]; the mean of an empty array is not a number, here 0. *)
Definition mean (l : list Q) : Q := sum l / inject_Z (Z.of_nat (length l)).

(** [np.min] and [np.max]; numpy raises on an empty array. *)
Definition amin (l : list Q) : option Q :=
  match l with
  | [] => None
  | x :: t => Some (fold_left min t x)
  end.
Definition amax (l : list Q) : option Q :=
  match l with
  | [] => None
  | x :: t => Some (fold_left max t x)
  end.

(** [np.diff]. *)
Fixpoint diff (l : list Q) : list Q :=
  match l with
  | x :: ((y :: _) as t) => (y - x) :: diff t
  | _ => []
  end.

(** [np.abs] on an array. *)
Definition abs (l : list Q) : list Q := map Qabs l.

(** [np.sign]. *)
Definition sign (x : Q) : Q :=
  if Qltb 0 x then 1 else if Qltb x 0 then -1 else 0.

(** [np.var]: the population variance. *)
Definition var (l : list Q) : Q :=
  let m := mean l in mean (map (fun x => (x - m) * (x - m)) l).

(** Insertion of [x] in an increasing list without duplicates. *)
Fixpoint insert_set (x : Z) (l : list Z) : list Z :=
  match l with
  | [] => [x]
  | y :: t =>
      if (x <? y)%Z then x :: l
      else if (x =? y)%Z then l
      else y :: insert_set x t
  end.

(** [sorted(set(l))] on a list of integers. *)
Definition sorted_set (l : list Z) : list Z := fold_right insert_set [] l.

Fixpoint insert_sorted (x : Z) (l : list Z) : list Z :=
  match l with
  | [] => [x]
  | y :: t => if (x <=? y)%Z then x :: l else y :: insert_sorted x t
  end.

(** [sorted(l)] on a list of integers. *)
Definition sorted (l : list Z) : list Z := fold_right insert_sorted [] l.

(** Sorted insertion of a rational. *)
Fixpoint insert_sortedQ (x : Q) (l : list Q) : list Q :=
  match l with
  | [] => [x]
  | y :: t => if Qle_bool x y then x :: l else y :: insert_sortedQ x t
  end.

Definition sortedQ (l : list Q) : list Q := fold_right insert_sortedQ [] l.

(** [np.median]: the middle of the sorted values, or the mean of the two
    middle ones. *)
Definition median (l : list Q) : Q :=
  let s := sortedQ l in
  let n := length s in
  if Nat.even n
  then (nth (n / 2 - 1) s 0 + nth (n / 2) s 0) / 2
  else nth (n / 2) s 0.

End Py.

(** ** Configuration dictionaries *)

(** The dictionaries [DEFAULT_PARAMS] and [GEOMETRIC_CONSTRAINTS] of
    the analyzer module under [src], with the entries that the engine
    reads and the values that the module assigns to them when it is
    loaded: the functions of that module are embedded under these
    values.  (The stage of the copy at the repository root takes the
    two dictionaries as the state [RootCopy.Globals].) *)
Module DEFAULT_PARAMS.
Definition min_points : Z := 12.
Definition percentile : Q := 96.
Definition variance_threshold : Q := 0.14.
Definition hermite_tension : Q := 0.6.
Definition maxfev : Z := 4000.
(** ['transition_detection_method'] is ['improved']. *)
Definition transition_detection_method_improved : bool := true.
Definition use_adaptive_threshold : bool := true.
End DEFAULT_PARAMS.

Module GEOMETRIC_CONSTRAINTS.
Definition min_differential_volume : Q := 0.01.
Definition radius_safety_margin : Q := 0.8.
Definition fit_bounds_lower : Q := 0.5.
Definition fit_bounds_upper : Q := 3.0.
End GEOMETRIC_CONSTRAINTS.

(** ** Hermite spline transition *)

(** [hermite_spline_transition(z1, r1, slope1, z2, r2, slope2, num_points,
    tension)]; the result is the pair [(z_trans, r_trans)]. *)
Definition hermite_spline_transition
    (z1 r1 slope1 z2 r2 slope2 : Q) (num_points : nat) (tension : Q)
  : option (list Q * list Q) :=
  let dz := z2 - z1 in
  if Qle_bool dz 0 then
    Some (Py.linspace z1 z2 num_points, repeat ((r1 + r2) / 2) num_points)
  else
    let t := Py.linspace 0 1 num_points in
    let z_trans := map (fun ti => z1 + ti * dz) t in
    let m0 := slope1 * dz * tension in
    let m1 := slope2 * dz * tension in
    let blend (ti : Q) :=
      let t2 := ti ^ 2 in
      let t3 := ti ^ 3 in
      let h00 := 2 * t3 - 3 * t2 + 1 in
      let h10 := - (2) * t3 + 3 * t2 in
      let h01 := t3 * (ti - 1) in
      let h11 := t2 * (ti - 1) in
      h00 * r1 + h10 * r2 + h01 * m0 + h11 * m1 in
    let r_min := Py.min r1 r2 * GEOMETRIC_CONSTRAINTS.radius_safety_margin in
    let r_max := Py.max r1 r2 * 1.2 in
    let r_trans := map (fun ti => Py.clip (blend ti) r_min r_max) t in
    match Py.setitem r_trans 0 r1 with
    | None => None
    | Some r_trans' =>
        match Py.setitem r_trans' (-1) r2 with
        | None => None
        | Some r_trans'' => Some (z_trans, r_trans'')
        end
    end.

(** ** The numerical library *)

(** The four primitive volume models; the repository tags them with the
    strings ['cylinder'], ['frustum'], ['cone'] and ['sphere_cap']. *)
Inductive Shape : Type := cylinder | frustum | cone | sphere_cap.

Definition Shape_eqb (a b : Shape) : bool :=
  match a, b with
  | cylinder, cylinder | frustum, frustum | cone, cone
  | sphere_cap, sphere_cap => true
  | _, _ => false
  end.

(** numpy, scipy and pandas routines used by the engine.  A result [None]
    of a fallible routine is a raised exception; [corrcoef] returns [None]
    for a not-a-number coefficient (a constant argument). *)
Record SciLib : Type := {
  (** [savgol_filter(x, window_length, polyorder)] *)
  savgol_filter : list Q -> Z -> Z -> option (list Q);
  (** [gaussian_filter1d(x, sigma)] *)
  gaussian_filter1d : list Q -> Q -> list Q;
  (** [gaussian_filter1d(x, sigma, mode='nearest')] *)
  gaussian_filter1d_nearest : list Q -> Q -> list Q;
  (** [pd.Series(x).rolling(w, center=True, min_periods=1).median().bfill().ffill()] *)
  rolling_median : list Q -> Z -> list Q;
  (** [np.gradient(f, x)] *)
  gradient : list Q -> list Q -> option (list Q);
  (** [np.gradient(f)] *)
  gradient_unit : list Q -> option (list Q);
  (** [np.percentile(a, q)] *)
  percentile : list Q -> Q -> Q;
  (** [find_peaks(x, height, distance)[0]] *)
  find_peaks : list Q -> Q -> Z -> option (list Z);
  (** [np.std] *)
  std : list Q -> Q;
  (** [np.corrcoef(a, b)[0, 1]] *)
  corrcoef : list Q -> list Q -> option Q;
  (** [np.polyfit(x, y, 1)]: slope and intercept *)
  polyfit1 : list Q -> list Q -> Q * Q;
  (** [curve_fit(model, xdata, ydata, p0, bounds=(lower, upper), maxfev)[0]] *)
  curve_fit : Shape -> list Q -> list Q -> list Q -> list Q -> list Q -> Z
              -> option (list Q);
  (** [np.sqrt] *)
  sqrt : Q -> Q;
  (** [np.pi] *)
  pi : Q;
  (** [x ** 1.5] *)
  pow15 : Q -> Q
}.

(** A small error monad for code that can raise. *)
Definition bind {A B} (m : option A) (f : A -> option B) : option B :=
  match m with
  | Some a => f a
  | None => None
  end.

Notation "x <- m ;; k" := (bind m (fun x => k))
  (at level 61, m at next level, right associativity).
Notation "' ( x , y ) <- m ;; k" := (bind m (fun xy => let '(x, y) := xy in k))
  (at level 61, x name, y name, m at next level, right associativity).

(** [try: m except: d]. *)
Definition try_except {A} (m : option A) (d : A) : A :=
  match m with
  | Some a => a
  | None => d
  end.

(** ** Transition detection *)

(** [np.where(a > threshold)[0]]. *)
Fixpoint where_gt_from (i : Z) (a : list Q) (threshold : Q) : list Z :=
  match a with
  | [] => []
  | x :: t =>
      if Py.Qltb threshold x
      then i :: where_gt_from (i + 1) t threshold
      else where_gt_from (i + 1) t threshold
  end.

Definition where_gt (a : list Q) (threshold : Q) : list Z :=
  where_gt_from 0 a threshold.

(** The smoothing window [max(5, min(15, n // 10))], made odd. *)
Definition smoothing_window (n : Z) : Z :=
  let window := Z.max 5 (Z.min 15 (n / 10)) in
  if (window mod 2 =? 0)%Z then (window + 1)%Z else window.

(** The loop [for cand in candidates: if cand - transitions[-1] >=
    min_points: transitions.append(cand)] of the legacy detector; [last]
    is [transitions[-1]], the result is what the loop appends. *)
Fixpoint legacy_spacing (min_points : Z) (candidates : list Z) (last : Z)
  : list Z :=
  match candidates with
  | [] => []
  | cand :: rest =>
      if (cand - last >=? min_points)%Z
      then cand :: legacy_spacing min_points rest cand
      else legacy_spacing min_points rest last
  end.

(** The same loop in the improved detector, which also requires
    [cand < n - 1]. *)
Fixpoint enforce_spacing (min_points n : Z) (candidates : list Z) (last : Z)
  : list Z :=
  match candidates with
  | [] => []
  | cand :: rest =>
      if ((cand - last >=? min_points) && (cand <? n - 1))%Z
      then cand :: enforce_spacing min_points n rest cand
      else enforce_spacing min_points n rest last
  end.

(** [if transitions[-1] != n - 1: transitions.append(n - 1)]. *)
Definition close_at_end (transitions : list Z) (n : Z) : list Z :=
  match Py.last_item transitions with
  | Some l => if (l =? n - 1)%Z then transitions else transitions ++ [(n - 1)%Z]
  | None => transitions ++ [(n - 1)%Z]
  end.

(** [normalize_score], the local function of the improved detector. *)
Definition normalize_score (arr : list Q) : option (list Q) :=
  arr_min <- Py.amin arr ;;
  arr_max <- Py.amax arr ;;
  if Py.Qltb (arr_max - arr_min) 1e-10
  then Some (map (fun _ => 0) arr)
  else Some (map (fun x => (x - arr_min) / (arr_max - arr_min)) arr).

(** Element-wise [0.6 * a + 0.4 * b]. *)
Definition combine_scores (a b : list Q) : list Q :=
  map (fun p => 0.6 * fst p + 0.4 * snd p) (combine a b).

(** The percentile chosen from the signal-to-noise ratio. *)
Definition adaptive_percentile (snr : Q) : Q :=
  if Py.Qltb 100 snr then 70
  else if Py.Qltb 50 snr then 75
  else if Py.Qltb 20 snr then 80
  else if Py.Qltb 10 snr then 85
  else 90.

Section Detectors.

Variable L : SciLib.

(** *** The legacy detector, [find_optimal_transitions] *)

(** The validation loop of the legacy detector: the segment ends it
    appends to [validated]. *)
Fixpoint legacy_validate (area : list Q) (min_points : Z)
    (variance_threshold : Q) (transitions : list Z) : list Z :=
  match transitions with
  | seg_start :: ((seg_end :: _) as rest) =>
      let tail := legacy_validate area min_points variance_threshold rest in
      if (seg_end - seg_start + 1 >=? min_points)%Z then
        let seg := Py.slice area seg_start seg_end in
        let seg_var := std L seg / (Py.mean seg + 1e-8) in
        if Py.Qltb variance_threshold seg_var then seg_end :: tail else tail
      else tail
  | _ => []
  end.

Definition find_optimal_transitions (area : list Q) (min_points : Z)
    (percentile_ variance_threshold : Q) : option (list Z) :=
  let n := Z.of_nat (length area) in
  if (n <? 2 * min_points)%Z then Some [0%Z; (n - 1)%Z]
  else
    let window := smoothing_window n in
    let area_smooth :=
      try_except (savgol_filter L area window (Z.min 2 (window / 2)))
                 (rolling_median L area window) in
    let diff := Py.abs (Py.diff area_smooth) in
    let threshold := percentile L diff percentile_ in
    let candidates := map (fun i => (i + 1)%Z) (where_gt diff threshold) in
    let transitions :=
      close_at_end (0%Z :: legacy_spacing min_points candidates 0) n in
    let validated :=
      0%Z :: legacy_validate area min_points variance_threshold transitions in
    validated <-
      (if (Z.of_nat (length validated) =? 1)%Z
       then Some (validated ++ [(n - 1)%Z])
       else
         l <- Py.last_item validated ;;
         if negb (l =? n - 1)%Z
         then Py.setitem validated (-1) (n - 1)%Z
         else Some validated) ;;
    Some (Py.sorted_set validated).

(** *** The improved detector, [find_optimal_transitions_improved] *)

(** The combined derivative score of the smoothed area signal. *)
Definition derivative_score (area heights : list Q) (n : Z)
  : option (list Q) :=
  let window := smoothing_window n in
  let area_smooth :=
    try_except (savgol_filter L area window 2)
               (gaussian_filter1d L area 2.0) in
  first_deriv <- gradient L area_smooth heights ;;
  second_deriv <- gradient L first_deriv heights ;;
  let first_deriv_change := Py.abs (Py.diff first_deriv) in
  let second_deriv_abs := Py.abs (Py.slice_to second_deriv (-1)) in
  a <- normalize_score first_deriv_change ;;
  b <- normalize_score second_deriv_abs ;;
  Some (combine_scores a b).

(** The estimated signal-to-noise ratio of the area signal. *)
Definition estimate_snr (area : list Q) (n : Z) : option Q :=
  let w := if ((n / 5) mod 2 =? 1)%Z then (n / 5)%Z else (n / 5 + 1)%Z in
  area_very_smooth <- savgol_filter L area (Z.min 21 w) 2 ;;
  let noise := map (fun p => fst p - snd p) (combine area area_very_smooth) in
  let noise_std := std L noise in
  hi <- Py.amax area ;;
  lo <- Py.amin area ;;
  let signal_range := hi - lo in
  Some (signal_range / (noise_std + 1e-8)).

(** The percentile applied to the score. *)
Definition score_percentile (area : list Q) (n : Z) (use_adaptive : bool)
  : option Q :=
  if use_adaptive then
    snr <- estimate_snr area n ;;
    Some (adaptive_percentile snr)
  else Some 96.

(** The three validation criteria of a candidate segment. *)
Definition has_variation (seg_area : list Q) : bool :=
  let cv := std L seg_area / (Py.mean seg_area + 1e-8) in
  Py.Qltb 0.05 cv.

Definition has_structure (seg_area : list Q) : bool :=
  if (3 <? Z.of_nat (length seg_area))%Z then
    let area_shifted := Py.slice_from seg_area 1 in
    let area_orig := Py.slice_to seg_area (-1) in
    match corrcoef L area_orig area_shifted with
    | Some correlation => Py.Qltb 0.4 (Qabs correlation)
    | None => false
    end
  else true.

Definition fits_model (seg_area : list Q) : bool :=
  let z := map inject_Z (Py.range 0 (Z.of_nat (length seg_area))) in
  if (2 <? Z.of_nat (length z))%Z then
    let '(slope, intercept) := polyfit1 L z seg_area in
    let area_predicted := map (fun zi => slope * zi + intercept) z in
    let ss_res :=
      Py.sum (map (fun p => (fst p - snd p) ^ 2)
                  (combine seg_area area_predicted)) in
    let m := Py.mean seg_area in
    let ss_tot := Py.sum (map (fun a => (a - m) ^ 2) seg_area) in
    let r_squared := 1 - ss_res / (ss_tot + 1e-8) in
    Py.Qltb 0.65 r_squared
  else true.

(** [sum([has_variation, has_structure, fits_model])]. *)
Definition passed_criteria (seg_area : list Q) : Z :=
  (Z.b2z (has_variation seg_area) + Z.b2z (has_structure seg_area)
   + Z.b2z (fits_model seg_area))%Z.

(** The decision taken for the candidate segment number [i] of
    [len_transitions - 1]: does validation append its end? *)
Definition keeps_segment_end (area : list Q) (min_points len_transitions i : Z)
    (seg_start seg_end : Z) : bool :=
  if (seg_end - seg_start + 1 <? min_points)%Z then false
  else
    let seg_area := Py.slice area seg_start (seg_end + 1) in
    let is_boundary := ((i =? 0) || (i =? len_transitions - 2))%Z in
    (passed_criteria seg_area >=? 2)%Z || is_boundary.

(** The validation loop: the segment ends it appends to [validated];
    [i] is the loop index of the first pair of [transitions]. *)
Fixpoint validate_loop (area : list Q) (min_points len_transitions i : Z)
    (transitions : list Z) : list Z :=
  match transitions with
  | seg_start :: ((seg_end :: _) as rest) =>
      let tail := validate_loop area min_points len_transitions (i + 1) rest in
      if keeps_segment_end area min_points len_transitions i seg_start seg_end
      then seg_end :: tail
      else tail
  | _ => []
  end.

(** Validation of a transition list, with the final end-point fix and
    [sorted(list(set(validated)))]. *)
Definition validate_transitions (area : list Q) (min_points : Z)
    (transitions : list Z) : option (list Z) :=
  first <- Py.getitem transitions 0 ;;
  final <- Py.last_item transitions ;;
  let validated :=
    first :: validate_loop area min_points (Z.of_nat (length transitions)) 0
                           transitions in
  let validated :=
    match Py.last_item validated with
    | Some l => if negb (l =? final)%Z then validated ++ [final] else validated
    | None => validated ++ [final]
    end in
  Some (Py.sorted_set validated).

(** The candidate boundaries found on the score. *)
Definition score_candidates (score : list Q) (threshold : Q) (min_points : Z)
  : list Z :=
  match find_peaks L score threshold min_points with
  | Some peaks => map (fun i => (i + 1)%Z) peaks
  | None => map (fun i => (i + 1)%Z) (where_gt score threshold)
  end.

(** The transition list of the improved detector before validation. *)
Definition improved_transitions (area heights : list Q) (min_points : Z)
    (use_adaptive : bool) : option (list Z) :=
  let n := Z.of_nat (length area) in
  score <- derivative_score area heights n ;;
  pct <- score_percentile area n use_adaptive ;;
  let threshold := percentile L score pct in
  let candidates := score_candidates score threshold min_points in
  Some (close_at_end
          (0%Z :: enforce_spacing min_points n (Py.sorted candidates) 0) n).

(** [find_optimal_transitions_improved(area, heights, min_points,
    use_adaptive)]; [heights = None] stands for [np.arange(n)]. *)
Definition find_optimal_transitions_improved (area : list Q)
    (heights : option (list Q)) (min_points : Z) (use_adaptive : bool)
  : option (list Z) :=
  let n := Z.of_nat (length area) in
  let heights :=
    match heights with
    | Some h => h
    | None => map inject_Z (Py.range 0 n)
    end in
  if (n <? 2 * min_points)%Z then Some [0%Z; (n - 1)%Z]
  else
    transitions <- improved_transitions area heights min_points use_adaptive ;;
    validate_transitions area min_points transitions.

End Detectors.

(** ** Stability-based detection ([stability_detection.py]) *)

(** [range(a, b, step)] for a positive step. *)
Definition range_step (a b step : Z) : list Z :=
  map (fun k => (a + Z.of_nat k * step)%Z)
      (seq 0 (Z.to_nat ((b - a + step - 1) / step))).

(** [int(x)] on a float: truncation towards zero. *)
Definition py_int (x : Q) : Z := Z.quot (Qnum x) (Zpos (Qden x)).

(** [np.sum(a != 0)]. *)
Definition count_nonzero (a : list Q) : Z :=
  Z.of_nat (length (filter (fun x => negb (Qeq_bool x 0)) a)).

(** Stable sort of scored candidates by decreasing score, as
    [candidates.sort(key=lambda x: x[1], reverse=True)]. *)
Fixpoint insert_by_score (c : Z * Q * Q) (l : list (Z * Q * Q))
  : list (Z * Q * Q) :=
  match l with
  | [] => [c]
  | d :: t =>
      if Py.Qltb (snd (fst c)) (snd (fst d))
      then d :: insert_by_score c t
      else c :: l
  end.

Definition sort_by_score_desc (l : list (Z * Q * Q)) : list (Z * Q * Q) :=
  fold_right insert_by_score [] l.

(** The tag returned by the hybrid detector. *)
Inductive Route : Type :=
| insufficient_data
| route_multi_derivative
| stability.

(** The [details] dictionary of [predict_segment_count]. *)
Record PredictionDetails : Type := {
  method1 : Z;
  method2 : Z;
  method3 : Z;
  ensemble : Z;
  confidence_high : bool
}.

(** The statistics dictionary of [compute_area_gradient_stats]. *)
Record GradientStats : Type := {
  mean_gradient : Q;
  mean_curvature : Q
}.

Section Stability.

Variable L : SciLib.

Definition compute_curvature (area heights : list Q) : option (list Q) :=
  if (Z.of_nat (length area) <? 3)%Z then Some (map (fun _ => 0) area)
  else
    dA_dh <- gradient L area heights ;;
    d2A_dh2 <- gradient L dA_dh heights ;;
    let denominator := map (fun d => pow15 L (1 + Qabs d)) dA_dh in
    Some (map (fun p => Qabs (fst p) / (snd p + 1e-8))
              (combine d2A_dh2 denominator)).

(** [compute_stability_metric(area, heights, window_size)]: the smoothed
    stability, its gradient and the smoothed area. *)
Definition compute_stability_metric (area heights : list Q) (window_size : Z)
  : option (list Q * list Q * list Q) :=
  let n := Z.of_nat (length area) in
  let window := smoothing_window n in
  let area_smooth :=
    try_except (savgol_filter L area window 2)
               (gaussian_filter1d L area 2.0) in
  dA_dh <- gradient L area_smooth heights ;;
  d2A_dh2 <- gradient L dA_dh heights ;;
  let half_window := (window_size / 2)%Z in
  let d2A_dh2_windowed :=
    map (fun i =>
           let start := Z.max 0 (i - half_window) in
           let end_ := Z.min n (i + half_window + 1) in
           Py.mean (Py.abs (Py.slice d2A_dh2 start end_)))
        (Py.range 0 n) in
  let stability_ :=
    map (fun p => fst p / (1 + Qabs (snd p) + 1e-8))
        (combine d2A_dh2_windowed dA_dh) in
  stability_smooth <- savgol_filter L stability_ (Z.min 7 n) 2 ;;
  dS <- gradient_unit L stability_smooth ;;
  Some (stability_smooth, dS, area_smooth).

Definition predict_segment_count_zero_crossing (area heights : list Q)
  : option Z :=
  if (Z.of_nat (length area) <? 10)%Z then Some 1%Z
  else
    dA_dh <- gradient L area heights ;;
    d2A_dh2 <- gradient L dA_dh heights ;;
    let sign_changes := count_nonzero (Py.diff (map Py.sign d2A_dh2)) in
    Some (Z.min (1 + sign_changes / 2) 3).

Definition predict_segment_count_curvature_regime (area heights : list Q)
  : option Z :=
  if (Z.of_nat (length area) <? 10)%Z then Some 1%Z
  else
    curvature <- compute_curvature area heights ;;
    curvature_smooth <-
      savgol_filter L curvature (Z.min 7 (Z.of_nat (length curvature))) 2 ;;
    dcurv_dh <- gradient_unit L curvature_smooth ;;
    let threshold := std L dcurv_dh * 1.0 in
    let transition_indices := where_gt (Py.abs dcurv_dh) threshold in
    let num_regimes := (1 + Z.of_nat (length transition_indices) / 3)%Z in
    Some (Z.min num_regimes 3).

Definition predict_segment_count_variance (area heights : list Q)
  : option Z :=
  let len := Z.of_nat (length area) in
  if (len <? 15)%Z then Some 1%Z
  else
    let window_size := Z.max 4 (len / 5) in
    let local_vars :=
      map (fun i => Py.var (Py.slice area i (i + window_size)))
          (range_step 0 (len - window_size) (Z.max 1 (window_size / 2))) in
    match local_vars with
    | [] => Some 1%Z
    | _ =>
        let median_var := Py.median local_vars in
        let peaks := where_gt local_vars (median_var * 1.2) in
        let num_peaks := Z.of_nat (length peaks) in
        let predicted := (1 + num_peaks / 2)%Z in
        Some (Z.min predicted 3)
    end.

(** [predict_segment_count(area, heights)]: the ensemble prediction and
    its details. *)
Definition predict_segment_count (area heights : list Q)
  : option (Z * PredictionDetails) :=
  pred1 <- predict_segment_count_zero_crossing area heights ;;
  pred2 <- predict_segment_count_curvature_regime area heights ;;
  pred3 <- predict_segment_count_variance area heights ;;
  let predictions := [pred1; pred2; pred3] in
  let predicted := py_int (Py.median (map inject_Z predictions)) in
  Some (predicted,
        {| method1 := pred1; method2 := pred2; method3 := pred3;
           ensemble := predicted;
           confidence_high :=
             (Z.of_nat (length (Py.sorted_set predictions)) =? 1)%Z |}).

(** The candidate found at index [i] of the stability signal, if any:
    index, score and jump magnitude. *)
Definition stability_candidate (stability_ dS_dh : list Q) (n : Z)
    (threshold : Q) (i : Z) : option (option (Z * Q * Q)) :=
  let left_stability := Py.mean (Py.slice stability_ (Z.max 0 (i - 7)) i) in
  let right_stability := Py.mean (Py.slice stability_ i (Z.min n (i + 7))) in
  let jump_magnitude := Qabs (right_stability - left_stability) in
  let sustained_change :=
    if ((12 <? i) && (i <? n - 12))%Z then
      let left_before :=
        Py.mean (Py.slice stability_ (Z.max 0 (i - 12)) (Z.max 0 (i - 7))) in
      let right_after :=
        Py.mean (Py.slice stability_ (Z.min n (i + 7)) (Z.min n (i + 12))) in
      Py.Qltb (Qabs (left_before - left_stability)) (jump_magnitude * 0.4)
      && Py.Qltb (Qabs (right_stability - right_after)) (jump_magnitude * 0.4)
    else true in
  if Py.Qltb (threshold * 0.6) jump_magnitude then
    d <- Py.getitem dS_dh i ;;
    if Py.Qltb (threshold * 0.5) (Qabs d) && sustained_change
    then Some (Some (i, jump_magnitude * Qabs d, jump_magnitude))
    else Some None
  else Some None.

(** The candidate loop [for i in range(min_points, n - min_points)]. *)
Fixpoint stability_candidates (stability_ dS_dh : list Q) (n : Z)
    (threshold : Q) (indices : list Z) : option (list (Z * Q * Q)) :=
  match indices with
  | [] => Some []
  | i :: rest =>
      c <- stability_candidate stability_ dS_dh n threshold i ;;
      cs <- stability_candidates stability_ dS_dh n threshold rest ;;
      Some (match c with Some c => c :: cs | None => cs end)
  end.

(** The selection loop over the sorted candidates: what it appends to
    [final_transitions], whose last element is [last] and whose length is
    [len]; the loop stops when three transitions are held. *)
Fixpoint select_transitions (spacing : Z) (candidates : list (Z * Q * Q))
    (last : Z) (len : Z) : list Z :=
  match candidates with
  | [] => []
  | (idx, _, _) :: rest =>
      if (idx - last >=? spacing)%Z then
        if (len + 1 >=? 3)%Z then [idx]
        else idx :: select_transitions spacing rest idx (len + 1)
      else select_transitions spacing rest last len
  end.

Definition find_stability_transitions (area heights : list Q) (min_points : Z)
  : option (list Z) :=
  let n := Z.of_nat (length area) in
  if (n <? 2 * min_points)%Z then Some [0%Z; (n - 1)%Z]
  else
    metric <- compute_stability_metric area heights 5 ;;
    let '(stability_, dS_dh, _) := metric in
    threshold <-
      (let threshold := std L dS_dh * 1.5 in
       if Py.Qltb threshold 1e-8
       then m <- Py.amax (Py.abs dS_dh) ;; Some (m * 0.3)
       else Some threshold) ;;
    candidates <-
      stability_candidates stability_ dS_dh n threshold
                           (Py.range min_points (n - min_points)) ;;
    let candidates := sort_by_score_desc candidates in
    let min_transition_spacing :=
      Z.max (min_points * 2) (py_int (inject_Z n * 0.15)) in
    let final_transitions :=
      close_at_end
        (0%Z :: select_transitions min_transition_spacing candidates 0 1) n in
    Some (Py.sorted_set final_transitions).

Definition compute_area_gradient_stats (area heights : list Q) (start end_ : Z)
  : option (option GradientStats) :=
  if (end_ - start <? 3)%Z then Some None
  else
    let seg_area := Py.slice area start (end_ + 1) in
    let seg_heights := Py.slice heights start (end_ + 1) in
    grad <- gradient L seg_area seg_heights ;;
    d2A <- gradient L grad seg_heights ;;
    Some (Some {| mean_gradient := Py.mean (Py.abs grad);
                  mean_curvature := Py.mean (Py.abs d2A) |}).

Definition validate_transition (area heights : list Q) (transition_idx : Z)
    (min_points : Z) : option bool :=
  let n := Z.of_nat (length area) in
  if ((transition_idx <? min_points)
      || (n - min_points - 1 <? transition_idx))%Z then Some false
  else
    let left_start := Z.max 0 (transition_idx - min_points) in
    let left_end := transition_idx in
    let right_start := transition_idx in
    let right_end := Z.min (n - 1) (transition_idx + min_points) in
    left_stats <- compute_area_gradient_stats area heights left_start left_end ;;
    right_stats <-
      compute_area_gradient_stats area heights right_start right_end ;;
    match left_stats, right_stats with
    | Some ls, Some rs =>
        let left_curve := mean_curvature ls in
        let right_curve := mean_curvature rs in
        if Py.Qltb 0.1 left_curve || Py.Qltb 0.1 right_curve then
          let ratio :=
            Py.max left_curve right_curve
            / (Py.min left_curve right_curve + 1e-8) in
          Some (Py.Qltb 1.5 ratio)
        else
          let left_grad := mean_gradient ls in
          let right_grad := mean_gradient rs in
          Some (Py.Qltb (Py.mean [left_grad; right_grad] * 0.2)
                        (Qabs (left_grad - right_grad)))
    | _, _ => Some false
    end.

(** The loop of [validate_all_transitions] over the interior transitions. *)
Fixpoint validate_interior (area heights : list Q) (interior : list Z)
  : option (list Z) :=
  match interior with
  | [] => Some []
  | t :: rest =>
      ok <- validate_transition area heights t 5 ;;
      tail <- validate_interior area heights rest ;;
      Some (if ok then t :: tail else tail)
  end.

Definition validate_all_transitions (area heights : list Q)
    (transitions : list Z) : option (list Z) :=
  first <- Py.getitem transitions 0 ;;
  let interior :=
    Py.slice transitions 1 (Z.of_nat (length transitions) - 1) in
  kept <- validate_interior area heights interior ;;
  final <- Py.last_item transitions ;;
  Some (Py.sorted_set ((first :: kept) ++ [final])).

(** [find_optimal_transitions_hybrid(area, heights, min_points)]: the
    transitions (Python's [None] when the caller is to run the
    multi-derivative method itself) and the routing tag. *)
Definition find_optimal_transitions_hybrid (area heights : list Q)
    (min_points : Z) : option (option (list Z) * Route) :=
  let n := Z.of_nat (length area) in
  if (n <? 2 * min_points)%Z then
    Some (Some [0%Z; (n - 1)%Z], insufficient_data)
  else
    '(predicted_segments, prediction_details) <-
      predict_segment_count area heights ;;
    if (predicted_segments <=? 2)%Z then Some (None, route_multi_derivative)
    else
      transitions <- find_stability_transitions area heights min_points ;;
      transitions <- validate_all_transitions area heights transitions ;;
      Some (Some transitions, stability).

End Stability.

(** ** Shape fitting and segment merging *)

(** A row of the area table [df_areas]. *)
Record Row : Type := mkRow {
  Height_mm : Q;
  Volume_mm3 : Q;
  Area : Q
}.

Definition DataFrame : Type := list Row.

(** A fitted segment, the tuple [(start, end, shape, params)]. *)
Record Segment : Type := mkSegment {
  seg_start : Z;
  seg_end : Z;
  seg_shape : Shape;
  seg_params : list Q
}.

(** A fit candidate, the tuple [(shape_name, params, error_pct)]. *)
Definition FitResult : Type := (Shape * list Q * Q)%type.

(** [map] of a fallible function; the first failure is the result. *)
Fixpoint map_option {A B} (f : A -> option B) (l : list A) : option (list B) :=
  match l with
  | [] => Some []
  | a :: t =>
      b <- f a ;;
      bs <- map_option f t ;;
      Some (b :: bs)
  end.

(** Stable insertion by adjusted error, as
    [adjusted_results.sort(key=lambda x: x[3])]. *)
Fixpoint insert_by_adjusted (c : FitResult * Q) (l : list (FitResult * Q))
  : list (FitResult * Q) :=
  match l with
  | [] => [c]
  | d :: t =>
      if Qle_bool (snd d) (snd c) then d :: insert_by_adjusted c t
      else c :: l
  end.

Definition sort_by_adjusted (l : list (FitResult * Q)) : list (FitResult * Q) :=
  fold_left (fun acc c => insert_by_adjusted c acc) l [].

(** The complexity penalty added to a candidate's error. *)
Definition adjusted_error (shape_name : Shape) (error_pct : Q) : Q :=
  match shape_name with
  | frustum => if Py.Qltb error_pct 3.0 then error_pct + 0.5 else error_pct
  | cone => if Py.Qltb error_pct 3.0 then error_pct + 0.2 else error_pct
  | _ => error_pct
  end.

(** [next((f for f in fit_results if f[0] == 'cylinder'), None)]. *)
Definition find_cylinder (fit_results : list FitResult) : option FitResult :=
  find (fun f => Shape_eqb (fst (fst f)) cylinder) fit_results.

(** The cylinder-preference fix applied to the selected fit. *)
Definition cylinder_preference (fit_results : list FitResult)
    (best : FitResult) : FitResult :=
  let '(best_shape, best_params, best_error) := best in
  match best_shape, best_params with
  | frustum, r1 :: r2 :: _ =>
      let r_max := Py.max r1 r2 in
      if Py.Qltb 0 r_max then
        let relative_diff := Qabs (r2 - r1) / r_max in
        if Py.Qltb relative_diff 0.05 then
          match find_cylinder fit_results with
          | Some (_, cyl_params, cyl_error) =>
              if Qle_bool cyl_error (best_error * 1.2)
              then (cylinder, cyl_params, cyl_error)
              else best
          | None =>
              let r_avg := (r1 + r2) / 2 in
              (cylinder, [r_avg], best_error)
          end
        else best
      else best
  | _, _ => best
  end.

(** The selection among the surviving candidates: the candidate of lowest
    adjusted error (the first one among equals), then the
    cylinder-preference fix.  [None] when no fit survived. *)
Definition select_best_fit (fit_results : list FitResult) : option FitResult :=
  match
    sort_by_adjusted
      (map (fun f => (f, adjusted_error (fst (fst f)) (snd f))) fit_results)
  with
  | [] => None
  | (best, _) :: _ => Some (cylinder_preference fit_results best)
  end.

(** The continuity test and merged segment for two adjacent segments of
    the merge loop; [None] ends the merge run. *)
Definition try_merge (current next : Segment) : option Segment :=
  if negb (Shape_eqb (seg_shape next) (seg_shape current))
     || (seg_end current + 1 <? seg_start next)%Z then None
  else if Shape_eqb (seg_shape current) sphere_cap
          || Shape_eqb (seg_shape next) sphere_cap then None
  else
    match seg_shape current, seg_params current, seg_params next with
    | frustum, r1 :: r2_current :: _, r1_next :: r2 :: _ =>
        let radius_diff :=
          Qabs (r2_current - r1_next) / (Py.max r2_current r1_next + 1e-6) in
        if Py.Qltb radius_diff 0.1 then
          let h := (seg_end next - seg_start current)%Z in
          Some (mkSegment (seg_start current) (seg_end next) frustum
                          [r1; r2; inject_Z h])
        else None
    | frustum, _, _ => None
    | cylinder, r_current :: _, r_next :: _ =>
        let radius_diff :=
          Qabs (r_current - r_next) / (Py.max r_current r_next + 1e-6) in
        if Py.Qltb radius_diff 0.05 then
          Some (mkSegment (seg_start current) (seg_end next) cylinder
                          (seg_params current))
        else None
    | cone, r_current :: _, r_next :: _ =>
        let radius_diff :=
          Qabs (r_current - r_next) / (Py.max r_current r_next + 1e-6) in
        if Py.Qltb radius_diff 0.1 then
          Some (mkSegment (seg_start current) (seg_end next) cone
                          (seg_params current))
        else None
    | _, _, _ => None
    end.

(** The merge pass: [current] absorbs the following segments while the
    continuity test passes; the next unabsorbed segment starts a new run. *)
Fixpoint merge_from (current : Segment) (rest : list Segment) : list Segment :=
  match rest with
  | [] => [current]
  | next :: rest' =>
      match try_merge current next with
      | Some merged => merge_from merged rest'
      | None => current :: merge_from next rest'
      end
  end.

Definition merge_segments (segments : list Segment) : list Segment :=
  match segments with
  | [] => []
  | s :: rest => merge_from s rest
  end.

Section Fitting.

Variable L : SciLib.

Definition volume_cylinder (h r : Q) : Q := pi L * r ^ 2 * h.

Definition volume_frustum (h r1 r2 H : Q) : Q :=
  if Qeq_bool H 0 then 0
  else
    let r_interpolated := r1 + (r2 - r1) * (h / H) in
    (pi L * h / 3) * (r1 ^ 2 + r_interpolated ^ 2 + r1 * r_interpolated).

Definition volume_cone (h r_base H : Q) : Q :=
  if Qeq_bool H 0 then 0
  else
    let r_h := r_base * (h / H) in
    (pi L / 3) * h * r_h ^ 2.

Definition volume_sphere_cap (h R : Q) : Q :=
  let h_clamped := Py.min h (2 * R) in
  (pi L * h_clamped ^ 2 * (3 * R - h_clamped)) / 3.

(** The call [model(h, *popt)]; a wrong number of parameters raises. *)
Definition volume_model (s : Shape) (h : Q) (popt : list Q) : option Q :=
  match s, popt with
  | cylinder, [r] => Some (volume_cylinder h r)
  | frustum, [r1; r2; H] => Some (volume_frustum h r1 r2 H)
  | cone, [r_base; H] => Some (volume_cone h r_base H)
  | sphere_cap, [R] => Some (volume_sphere_cap h R)
  | _, _ => None
  end.

(** The percent error of fitted parameters over a segment:
    [np.mean(np.abs(model(x - x[0], *popt) + y[0] - y)) / (y[-1] + 1e-6) * 100]. *)
Definition fit_error_pct (s : Shape) (x y : list Q) (popt : list Q)
  : option Q :=
  x0 <- Py.getitem x 0 ;;
  y0 <- Py.getitem y 0 ;;
  y_last <- Py.last_item y ;;
  fitted <- map_option (fun xi => volume_model s (xi - x0) popt) x ;;
  let error :=
    Py.mean (map (fun p => Qabs (fst p + y0 - snd p)) (combine fitted y)) in
  Some (error / (y_last + 1e-6) * 100).

(** One attempt: the bounded least-squares fit of a model followed by
    its error; [None] is an exception, caught by the caller. *)
Definition attempt_fit (s : Shape) (x y p0 lower upper : list Q)
  : option (list Q * Q) :=
  x0 <- Py.getitem x 0 ;;
  y0 <- Py.getitem y 0 ;;
  popt <- curve_fit L s (map (fun xi => xi - x0) x) (map (fun yi => yi - y0) y)
            p0 lower upper DEFAULT_PARAMS.maxfev ;;
  error_pct <- fit_error_pct s x y popt ;;
  Some (popt, error_pct).

Definition try_cylinder (x y : list Q) (guess_r : Q) : option FitResult :=
  let bounds_lower := GEOMETRIC_CONSTRAINTS.fit_bounds_lower * guess_r in
  let bounds_upper := GEOMETRIC_CONSTRAINTS.fit_bounds_upper * guess_r in
  '(popt_cyl, cyl_error_pct) <-
    attempt_fit cylinder x y [guess_r] [bounds_lower] [bounds_upper] ;;
  r <- Py.getitem popt_cyl 0 ;;
  Some (cylinder, [r], cyl_error_pct).

Definition try_frustum (area x y : list Q) (start end_ : Z)
    (mean_area height_span : Q) : option FitResult :=
  let len := Z.of_nat (length area) in
  area_start <-
    (if (start <? len)%Z then Py.getitem area start else Some mean_area) ;;
  area_end <- Py.getitem area (Z.min end_ (len - 1)) ;;
  let r1_guess := sqrt L (area_start / pi L) in
  let r2_guess := sqrt L (area_end / pi L) in
  let lo := GEOMETRIC_CONSTRAINTS.fit_bounds_lower in
  let hi := GEOMETRIC_CONSTRAINTS.fit_bounds_upper in
  '(popt_frust, frust_error_pct) <-
    attempt_fit frustum x y [r1_guess; r2_guess; height_span]
      [lo * r1_guess; lo * r2_guess; 0.8 * height_span]
      [hi * r1_guess; hi * r2_guess; 1.2 * height_span] ;;
  Some (frustum, popt_frust, frust_error_pct).

Definition try_cone (area x y : list Q) (end_ : Z) (height_span : Q)
  : option FitResult :=
  let len := Z.of_nat (length area) in
  area_end <- Py.getitem area (Z.min end_ (len - 1)) ;;
  let r_base_guess := sqrt L (area_end / pi L) in
  '(popt_cone, cone_error_pct) <-
    attempt_fit cone x y [r_base_guess; height_span]
      [0.1 * r_base_guess; 0.5 * height_span]
      [5 * r_base_guess; 2 * height_span] ;;
  Some (cone, popt_cone, cone_error_pct).

Definition try_sphere_cap (area x y : list Q) (start end_ : Z)
  : option FitResult :=
  let len := Z.of_nat (length area) in
  max_area <- Py.amax (Py.slice area start (Z.min (end_ + 1) len)) ;;
  let r_max := sqrt L (max_area / pi L) in
  let R_guess := 1.5 * r_max in
  '(popt_sphere, sphere_error_pct) <-
    attempt_fit sphere_cap x y [R_guess] [0.5 * R_guess] [10 * R_guess] ;;
  Some (sphere_cap, popt_sphere, sphere_error_pct).

(** [fit_results.append(...)] guarded by [try]/[except]. *)
Definition append_fit (fit_results : list FitResult) (r : option FitResult)
  : list FitResult :=
  match r with
  | Some f => fit_results ++ [f]
  | None => fit_results
  end.

(** The candidates that survive for the segment [start .. end_], in the
    order the four fits are attempted. *)
Definition fit_candidates (area x y : list Q) (start end_ : Z)
    (mean_area guess_r height_span : Q) : list FitResult :=
  let fit_results := [] in
  let fit_results := append_fit fit_results (try_cylinder x y guess_r) in
  let fit_results :=
    append_fit fit_results
               (try_frustum area x y start end_ mean_area height_span) in
  let fit_results :=
    append_fit fit_results (try_cone area x y end_ height_span) in
  let fit_results :=
    append_fit fit_results (try_sphere_cap area x y start end_) in
  fit_results.

(** The body of the fitting loop for one pair of transitions: the
    segment and the error it records. *)
Definition fit_segment (df_areas : DataFrame) (start end_ : Z)
  : option (Segment * Q) :=
  let area := map Area df_areas in
  let rows := Py.slice df_areas start (end_ + 1) in
  let x := map Height_mm rows in
  let y := map Volume_mm3 rows in
  x_last <- Py.last_item x ;;
  x_first <- Py.getitem x 0 ;;
  let height_span := x_last - x_first in
  let mean_area := Py.median (Py.slice area start (end_ + 1)) in
  let guess_r := sqrt L (mean_area / pi L) in
  match
    select_best_fit
      (fit_candidates area x y start end_ mean_area guess_r height_span)
  with
  | Some (best_shape, best_params, best_error) =>
      Some (mkSegment start end_ best_shape best_params, best_error)
  | None => Some (mkSegment start end_ cylinder [guess_r], 0)
  end.

(** The fitting loop over consecutive transitions; segments of fewer
    than [min_points] points are skipped. *)
Fixpoint fit_loop (df_areas : DataFrame) (transitions : list Z)
  : option (list (Segment * Q)) :=
  match transitions with
  | start :: ((end_ :: _) as rest) =>
      if (end_ - start + 1 <? DEFAULT_PARAMS.min_points)%Z
      then fit_loop df_areas rest
      else
        r <- fit_segment df_areas start end_ ;;
        rs <- fit_loop df_areas rest ;;
        Some (r :: rs)
  | _ => Some []
  end.

(** The transitions used by the pipeline, by the configured method. *)
Definition detect_transitions (df_areas : DataFrame) : option (list Z) :=
  let area := map Area df_areas in
  let heights := map Height_mm df_areas in
  if DEFAULT_PARAMS.transition_detection_method_improved then
    find_optimal_transitions_improved L area (Some heights)
      DEFAULT_PARAMS.min_points DEFAULT_PARAMS.use_adaptive_threshold
  else
    find_optimal_transitions L area DEFAULT_PARAMS.min_points
      DEFAULT_PARAMS.percentile DEFAULT_PARAMS.variance_threshold.

(** The numerical part of [segment_and_fit_optimized]: the merged
    segment list and the list [fit_errors]. *)
Definition segment_and_fit (df_areas : DataFrame)
  : option (list Segment * list Q) :=
  transitions <- detect_transitions df_areas ;;
  fitted <- fit_loop df_areas transitions ;;
  Some (merge_segments (map fst fitted), map snd fitted).

End Fitting.

(** ** Job tracking and the clock *)

(** The system clock: the readings that [time.time()] and
    [datetime.now()] will return, and how many were taken. *)
Record World : Type := mkWorld {
  clock : nat -> Q;
  reads : nat
}.

Definition read_clock (w : World) : Q * World :=
  (clock w (reads w), mkWorld (clock w) (S (reads w))).

(** The steps tracked by an [AnalysisJob]. *)
Inductive StepName : Type :=
| Segmentation_and_Fitting
| Profile_Generation.

(** The fields of [AnalysisJob] written by the engine. *)
Record AnalysisJob : Type := mkJob {
  steps_completed : list (StepName * Q * Q);
  warnings : list Q;
  segments_count : Z;
  fit_errors : list Q;
  avg_fit_error : Q;
  max_fit_error : Q;
  profile_points : Z
}.

(** [job.complete_step(name, duration)], which stamps the step with
    [datetime.now()]. *)
Definition complete_step (job : AnalysisJob) (name : StepName) (duration : Q)
    (w : World) : AnalysisJob * World :=
  let '(timestamp, w) := read_clock w in
  (mkJob (steps_completed job ++ [(name, timestamp, duration)])
         (warnings job) (segments_count job) (fit_errors job)
         (avg_fit_error job) (max_fit_error job) (profile_points job), w).

(** [job.add_warning(msg)]: the time stamp of the warning is recorded. *)
Definition add_warning (job : AnalysisJob) (w : World) : AnalysisJob * World :=
  let '(timestamp, w) := read_clock w in
  (mkJob (steps_completed job) (warnings job ++ [timestamp])
         (segments_count job) (fit_errors job)
         (avg_fit_error job) (max_fit_error job) (profile_points job), w).

Section Pipeline.

Variable L : SciLib.

(** [segment_and_fit_optimized(df_areas, job)]: the segment list, the
    job after the call and the clock after the call. *)
Definition segment_and_fit_optimized (df_areas : DataFrame)
    (job : option AnalysisJob) (w : World)
  : option (list Segment * option AnalysisJob * World) :=
  let '(step_start, w) := read_clock w in
  let '(job, w) :=
    if (Z.of_nat (length df_areas) <? 10)%Z then
      match job with
      | Some j => let '(j, w) := add_warning j w in (Some j, w)
      | None => (None, w)
      end
    else (job, w) in
  '(segments, errors) <- segment_and_fit L df_areas ;;
  match job with
  | Some j =>
      let '(now, w) := read_clock w in
      let '(j, w) := complete_step j Segmentation_and_Fitting
                                   (now - step_start) w in
      let j :=
        mkJob (steps_completed j) (warnings j)
              (Z.of_nat (length segments)) errors
              (match errors with [] => 0 | _ => Py.mean errors end)
              (match Py.amax errors with Some m => m | None => 0 end)
              (profile_points j) in
      Some (segments, Some j, w)
  | None => Some (segments, None, w)
  end.

(** *** Profile reconstruction *)

(** The direct radius-from-area profile. *)
Definition direct_profile (df_areas : DataFrame) : list Q * list Q :=
  (map Height_mm df_areas,
   map (fun row => sqrt L (Py.max (Area row / pi L) 0.01)) df_areas).

(** The analytic radius curve of a segment over the relative heights
    [h_rel], and its slope at the end of the segment. *)
Definition segment_curve (df_areas : DataFrame) (seg : Segment)
    (h_rel : list Q) (h_span : Q) : option (list Q * Q) :=
  match seg_shape seg, seg_params seg with
  | cylinder, [r] => Some (map (fun _ => r) h_rel, 0)
  | frustum, [r1; r2; _] =>
      Some (map (fun h => r1 + (r2 - r1) * (h / h_span)) h_rel,
            (r2 - r1) / h_span)
  | frustum, _ :: _ :: _ :: _ :: _ => None
  | cone, [r_base; H] =>
      if Qeq_bool H 0 then None
      else Some (map (fun h => r_base * (h / H)) h_rel, r_base / H)
  | cone, _ :: _ :: _ :: _ => None
  | sphere_cap, R :: _ =>
      let r_seg :=
        map (fun h => sqrt L (Py.max (2 * R * h - h ^ 2) 0.01)) h_rel in
      h_end_rel <- Py.last_item h_rel ;;
      r_end_val <- Py.last_item r_seg ;;
      Some (r_seg,
            if Py.Qltb 0.01 r_end_val then (R - h_end_rel) / r_end_val else 0)
  | _, _ =>
      row_start <- Py.getitem df_areas (seg_start seg) ;;
      row_end <-
        Py.getitem df_areas
                   (Z.min (seg_end seg) (Z.of_nat (length df_areas) - 1)) ;;
      let r_start := sqrt L (Area row_start / pi L) in
      let r_end := sqrt L (Area row_end / pi L) in
      Some (map (fun h => r_start + (r_end - r_start) * (h / h_span)) h_rel,
            (r_end - r_start) / h_span)
  end.

(** The starting radius and slope of the next segment. *)
Definition next_segment_start (df_areas : DataFrame) (next : Segment)
  : option (Q * Q) :=
  match seg_shape next, seg_params next with
  | cylinder, [r] => Some (r, 0)
  | frustum, r1 :: r2 :: _ :: _ =>
      row_end <- Py.getitem df_areas (seg_end next) ;;
      row_start <- Py.getitem df_areas (seg_start next) ;;
      let next_h_span := Height_mm row_end - Height_mm row_start in
      Some (r1, if Py.Qltb 0 next_h_span then (r2 - r1) / next_h_span else 0)
  | cone, [r_base; H] =>
      Some (0.01, if Py.Qltb 0 H then r_base / H else 0)
  | cone, _ :: _ :: _ :: _ => None
  | sphere_cap, R :: _ =>
      let h_small := 0.1 in
      let next_r_start :=
        sqrt L (Py.max (2 * R * h_small - h_small ^ 2) 0.01) in
      Some (next_r_start,
            if Py.Qltb 0 next_r_start then (R - h_small) / next_r_start else 0)
  | _, _ =>
      row <- Py.getitem df_areas (seg_start next) ;;
      Some (sqrt L (Area row / pi L), 0)
  end.

(** One iteration of the segment loop: the heights and radii it appends
    to [full_z] and [full_r]; [next] is the following segment, if any. *)
Definition segment_piece (df_areas : DataFrame) (hermite_tension : Q)
    (seg : Segment) (next : option Segment) : option (list Q * list Q) :=
  row_start <- Py.getitem df_areas (seg_start seg) ;;
  row_end <- Py.getitem df_areas (seg_end seg) ;;
  let h_start := Height_mm row_start in
  let h_span := Height_mm row_end - h_start in
  if Qle_bool h_span 0 then Some ([], [])
  else
    let num_points :=
      Z.to_nat (Z.max 15 (Z.min 30 (seg_end seg - seg_start seg + 1))) in
    let h_rel := Py.linspace 0 h_span num_points in
    '(r_seg, slope_end) <- segment_curve df_areas seg h_rel h_span ;;
    let z_seg := map (fun h => h_start + h) h_rel in
    match next with
    | None => Some (z_seg, r_seg)
    | Some nxt =>
        next_row <- Py.getitem df_areas (seg_start nxt) ;;
        let next_h_start := Height_mm next_row in
        '(next_r_start, next_slope) <- next_segment_start df_areas nxt ;;
        z_last <- Py.last_item z_seg ;;
        r_last <- Py.last_item r_seg ;;
        '(z_trans, r_trans) <-
          hermite_spline_transition z_last r_last slope_end
            next_h_start next_r_start next_slope 25 hermite_tension ;;
        Some (z_seg ++ Py.slice z_trans 1 (-1),
              r_seg ++ Py.slice r_trans 1 (-1))
    end.

(** The loop over all segments. *)
Fixpoint profile_loop (df_areas : DataFrame) (hermite_tension : Q)
    (segments : list Segment) : option (list Q * list Q) :=
  match segments with
  | [] => Some ([], [])
  | seg :: rest =>
      '(z, r) <- segment_piece df_areas hermite_tension seg (hd_error rest) ;;
      '(zs, rs) <- profile_loop df_areas hermite_tension rest ;;
      Some (z ++ zs, r ++ rs)
  end.

(** [profile_df.drop_duplicates('z')]: the first row of each height. *)
Fixpoint drop_duplicates (seen : list Q) (rows : list (Q * Q))
  : list (Q * Q) :=
  match rows with
  | [] => []
  | (z, r) :: t =>
      if existsb (Qeq_bool z) seen then drop_duplicates seen t
      else (z, r) :: drop_duplicates (z :: seen) t
  end.

(** [sort_values('z')]. *)
Fixpoint insert_by_z (x : Q * Q) (l : list (Q * Q)) : list (Q * Q) :=
  match l with
  | [] => [x]
  | y :: t =>
      if Qle_bool (fst x) (fst y) then x :: l else y :: insert_by_z x t
  end.

Definition sort_values (rows : list (Q * Q)) : list (Q * Q) :=
  fold_right insert_by_z [] rows.

(** [create_enhanced_profile(segments, df_areas, job, transition_buffer,
    hermite_tension)]: the profile [(z, r)], the job and the clock. *)
Definition create_enhanced_profile (segments : list Segment)
    (df_areas : DataFrame) (job : option AnalysisJob) (hermite_tension : Q)
    (w : World)
  : option (list Q * list Q * option AnalysisJob * World) :=
  let '(step_start, w) := read_clock w in
  if (Z.of_nat (length segments) <=? 1)%Z then
    Some (direct_profile df_areas, job, w)
  else
    '(full_z, full_r) <- profile_loop df_areas hermite_tension segments ;;
    if (1 <? Z.of_nat (length full_z))%Z then
      let profile_df :=
        sort_values (drop_duplicates [] (combine full_z full_r)) in
      let r_final := gaussian_filter1d_nearest L (map snd profile_df) 0.8 in
      let r := map (fun x => Py.max x 0.1) r_final in
      let z := map fst profile_df in
      match job with
      | Some j =>
          let '(now, w) := read_clock w in
          let '(j, w) := complete_step j Profile_Generation
                                       (now - step_start) w in
          let j :=
            mkJob (steps_completed j) (warnings j) (segments_count j)
                  (fit_errors j) (avg_fit_error j) (max_fit_error j)
                  (Z.of_nat (length profile_df)) in
          Some (z, r, Some j, w)
      | None => Some (z, r, None, w)
      end
    else Some (direct_profile df_areas, job, w).

End Pipeline.

(** ** The copy of the analyzer at the repository root

    [container_geometry_analyzer_gui_v3_11_8.py] at the repository root
    is an earlier version of the analyzer module.  Its segmentation and
    fitting stage, [segment_and_fit_optimized], tries the cylinder and
    the frustum model only, compares their raw errors, and has no merge
    pass.  The stage reads the module-level dictionaries
    [DEFAULT_PARAMS] and [GEOMETRIC_CONSTRAINTS] each time it needs one
    of their entries: the two dictionaries are the state [Globals],
    which every function that reads an entry takes as an argument.
    [container_analyzer_v3.11.0_enhanced.py] has the same fitting loop;
    it always calls the legacy detector, and divides the errors by
    [y[-1]] instead of [y[-1] + 1e-6]. *)

Module RootCopy.

(** The entries of [DEFAULT_PARAMS] read by the stage.  An entry read
    as [DEFAULT_PARAMS[key]] is a field; an entry read as
    [DEFAULT_PARAMS.get(key, default)] may be absent. *)
Record Params : Type := mkParams {
  min_points : Z;
  maxfev : Z;
  transition_detection_method : option string;
  use_adaptive_threshold : option bool
}.

(** The entries of [GEOMETRIC_CONSTRAINTS] read by the stage. *)
Record Constraints : Type := mkConstraints {
  fit_bounds_lower : Q;
  fit_bounds_upper : Q
}.

(** The module-level state of the analyzer: its two dictionaries. *)
Record Globals : Type := mkGlobals {
  DEFAULT_PARAMS : Params;
  GEOMETRIC_CONSTRAINTS : Constraints
}.

(** [d.get(key, default)]. *)
Definition get {A} (entry : option A) (default : A) : A :=
  match entry with
  | Some v => v
  | None => default
  end.

(** The dictionaries as the module assigns them when it is loaded. *)
Definition initial_globals : Globals :=
  mkGlobals (mkParams 12 4000 (Some "improved"%string) (Some true))
            (mkConstraints 0.5 3.0).

Section Stage.

Variable L : SciLib.

(** *** The legacy detector of the copy *)

(** The validation loop: a segment of at least [min_points] points has
    its end appended when its variation exceeds the threshold or when it
    is the first or the last segment; [i] is the loop index of the
    first pair of [transitions]. *)
Fixpoint legacy_validate (area : list Q) (min_points : Z)
    (variance_threshold : Q) (len_transitions i : Z) (transitions : list Z)
  : list Z :=
  match transitions with
  | seg_start :: ((seg_end :: _) as rest) =>
      let tail :=
        legacy_validate area min_points variance_threshold len_transitions
                        (i + 1) rest in
      if (seg_end - seg_start + 1 >=? min_points)%Z then
        let seg := Py.slice area seg_start seg_end in
        let seg_var := std L seg / (Py.mean seg + 1e-8) in
        if Py.Qltb variance_threshold seg_var
           || ((i =? 0) || (i =? len_transitions - 2))%Z
        then seg_end :: tail
        else tail
      else tail
  | _ => []
  end.

(** [find_optimal_transitions(area, min_points, percentile,
    variance_threshold)]. *)
Definition find_optimal_transitions (area : list Q) (min_points : Z)
    (percentile_ variance_threshold : Q) : option (list Z) :=
  let n := Z.of_nat (length area) in
  if (n <? 2 * min_points)%Z then Some [0%Z; (n - 1)%Z]
  else
    let window := smoothing_window n in
    let area_smooth :=
      try_except (savgol_filter L area window (Z.min 2 (window / 2)))
                 (rolling_median L area window) in
    let diff := Py.abs (Py.diff area_smooth) in
    let threshold := percentile L diff percentile_ in
    let candidates := map (fun i => (i + 1)%Z) (where_gt diff threshold) in
    let transitions :=
      close_at_end (0%Z :: legacy_spacing min_points candidates 0) n in
    let validated :=
      0%Z :: legacy_validate area min_points variance_threshold
                             (Z.of_nat (length transitions)) 0 transitions in
    validated <-
      match Py.last_item validated with
      | Some l =>
          if negb (l =? n - 1)%Z
          then Py.setitem validated (-1) (n - 1)%Z
          else Some validated
      | None => Py.setitem validated (-1) (n - 1)%Z
      end ;;
    Some (Py.sorted_set validated).

(** *** The improved detector of the copy

    The same as [find_optimal_transitions_improved] of the module under
    [src], except for the percentile applied without adaptive
    thresholding: 80. *)

Definition score_percentile (area : list Q) (n : Z) (use_adaptive : bool)
  : option Q :=
  if use_adaptive then
    snr <- estimate_snr L area n ;;
    Some (adaptive_percentile snr)
  else Some 80.

Definition improved_transitions (area heights : list Q) (min_points : Z)
    (use_adaptive : bool) : option (list Z) :=
  let n := Z.of_nat (length area) in
  score <- derivative_score L area heights n ;;
  pct <- score_percentile area n use_adaptive ;;
  let threshold := percentile L score pct in
  let candidates := score_candidates L score threshold min_points in
  Some (close_at_end
          (0%Z :: enforce_spacing min_points n (Py.sorted candidates) 0) n).

Definition find_optimal_transitions_improved (area : list Q)
    (heights : option (list Q)) (min_points : Z) (use_adaptive : bool)
  : option (list Z) :=
  let n := Z.of_nat (length area) in
  let heights :=
    match heights with
    | Some h => h
    | None => map inject_Z (Py.range 0 n)
    end in
  if (n <? 2 * min_points)%Z then Some [0%Z; (n - 1)%Z]
  else
    transitions <- improved_transitions area heights min_points use_adaptive ;;
    validate_transitions L area min_points transitions.

(** *** The fitting loop *)

(** A successful fit: parameters, mean absolute error, percent error. *)
Definition Fit : Type := (list Q * Q * Q)%type.

(** The body of a [try] block: the bounded least-squares fit of the
    model [s] and its two errors; [None] is an exception, caught by the
    [except] clause of the block. *)
Definition raw_fit (g : Globals) (s : Shape) (x y p0 lower upper : list Q)
  : option Fit :=
  x0 <- Py.getitem x 0 ;;
  y0 <- Py.getitem y 0 ;;
  popt <- curve_fit L s (map (fun xi => xi - x0) x) (map (fun yi => yi - y0) y)
            p0 lower upper (maxfev (DEFAULT_PARAMS g)) ;;
  fitted <- map_option (fun xi => volume_model L s (xi - x0) popt) x ;;
  let error :=
    Py.mean (map (fun p => Qabs (fst p + y0 - snd p)) (combine fitted y)) in
  y_last <- Py.last_item y ;;
  Some (popt, error, error / (y_last + 1e-6) * 100).

(** The cylinder fit of a segment. *)
Definition try_cylinder (g : Globals) (x y : list Q) (guess_r : Q)
  : option Fit :=
  let bounds_lower := fit_bounds_lower (GEOMETRIC_CONSTRAINTS g) * guess_r in
  let bounds_upper := fit_bounds_upper (GEOMETRIC_CONSTRAINTS g) * guess_r in
  raw_fit g cylinder x y [guess_r] [bounds_lower] [bounds_upper].

(** The frustum fit of a segment. *)
Definition try_frustum (g : Globals) (area x y : list Q) (start end_ : Z)
    (mean_area height_span : Q) : option Fit :=
  area_start <-
    (if (0 <? start)%Z then Py.getitem area start else Some mean_area) ;;
  area_end <-
    (if (end_ <? Z.of_nat (length area) - 1)%Z
     then Py.getitem area end_ else Some mean_area) ;;
  let r1_guess := sqrt L (area_start / pi L) in
  let r2_guess := sqrt L (area_end / pi L) in
  let lo := fit_bounds_lower (GEOMETRIC_CONSTRAINTS g) in
  let hi := fit_bounds_upper (GEOMETRIC_CONSTRAINTS g) in
  raw_fit g frustum x y [r1_guess; r2_guess; height_span]
    [lo * r1_guess; lo * r2_guess; 0.8 * height_span]
    [hi * r1_guess; hi * r2_guess; 1.2 * height_span].

(** The choice between the two fits: the segment appended and the
    percent error recorded. *)
Definition select_fit (start end_ : Z) (guess_r : Q)
    (cyl frust : option Fit) : option (Segment * Q) :=
  match cyl, frust with
  | Some (popt_cyl, cyl_error, cyl_error_pct), None =>
      r <- Py.getitem popt_cyl 0 ;;
      Some (mkSegment start end_ cylinder [r], cyl_error_pct)
  | Some (popt_cyl, cyl_error, cyl_error_pct),
    Some (popt_frust, frust_error, frust_error_pct) =>
      if Py.Qltb cyl_error frust_error then
        r <- Py.getitem popt_cyl 0 ;;
        Some (mkSegment start end_ cylinder [r], cyl_error_pct)
      else Some (mkSegment start end_ frustum popt_frust, frust_error_pct)
  | None, Some (popt_frust, frust_error, frust_error_pct) =>
      Some (mkSegment start end_ frustum popt_frust, frust_error_pct)
  | None, None => Some (mkSegment start end_ cylinder [guess_r], 0)
  end.

(** The median area and the initial radius of the segment
    [start .. end_]. *)
Definition segment_mean_area (df_areas : DataFrame) (start end_ : Z) : Q :=
  Py.median (Py.slice (map Area df_areas) start (end_ + 1)).

Definition segment_guess_r (df_areas : DataFrame) (start end_ : Z) : Q :=
  sqrt L (segment_mean_area df_areas start end_ / pi L).

(** The two fits attempted on the segment [start .. end_]. *)
Definition cylinder_attempt (g : Globals) (df_areas : DataFrame)
    (start end_ : Z) : option Fit :=
  let rows := Py.slice df_areas start (end_ + 1) in
  try_cylinder g (map Height_mm rows) (map Volume_mm3 rows)
               (segment_guess_r df_areas start end_).

Definition frustum_attempt (g : Globals) (df_areas : DataFrame)
    (start end_ : Z) : option Fit :=
  let rows := Py.slice df_areas start (end_ + 1) in
  let x := map Height_mm rows in
  x_last <- Py.last_item x ;;
  x_first <- Py.getitem x 0 ;;
  try_frustum g (map Area df_areas) x (map Volume_mm3 rows) start end_
              (segment_mean_area df_areas start end_) (x_last - x_first).

(** The body of the fitting loop for one pair of transitions. *)
Definition fit_segment (g : Globals) (df_areas : DataFrame) (start end_ : Z)
  : option (Segment * Q) :=
  let area := map Area df_areas in
  let rows := Py.slice df_areas start (end_ + 1) in
  let x := map Height_mm rows in
  let y := map Volume_mm3 rows in
  x_last <- Py.last_item x ;;
  x_first <- Py.getitem x 0 ;;
  let height_span := x_last - x_first in
  let mean_area := Py.median (Py.slice area start (end_ + 1)) in
  let guess_r := sqrt L (mean_area / pi L) in
  let cyl := try_cylinder g x y guess_r in
  let frust := try_frustum g area x y start end_ mean_area height_span in
  select_fit start end_ guess_r cyl frust.

(** The fitting loop over consecutive transitions; a stretch of fewer
    than [DEFAULT_PARAMS['min_points']] points is skipped. *)
Fixpoint fit_loop (g : Globals) (df_areas : DataFrame) (transitions : list Z)
  : option (list (Segment * Q)) :=
  match transitions with
  | start :: ((end_ :: _) as rest) =>
      if (end_ - start + 1 <? min_points (DEFAULT_PARAMS g))%Z
      then fit_loop g df_areas rest
      else
        r <- fit_segment g df_areas start end_ ;;
        rs <- fit_loop g df_areas rest ;;
        Some (r :: rs)
  | _ => Some []
  end.

(** The detector selected by
    [DEFAULT_PARAMS.get('transition_detection_method', 'legacy')]; the
    legacy detector is called with its default arguments. *)
Definition detect_transitions (g : Globals) (df_areas : DataFrame)
  : option (list Z) :=
  let area := map Area df_areas in
  let heights := map Height_mm df_areas in
  if String.eqb
       (get (transition_detection_method (DEFAULT_PARAMS g)) "legacy"%string)
       "improved"%string
  then
    find_optimal_transitions_improved area (Some heights)
      (min_points (DEFAULT_PARAMS g))
      (get (use_adaptive_threshold (DEFAULT_PARAMS g)) true)
  else find_optimal_transitions area 12 80 0.15.

(** The numerical part of [segment_and_fit_optimized]: the list
    [segments] and the list [fit_errors]. *)
Definition segment_and_fit (g : Globals) (df_areas : DataFrame)
  : option (list Segment * list Q) :=
  transitions <- detect_transitions g df_areas ;;
  fitted <- fit_loop g df_areas transitions ;;
  Some (map fst fitted, map snd fitted).

(** [segment_and_fit_optimized(df_areas, job)] as a transition of the
    state: the segment list, the job after the call, and the
    dictionaries and the clock after the call.  No statement of the
    function assigns to a dictionary. *)
Definition segment_and_fit_optimized (df_areas : DataFrame)
    (job : option AnalysisJob) (g : Globals) (w : World)
  : option (list Segment * option AnalysisJob * Globals * World) :=
  let '(step_start, w) := read_clock w in
  let '(job, w) :=
    if (Z.of_nat (length df_areas) <? 10)%Z then
      match job with
      | Some j => let '(j, w) := add_warning j w in (Some j, w)
      | None => (None, w)
      end
    else (job, w) in
  '(segments, errors) <- segment_and_fit g df_areas ;;
  match job with
  | Some j =>
      let '(now, w) := read_clock w in
      let '(j, w) := complete_step j Segmentation_and_Fitting
                                   (now - step_start) w in
      let j :=
        mkJob (steps_completed j) (warnings j)
              (Z.of_nat (length segments)) errors
              (match errors with [] => 0 | _ => Py.mean errors end)
              (match Py.amax errors with Some m => m | None => 0 end)
              (profile_points j) in
      Some (segments, Some j, g, w)
  | None => Some (segments, None, g, w)
  end.

End Stage.

End RootCopy.

(** ** The data-model invariant of a segment list *)

(** Consecutive segments share their boundary index. *)
Fixpoint contiguous (segments : list Segment) : bool :=
  match segments with
  | s :: ((s' :: _) as rest) =>
      (seg_start s' =? seg_end s)%Z && contiguous rest
  | _ => true
  end.

(** The invariant for an area sequence of [n] points: every segment has
    [start < end], consecutive segments are contiguous, the first
    segment starts at index 0 and the last one ends at index [n - 1]. *)
Definition segments_invariant (n : Z) (segments : list Segment) : bool :=
  forallb (fun s => (seg_start s <? seg_end s)%Z) segments
  && contiguous segments
  && match hd_error segments with
     | Some s => (seg_start s =? 0)%Z
     | None => false
     end
  && match Py.last_item segments with
     | Some s => (seg_end s =? n - 1)%Z
     | None => false
     end.

(** A chain of segments from index [a] to index [b]: contiguous, in
    order, each spanning at least [min_points] points. *)
Fixpoint chain (min_points a : Z) (segments : list Segment) (b : Z) : Prop :=
  match segments with
  | [] => a = b
  | s :: rest =>
      seg_start s = a /\ (seg_end s - seg_start s + 1 >= min_points)%Z
      /\ chain min_points (seg_end s) rest b
  end.

(** Heights in strictly increasing order. *)
Fixpoint strictly_increasing (l : list Q) : Prop :=
  match l with
  | x :: ((y :: _) as t) => x < y /\ strictly_increasing t
  | _ => True
  end.

(** The middle one of three integers. *)
Definition middle_of_three (a b c : Z) : Z :=
  Z.max (Z.min a b) (Z.min (Z.max a b) c).

(** Successive elements of [l], starting after [last], are at least
    [min_points] apart. *)
Fixpoint gaps_from (min_points last : Z) (l : list Z) : Prop :=
  match l with
  | [] => True
  | c :: t => (c - last >= min_points)%Z /\ gaps_from min_points c t
  end.

(** ** Sample inputs *)

(** A fixed-point square root with six decimals. *)
Definition fixed_sqrt (x : Q) : Q :=
  inject_Z (Z.sqrt (Qfloor (x * 1000000000000))) / 1000000.

(** A library whose fits all fail and whose filters return their input;
    [find_peaks] reports [peaks]. *)
Definition sample_lib (peaks : list Z) : SciLib :=
  {| savgol_filter := fun x _ _ => Some x;
     gaussian_filter1d := fun x _ => x;
     gaussian_filter1d_nearest := fun x _ => x;
     rolling_median := fun x _ => x;
     gradient := fun f _ => Some (map (fun _ => 0) f);
     gradient_unit := fun f => Some (map (fun _ => 0) f);
     percentile := fun _ _ => 0;
     find_peaks := fun _ _ _ => Some peaks;
     std := fun _ => 0;
     corrcoef := fun _ _ => None;
     polyfit1 := fun _ _ => (0, 0);
     curve_fit := fun _ _ _ _ _ _ _ => None;
     sqrt := fixed_sqrt;
     pi := 3.14159;
     pow15 := fun x => x |}.

(** An area table of [n] rows, one per millimetre, of a cylinder of
    cross-section 100. *)
Definition cylinder_table (n : nat) : DataFrame :=
  map (fun k => mkRow (inject_Z (Z.of_nat k)) (100 * inject_Z (Z.of_nat k)) 100)
      (seq 1 n).

(** An area table of 30 rows, one per millimetre: cross-section 100 over
    the first 25 rows, 200 over the last 5, so that the area changes at
    index 25. *)
Definition step_table : DataFrame :=
  map (fun k =>
         let h := inject_Z (Z.of_nat k) in
         if (k <=? 25)%nat then mkRow h (100 * h) 100
         else mkRow h (2500 + 200 * (h - 25)) 200)
      (seq 1 30).

(** A library whose least-squares solver finds the parameters [truth]
    for the model [k] and stops at its initial guess for the other
    models. *)
Definition exact_fit_lib (k : Shape) (truth : list Q) : SciLib :=
  {| savgol_filter := fun x _ _ => Some x;
     gaussian_filter1d := fun x _ => x;
     gaussian_filter1d_nearest := fun x _ => x;
     rolling_median := fun x _ => x;
     gradient := fun f _ => Some (map (fun _ => 0) f);
     gradient_unit := fun f => Some (map (fun _ => 0) f);
     percentile := fun _ _ => 0;
     find_peaks := fun _ _ _ => Some [];
     std := fun _ => 0;
     corrcoef := fun _ _ => None;
     polyfit1 := fun _ _ => (0, 0);
     curve_fit := fun s _ _ p0 _ _ _ =>
                    if Shape_eqb s k then Some truth else Some p0;
     sqrt := fixed_sqrt;
     pi := 3;
     pow15 := fun x => x |}.

(** The area table of 13 rows, at heights 0 to 12, of a container whose
    volume follows the model [k] with parameters [truth] and whose
    cross-section at height [h] is [area h]. *)
Definition shape_table (k : Shape) (truth : list Q) (area : Q -> Q)
  : DataFrame :=
  map (fun i =>
         let h := inject_Z (Z.of_nat i) in
         mkRow h
               (match volume_model (exact_fit_lib k truth) k h truth with
                | Some v => Qred v
                | None => 0
                end)
               (Qred (area h)))
      (seq 0 13).

(** The number of parameters of a model. *)
Definition arity (s : Shape) : nat :=
  match s with
  | cylinder => 1
  | frustum => 3
  | cone => 2
  | sphere_cap => 1
  end.

(** The segments fitted on [cylinder_table 30] with [sample_lib [14]]:
    two fall-back cylinders of equal radius, merged into one. *)
Definition sample_segments : list Segment :=
  [mkSegment 0 29 cylinder [fixed_sqrt (100 / 3.14159)]].

(** A clock that always reads 0. *)
Definition still_clock : World := mkWorld (fun _ => 0) 0.

(** A clock that advances by one second at each reading, and a job
    that has recorded nothing yet. *)
Definition ticking_clock : World :=
  mkWorld (fun k => inject_Z (Z.of_nat k)) 0.

Definition new_job : AnalysisJob := mkJob [] [] 0 [] 0 0 0.

(** A cylinder over rows 0 to 12 and a frustum over rows 15 to 29 of
    [cylinder_table 30], joined by a transition arc, and the profile
    reconstructed from them. *)
Definition sample_two_segments : list Segment :=
  [mkSegment 0 12 cylinder [5]; mkSegment 15 29 frustum [6; 8; 14]].


(** ** Area computation *)

(** A row of the table returned by [load_data_csv]: the columns
    ['Height_mm'], ['Volume_mm3'] and ['Volume_ml']. *)
Record Measurement : Type := mkMeasurement {
  height_mm : Q;
  volume_mm3 : Q;
  volume_ml : Q
}.

(** A row of the table returned by [compute_areas]. *)
Record AreaRow : Type := mkAreaRow {
  ar_Height_mm : Q;
  ar_Volume_mm3 : Q;
  ar_Volume_ml : Q;
  ar_dV : Q;
  ar_dh : Q;
  ar_Area : Q;
  ar_MidHeight : Q
}.

(** The columns of the area table read by the engine. *)
Definition area_table (df : list AreaRow) : DataFrame :=
  map (fun a => mkRow (ar_Height_mm a) (ar_Volume_mm3 a) (ar_Area a)) df.

(** [scipy.ndimage.median_filter(a, size=3)] with its default boundary
    mode, which repeats the first and the last value. *)
Definition median_filter3 (a : list Q) : list Q :=
  map (fun i =>
         Py.median [nth (i - 1) a 0; nth i a 0;
                    nth (Nat.min (i + 1) (length a - 1)) a 0])
      (seq 0 (length a)).

(** [Series.diff().fillna(fill)]. *)
Definition diff_fillna (l : list Q) (fill : Q) : list Q :=
  match l with
  | [] => []
  | _ :: _ => fill :: Py.diff l
  end.

(** [np.diff(a, prepend=p)]. *)
Definition diff_prepend (a : list Q) (p : Q) : list Q := Py.diff (p :: a).

(** The window of the local regression: [min(9, max(5, n // 10))], made
    odd. *)
Definition regression_window (n : Z) : Z :=
  let window := Z.min 9 (Z.max 5 (n / 10)) in
  if (window mod 2 =? 0)%Z then (window + 1)%Z else window.

Section Areas.

(** [np.polyfit(x, y, deg=1)]: slope and intercept; [None] is a
    [LinAlgError] or a [ValueError]. *)
Variable polyfit : list Q -> list Q -> option (Q * Q).

(** The body of the loop [for i in range(n)] of the local regression:
    the value stored in [areas[i]]. *)
Definition local_area (heights volumes : list Q) (min_dv : Q) (window i : Z)
  : Q :=
  let n := Z.of_nat (length heights) in
  let half_win := (window / 2)%Z in
  let i_start := Z.max 0 (i - half_win) in
  let i_end := Z.min n (i + half_win + 1) in
  let h_local := Py.slice heights i_start i_end in
  let v_local := Py.slice volumes i_start i_end in
  let at_ (l : list Q) (k : Z) := nth (Z.to_nat k) l 0 in
  match
    (if (2 <=? Z.of_nat (length h_local))%Z then
       '(dV_dh, _) <- polyfit h_local v_local ;;
       Some (Py.max dV_dh min_dv)
     else Some min_dv)
  with
  | Some a => a
  | None =>
      if (0 <? i)%Z then
        let dV := at_ volumes i - at_ volumes (i - 1)%Z in
        let dh := at_ heights i - at_ heights (i - 1)%Z in
        Py.max (dV / (dh + 1e-6)) min_dv
      else min_dv
  end.

(** [compute_areas(df, min_dv, use_local_regression)]; [min_dv = None]
    stands for the configured minimum differential volume. *)
Definition compute_areas (df : list Measurement) (min_dv : option Q)
    (use_local_regression : bool) : list AreaRow :=
  let min_dv :=
    match min_dv with
    | Some v => v
    | None => GEOMETRIC_CONSTRAINTS.min_differential_volume
    end in
  let heights := map height_mm df in
  let volumes := map volume_mm3 df in
  let n := Z.of_nat (length heights) in
  let rows (dV dh Area_ MidHeight : list Q) : list AreaRow :=
    map (fun p =>
           let '(m, dV, dh, a, mid) := p in
           mkAreaRow (height_mm m) (volume_mm3 m) (volume_ml m) dV dh a mid)
        (combine (combine (combine (combine df dV) dh) Area_) MidHeight) in
  let df :=
    if use_local_regression && (5 <=? n)%Z then
      let window := regression_window n in
      let areas :=
        map (local_area heights volumes min_dv window) (Py.range 0 n) in
      let areas := median_filter3 areas in
      rows (diff_prepend volumes 0) (diff_prepend heights 0.1) areas heights
    else
      let dV := diff_fillna volumes 0 in
      let dh := diff_fillna heights 0.1 in
      let dV := map (fun x => Py.max x min_dv) dV in
      let dh := map (fun x => Py.max x 0.01) dh in
      let Area_ := map (fun p => fst p / snd p) (combine dV dh) in
      let Area_ := map (fun x => Py.max x min_dv) Area_ in
      let MidHeight :=
        map (fun p => (fst p + snd p) / 2)
            (combine heights
                     (match heights with
                      | [] => []
                      | h0 :: _ => h0 :: Py.slice_to heights (-1)
                      end)) in
      rows dV dh Area_ MidHeight in
  if negb use_local_regression then Py.slice_from df 1 else df.

End Areas.

(** ** Volume of a profile *)

(** [np.cumsum]. *)
Fixpoint cumsum_from (acc : Q) (l : list Q) : list Q :=
  match l with
  | [] => []
  | x :: t => let s := acc + x in s :: cumsum_from s t
  end.

Definition cumsum (l : list Q) : list Q :=
  match l with
  | [] => []
  | x :: t => x :: cumsum_from x t
  end.

(** The product [a * b] of two one-dimensional arrays, with numpy's
    broadcasting of an array of length 1; [None] is the [ValueError] for
    shapes that do not match. *)
Definition broadcast_mul (a b : list Q) : option (list Q) :=
  if (length a =? length b)%nat
  then Some (map (fun p => fst p * snd p) (combine a b))
  else
    match a, b with
    | [x], _ => Some (map (fun y => x * y) b)
    | _, [y] => Some (map (fun x => x * y) a)
    | _, _ => None
    end.

Section ProfileVolume.

Variable L : SciLib.

(** [calculate_profile_volume(z, r)]: the cumulative volume along the
    profile. *)
Definition calculate_profile_volume (z r : list Q) : option (list Q) :=
  if (Z.of_nat (length z) <? 2)%Z then Some [0]
  else
    let dz := Py.diff z in
    let r_avg :=
      map (fun p => (fst p + snd p) / 2)
          (combine (Py.slice_to r (-1)) (Py.slice_from r 1)) in
    let areas := map (fun x => pi L * x ^ 2) r_avg in
    dvol <- broadcast_mul areas dz ;;
    Some (0 :: cumsum dvol).

End ProfileVolume.

(** ** Mesh construction in the exporters *)

(** A mesh vertex [[x, y, z]] and a triangle of vertex indices. *)
Definition Vertex : Type := (Q * Q * Q)%type.
Definition Face : Type := (Z * Z * Z)%type.

(** Assignment of a one-dimensional array to [n] slots, with numpy's
    broadcasting of an array of length 1; [None] is the [ValueError]. *)
Definition broadcast_to (n : nat) (l : list Q) : option (list Q) :=
  if (length l =? n)%nat then Some l
  else
    match l with
    | [x] => Some (repeat x n)
    | _ => None
    end.

(** The dictionary [point_index] of the VTK exporter, from the keys
    [(k, i, j)] to point numbers: the latest entry of a key is the one
    found; [None] is a [KeyError]. *)
Definition key_eqb (a b : Z * Z * Z) : bool :=
  let '(k, i, j) := a in
  let '(k', i', j') := b in
  ((k =? k') && (i =? i') && (j =? j'))%Z.

Definition dict_set (d : list (Z * Z * Z * Z)) (key : Z * Z * Z) (v : Z)
  : list (Z * Z * Z * Z) :=
  (key, v) :: d.

Definition dict_get (d : list (Z * Z * Z * Z)) (key : Z * Z * Z) : option Z :=
  match find (fun e => key_eqb (fst e) key) d with
  | Some e => Some (snd e)
  | None => None
  end.

Section Meshes.

Variable L : SciLib.

(** [np.cos] and [np.sin]. *)
Variables cos sin : Q -> Q.

(** [z_min = z_profile.min(); if z_min > 0: z_profile = z_profile - z_min]. *)
Definition shift_to_ground (z_profile : list Q) : option (list Q) :=
  z_min <- Py.amin z_profile ;;
  Some (if Py.Qltb 0 z_min then map (fun z => z - z_min) z_profile
        else z_profile).

(** [np.linspace(0, 2 * np.pi, num, endpoint=False)]. *)
Definition ring_angles (num : Z) : list Q :=
  map (fun i => 0 + inject_Z i * ((2 * pi L - 0) / inject_Z num))
      (Py.range 0 num).

(** The triangles of the side wall of the STL mesh. *)
Definition stl_sidewall_faces (angular_res n_p : Z) : list Face :=
  flat_map
    (fun i =>
       let i_next := ((i + 1) mod angular_res)%Z in
       let base := (i * n_p)%Z in
       let next_base := (i_next * n_p)%Z in
       flat_map
         (fun j =>
            let v0 := (base + j)%Z in
            let v1 := (base + j + 1)%Z in
            let v2 := (next_base + j)%Z in
            let v3 := (next_base + j + 1)%Z in
            [(v0, v2, v1); (v1, v2, v3)])
         (Py.range 0 (n_p - 1)))
    (Py.range 0 angular_res).

(** The vertex and face arrays that [export_stl_watertight] hands to
    [trimesh]; the inner [None] is the return value [None] of a call
    that exports nothing, the outer one an exception. *)
Definition export_stl_watertight (has_trimesh : bool)
    (z_profile r_profile : list Q)
  : option (option (list Vertex * list Face)) :=
  if negb has_trimesh then Some None
  else if (Z.of_nat (length z_profile) <? 3)%Z then Some None
  else
    z_profile <- shift_to_ground z_profile ;;
    total_h <- Py.amax z_profile ;;
    let angular_res := if Py.Qltb total_h 50 then 48%Z else 60%Z in
    let angles := ring_angles angular_res in
    let n_p := Z.of_nat (length z_profile) in
    r_wall <- broadcast_to (length z_profile) r_profile ;;
    let verts :=
      flat_map
        (fun angle =>
           map (fun p => (fst p * cos angle, fst p * sin angle, snd p))
               (combine r_wall z_profile))
        angles in
    let faces := stl_sidewall_faces angular_res n_p in
    bottom_r <- Py.getitem r_profile 0 ;;
    let bottom_base := Z.of_nat (length verts) in
    let bottom_verts :=
      map (fun angle => (bottom_r * cos angle, bottom_r * sin angle, 0))
          angles in
    let center_bottom := [(0, 0, 0)] in
    let verts := verts ++ bottom_verts ++ center_bottom in
    let center_idx := (Z.of_nat (length verts) - 1)%Z in
    let bottom_faces :=
      map (fun k =>
             let k_next := ((k + 1) mod angular_res)%Z in
             (center_idx, (bottom_base + k_next)%Z, (bottom_base + k)%Z))
          (Py.range 0 angular_res) in
    Some (Some (verts, faces ++ bottom_faces)).

(** The triangles of the side wall of the DirectX mesh. *)
Definition directx_sidewall_faces (angular_res n_profile : Z) : list Face :=
  flat_map
    (fun i =>
       flat_map
         (fun j =>
            let j_next := ((j + 1) mod angular_res)%Z in
            let v0 := (i * angular_res + j)%Z in
            let v1 := (i * angular_res + j_next)%Z in
            let v2 := ((i + 1) * angular_res + j_next)%Z in
            let v3 := ((i + 1) * angular_res + j)%Z in
            [(v0, v1, v2); (v0, v2, v3)])
         (Py.range 0 angular_res))
    (Py.range 0 (n_profile - 1)).

(** The vertex and face arrays written by [export_directx]. *)
Definition export_directx (z_profile r_profile : list Q)
  : option (option (list Vertex * list Face)) :=
  if (Z.of_nat (length z_profile) <? 3)%Z then Some None
  else
    z_profile <- shift_to_ground z_profile ;;
    let angular_res := 48%Z in
    let n_profile := Z.of_nat (length z_profile) in
    let angles := ring_angles angular_res in
    rings <-
      map_option
        (fun i =>
           z <- Py.getitem z_profile i ;;
           r <- Py.getitem r_profile i ;;
           Some (map (fun angle => (r * cos angle, r * sin angle, z)) angles))
        (Py.range 0 n_profile) ;;
    let vertices := concat rings in
    let vertices := vertices ++ [(0, 0, 0)] in
    let center_idx := (Z.of_nat (length vertices) - 1)%Z in
    r0 <- Py.getitem r_profile 0 ;;
    let vertices :=
      vertices
      ++ map (fun angle => (r0 * cos angle, r0 * sin angle, 0)) angles in
    let faces := directx_sidewall_faces angular_res n_profile in
    let bottom_ring_start := (center_idx + 1)%Z in
    let bottom_faces :=
      map (fun j =>
             let j_next := ((j + 1) mod angular_res)%Z in
             (center_idx, (bottom_ring_start + j_next)%Z,
              (bottom_ring_start + j)%Z))
          (Py.range 0 angular_res) in
    Some (Some (vertices, faces ++ bottom_faces)).

(** The grid parameters of the VTK exporter. *)
Definition n_radial : Z := 5.
Definition n_angular : Z := 24.

(** [points.append(p); point_index[key] = len(points) - 1]. *)
Definition vtk_add_point (st : list Vertex * list (Z * Z * Z * Z))
    (key : Z * Z * Z) (p : Vertex) : list Vertex * list (Z * Z * Z * Z) :=
  let points := fst st ++ [p] in
  (points, dict_set (snd st) key (Z.of_nat (length points) - 1)%Z).

(** The loop [for j in range(n_angular)] on level [k] at radial
    division [i]. *)
Definition vtk_ring (z r : Q) (k i : Z)
    (st : list Vertex * list (Z * Z * Z * Z))
  : list Vertex * list (Z * Z * Z * Z) :=
  fold_left
    (fun st j =>
       let theta := inject_Z j / inject_Z n_angular * 2 * pi L in
       vtk_add_point st (k, i, j) (r * cos theta, r * sin theta, z))
    (Py.range 0 n_angular) st.

(** The loop [for i in range(n_radial + 1)] on level [k]. *)
Definition vtk_level (z r_max : Q) (k : Z)
    (st : list Vertex * list (Z * Z * Z * Z))
  : list Vertex * list (Z * Z * Z * Z) :=
  fold_left
    (fun st i =>
       let r := inject_Z i / inject_Z n_radial * r_max in
       if (i =? 0)%Z then vtk_add_point st (k, i, 0%Z) (0, 0, z)
       else vtk_ring z r k i st)
    (Py.range 0 (n_radial + 1)) st.

(** The loop [for k in range(n_vertical)] over the levels [ks]. *)
Fixpoint vtk_points (z_profile r_profile : list Q) (ks : list Z)
    (st : list Vertex * list (Z * Z * Z * Z))
  : option (list Vertex * list (Z * Z * Z * Z)) :=
  match ks with
  | [] => Some st
  | k :: rest =>
      z <- Py.getitem z_profile k ;;
      r_max <- Py.getitem r_profile k ;;
      vtk_points z_profile r_profile rest (vtk_level z r_max k st)
  end.

(** The eight point numbers of the cell [(k, i, j)]. *)
Definition vtk_cell (point_index : list (Z * Z * Z * Z)) (k i j : Z)
  : option (list Z) :=
  let j_next := ((j + 1) mod n_angular)%Z in
  let at_ (k i j : Z) := dict_get point_index (k, i, j) in
  let quad (k : Z) : option (list Z) :=
    if (i =? 0)%Z then
      v0 <- at_ k 0%Z 0%Z ;;
      v1 <- at_ k 1%Z j ;;
      v2 <- at_ k 1%Z j_next ;;
      v3 <- at_ k 0%Z 0%Z ;;
      Some [v0; v1; v2; v3]
    else
      v0 <- at_ k i j ;;
      v1 <- at_ k (i + 1)%Z j ;;
      v2 <- at_ k (i + 1)%Z j_next ;;
      v3 <- at_ k i j_next ;;
      Some [v0; v1; v2; v3] in
  bottom <- quad k ;;
  top <- quad (k + 1)%Z ;;
  Some (bottom ++ top).

(** The point and cell arrays written by [export_vtk_hex]. *)
Definition export_vtk_hex (z_profile r_profile : list Q)
  : option (option (list Vertex * list (list Z))) :=
  if (Z.of_nat (length z_profile) <? 3)%Z then Some None
  else
    z_profile <- shift_to_ground z_profile ;;
    let n_vertical := Z.of_nat (length z_profile) in
    '(points, point_index) <-
      vtk_points z_profile r_profile (Py.range 0 n_vertical) ([], []) ;;
    cells <-
      map_option
        (fun kij => let '(k, i, j) := kij in vtk_cell point_index k i j)
        (flat_map
           (fun k =>
              flat_map
                (fun i => map (fun j => (k, i, j)) (Py.range 0 n_angular))
                (Py.range 0 n_radial))
           (Py.range 0 (n_vertical - 1))) ;;
    Some (Some (points, cells)).

End Meshes.

(** ** Notions used in the statements *)

(** Values in non-decreasing order. *)
Fixpoint nondecreasing (l : list Q) : Prop :=
  match l with
  | x :: ((y :: _) as t) => x <= y /\ nondecreasing t
  | _ => True
  end.

(** The volumes of the layers between successive points of a profile:
    each a disc of the mean radius of its two ends. *)
Fixpoint layer_list (L : SciLib) (z r : list Q) : list Q :=
  match z, r with
  | z0 :: ((z1 :: _) as zt), r0 :: ((r1 :: _) as rt) =>
      (pi L * ((r0 + r1) / 2) ^ 2 * (z1 - z0)) :: layer_list L zt rt
  | _, _ => []
  end.

(** The three indices of a triangle refer to vertices of an array of
    [n] vertices. *)
Definition face_in_range (n : nat) (f : Face) : Prop :=
  let '(a, b, c) := f in
  (0 <= a < Z.of_nat n)%Z /\ (0 <= b < Z.of_nat n)%Z
  /\ (0 <= c < Z.of_nat n)%Z.

(** Every point number held by the dictionary of a state of the VTK
    point loop is the number of a point of that state. *)
Definition dict_in_range (st : list Vertex * list (Z * Z * Z * Z)) : Prop :=
  Forall (fun e => (0 <= snd e < Z.of_nat (length (fst st)))%Z) (snd st).

(** The state [st'] extends the state [st] by [n] points and by the keys
    that satisfy [K], keeping the dictionary within range. *)
Definition vtk_extends (st st' : list Vertex * list (Z * Z * Z * Z))
    (n : nat) (K : Z * Z * Z -> Prop) : Prop :=
  length (fst st') = (length (fst st) + n)%nat
  /\ (forall key, In key (map fst (snd st'))
                  <-> K key \/ In key (map fst (snd st)))
  /\ (dict_in_range st -> dict_in_range st').

(** The keys entered on level [k] of the grid. *)
Definition level_key (k : Z) (key : Z * Z * Z) : Prop :=
  key = (k, 0%Z, 0%Z)
  \/ exists i j, (1 <= i <= n_radial)%Z /\ (0 <= j < n_angular)%Z
                 /\ key = (k, i, j).

(** A cell of eight point numbers of a grid of [n] points. *)
Definition cell_in_range (n : nat) (cell : list Z) : Prop :=
  length cell = 8%nat /\ Forall (fun v => (0 <= v < Z.of_nat n)%Z) cell.

(** A smoothing that returns a step from 0 to 1 at index 25 of 40
    samples for the window of the stability signal (7), and its input
    for the other windows. *)
Definition step_smoothing (x : list Q) (window polyorder : Z)
  : option (list Q) :=
  if (window =? 7)%Z
  then Some (map (fun k => if (k <? 25)%nat then 0 else 1) (seq 0 40))
  else Some x.

(** A library under which the stability signal of any 40 samples is
    that step: unit-spaced differences for [np.gradient(f)], a standard
    deviation of 0.1. *)
Definition stability_lib : SciLib :=
  {| savgol_filter := step_smoothing;
     gaussian_filter1d := fun x _ => x;
     gaussian_filter1d_nearest := fun x _ => x;
     rolling_median := fun x _ => x;
     gradient := fun f _ => Some (map (fun _ => 0) f);
     gradient_unit := fun f => Some (0 :: Py.diff f);
     percentile := fun _ _ => 0;
     find_peaks := fun _ _ _ => Some [];
     std := fun _ => 0.1;
     corrcoef := fun _ _ => None;
     polyfit1 := fun _ _ => (0, 0);
     curve_fit := fun _ _ _ _ _ _ _ => None;
     sqrt := fixed_sqrt;
     pi := 3.14159;
     pow15 := fun x => x |}.

(** A smoothing that returns a staircase of six unit steps, five samples
    apart, for the window of the stability signal, and its input for
    the other windows. *)
Definition staircase_smoothing (x : list Q) (window polyorder : Z)
  : option (list Q) :=
  if (window =? 7)%Z
  then Some (map (fun k => inject_Z (Z.min 6 (Z.of_nat k / 5))) (seq 0 40))
  else Some x.

(** A library under which the three heuristics of the ensemble see many
    regimes on any 40 samples: gradients of alternating sign and the
    staircase as smoothed signal. *)
Definition staircase_lib : SciLib :=
  {| savgol_filter := staircase_smoothing;
     gaussian_filter1d := fun x _ => x;
     gaussian_filter1d_nearest := fun x _ => x;
     rolling_median := fun x _ => x;
     gradient :=
       fun f _ =>
         Some (map (fun k => if Nat.even k then 1 else -1)
                   (seq 0 (length f)));
     gradient_unit := fun f => Some (0 :: Py.diff f);
     percentile := fun _ _ => 0;
     find_peaks := fun _ _ _ => Some [];
     std := fun _ => 0.1;
     corrcoef := fun _ _ => None;
     polyfit1 := fun _ _ => (0, 0);
     curve_fit := fun _ _ _ _ _ _ _ => None;
     sqrt := fixed_sqrt;
     pi := 3.14159;
     pow15 := fun x => x |}.

(** *** The quantities of the three validation criteria

    The statistics that the validation step of the improved detector
    compares with its thresholds, on the areas [seg] of a candidate
    segment. *)

(** The coefficient of variation: standard deviation over mean. *)
Definition coefficient_of_variation (L : SciLib) (seg : list Q) : Q :=
  std L seg / (Py.mean seg + 1e-8).

(** The lag-1 autocorrelation: the correlation coefficient of the
    segment without its last value and the segment without its first
    value; [None] when the coefficient is not a number. *)
Definition lag1_autocorrelation (L : SciLib) (seg : list Q) : option Q :=
  corrcoef L (Py.slice_to seg (-1)) (Py.slice_from seg 1).



(** *** A library with exact statistics *)

(** The least-squares line through the points [(x, y)]: slope and
    intercept. *)
Definition least_squares_line (x y : list Q) : Q * Q :=
  let n := inject_Z (Z.of_nat (length x)) in
  let sx := Py.sum x in
  let sy := Py.sum y in
  let sxx := Py.sum (map (fun a => a * a) x) in
  let sxy := Py.sum (map (fun p => fst p * snd p) (combine x y)) in
  let slope := Qred ((n * sxy - sx * sy) / (n * sxx - sx * sx)) in
  (slope, Qred ((sy - slope * sx) / n)).

(** The sample correlation coefficient, with the fixed-point square
    root; [None] when one of the two samples is constant. *)
Definition pearson (a b : list Q) : option Q :=
  let ma := Py.mean a in
  let mb := Py.mean b in
  let cov :=
    Py.sum (map (fun p => (fst p - ma) * (snd p - mb)) (combine a b)) in
  let va := Py.sum (map (fun x => (x - ma) ^ 2) a) in
  let vb := Py.sum (map (fun x => (x - mb) ^ 2) b) in
  if Qeq_bool (va * vb) 0 then None
  else Some (Qred (cov / fixed_sqrt (Qred (va * vb)))).

(** A library whose standard deviation, correlation coefficient and
    degree-1 fit are computed from their arguments; its filters return
    their input, its gradients vanish and [find_peaks] reports
    [peaks]. *)
Definition vote_lib (peaks : list Z) : SciLib :=
  {| savgol_filter := fun x _ _ => Some x;
     gaussian_filter1d := fun x _ => x;
     gaussian_filter1d_nearest := fun x _ => x;
     rolling_median := fun x _ => x;
     gradient := fun f _ => Some (map (fun _ => 0) f);
     gradient_unit := fun f => Some (map (fun _ => 0) f);
     percentile := fun _ _ => 0;
     find_peaks := fun _ _ _ => Some peaks;
     std := fun l => fixed_sqrt (Qred (Py.var l));
     corrcoef := pearson;
     polyfit1 := least_squares_line;
     curve_fit := fun _ _ _ _ _ _ _ => None;
     sqrt := fixed_sqrt;
     pi := 3.14159;
     pow15 := fun x => x |}.

(** The areas of 53 cross-sections, one per millimetre: 100 up to index
    13, rising by 10 per sample up to 230 at index 26, and 230 from
    there on. *)
Definition ramp_area : list Q :=
  map (fun k =>
         if (k <=? 13)%nat then 100
         else if (k <=? 26)%nat then 100 + 10 * inject_Z (Z.of_nat (k - 13))
         else 230)
      (seq 0 53).

Definition ramp_heights : list Q :=
  map (fun k => inject_Z (Z.of_nat k)) (seq 0 53).

(** *** Libraries with another solver *)

(** The library [L] with [cf] in place of its least-squares solver. *)
Definition with_curve_fit (L : SciLib)
    (cf : Shape -> list Q -> list Q -> list Q -> list Q -> list Q -> Z
          -> option (list Q)) : SciLib :=
  {| savgol_filter := savgol_filter L;
     gaussian_filter1d := gaussian_filter1d L;
     gaussian_filter1d_nearest := gaussian_filter1d_nearest L;
     rolling_median := rolling_median L;
     gradient := gradient L;
     gradient_unit := gradient_unit L;
     percentile := percentile L;
     find_peaks := find_peaks L;
     std := std L;
     corrcoef := corrcoef L;
     polyfit1 := polyfit1 L;
     curve_fit := cf;
     sqrt := sqrt L;
     pi := pi L;
     pow15 := pow15 L |}.

(** A library whose solver returns [cyl] for the cylinder model and
    [frust] for the frustum model, whatever the data ([None]: the solver
    raises), and raises for the other models; [pi] is 3. *)
Definition two_solver_lib (cyl frust : option (list Q)) : SciLib :=
  with_curve_fit (exact_fit_lib cylinder [])
                 (fun s _ _ _ _ _ _ =>
                    match s with
                    | cylinder => cyl
                    | frustum => frust
                    | _ => None
                    end).

(** The table of the frustum of radii 10 and 10.2 (2% apart) and
    height 12. *)
Definition near_cylinder_table : DataFrame :=
  shape_table frustum [10; 10.2; 12] (fun _ => 300).



(** * Properties *)

(** ** Facts about the primitives *)

Module PyFacts.

Lemma Qltb_true (x y : Q) : Py.Qltb x y = true <-> x < y.
Proof.
  unfold Py.Qltb. rewrite negb_true_iff.
  split; intro H.
  - apply Qnot_le_lt. intro Hle. apply Qle_bool_iff in Hle. congruence.
  - destruct (Qle_bool y x) eqn:E; [|reflexivity].
    apply Qle_bool_iff in E. exfalso. apply (Qlt_not_le _ _ H E).
Qed.

Lemma Qltb_false (x y : Q) : Py.Qltb x y = false <-> y <= x.
Proof.
  unfold Py.Qltb. rewrite negb_false_iff. apply Qle_bool_iff.
Qed.

Lemma Qle_bool_false (x y : Q) : Qle_bool x y = false <-> y < x.
Proof.
  split; intro H.
  - apply Qnot_le_lt. intro Hle. apply Qle_bool_iff in Hle. congruence.
  - destruct (Qle_bool x y) eqn:E; [|reflexivity].
    apply Qle_bool_iff in E. exfalso. apply (Qlt_not_le _ _ H E).
Qed.

Ltac qcases :=
  repeat match goal with
  | |- context [Py.Qltb ?a ?b] =>
      let E := fresh "E" in
      destruct (Py.Qltb a b) eqn:E;
      [apply Qltb_true in E | apply Qltb_false in E]
  | |- context [Qle_bool ?a ?b] =>
      let E := fresh "E" in
      destruct (Qle_bool a b) eqn:E;
      [apply Qle_bool_iff in E | apply Qle_bool_false in E]
  end.

Lemma max_spec (a b : Q) : a <= Py.max a b /\ b <= Py.max a b
                           /\ (Py.max a b = a \/ Py.max a b = b).
Proof. unfold Py.max. qcases; repeat split; auto; lra. Qed.

Lemma min_spec (a b : Q) : Py.min a b <= a /\ Py.min a b <= b
                           /\ (Py.min a b = a \/ Py.min a b = b).
Proof. unfold Py.min. qcases; repeat split; auto; lra. Qed.

Lemma max_ge_r (a b : Q) : b <= Py.max a b.
Proof. apply max_spec. Qed.

Lemma clip_bounds (x lo hi : Q) :
  lo <= hi -> lo <= Py.clip x lo hi /\ Py.clip x lo hi <= hi.
Proof.
  intro H. unfold Py.clip, Py.min, Py.max. qcases; split; lra.
Qed.

Lemma update_length {A} (l : list A) j v : length (Py.update l j v) = length l.
Proof.
  revert j; induction l as [|h t IH]; intros [|j]; simpl; auto.
Qed.

Lemma update_same {A} (l : list A) j v :
  (j < length l)%nat -> nth_error (Py.update l j v) j = Some v.
Proof.
  revert j; induction l as [|h t IH]; intros [|j] H; simpl in *;
    try lia; auto. apply IH. lia.
Qed.

Lemma update_other {A} (l : list A) j i v :
  i <> j -> nth_error (Py.update l j v) i = nth_error l i.
Proof.
  revert j i; induction l as [|h t IH]; intros [|j] [|i] H; simpl;
    auto; try congruence.
Qed.

Lemma index_nonneg {A} (l : list A) (i : nat) :
  (i < length l)%nat -> Py.index l (Z.of_nat i) = Some i.
Proof.
  intro H. unfold Py.index. cbv zeta.
  assert (E0 : (Z.of_nat i <? 0)%Z = false) by (apply Z.ltb_ge; lia).
  rewrite E0.
  assert (E1 : ((0 <=? Z.of_nat i)
                && (Z.of_nat i <? Z.of_nat (length l)))%Z = true).
  { apply andb_true_iff. split; [apply Z.leb_le|apply Z.ltb_lt]; lia. }
  rewrite E1. now rewrite Nat2Z.id.
Qed.

Lemma index_zero {A} (l : list A) :
  (0 < length l)%nat -> Py.index l 0 = Some 0%nat.
Proof. intro H. apply (index_nonneg l 0 H). Qed.

Lemma index_last {A} (l : list A) :
  l <> [] -> Py.index l (-1) = Some (length l - 1)%nat.
Proof.
  intro H. unfold Py.index. cbv zeta.
  assert (0 < length l)%nat by (destruct l; simpl; [congruence|lia]).
  assert (E0 : (-1 <? 0)%Z = true) by reflexivity.
  rewrite E0.
  assert (E1 : ((0 <=? -1 + Z.of_nat (length l))
                && (-1 + Z.of_nat (length l) <? Z.of_nat (length l)))%Z = true).
  { apply andb_true_iff. split; [apply Z.leb_le|apply Z.ltb_lt]; lia. }
  rewrite E1. f_equal. lia.
Qed.

Lemma linspace_length (a b : Q) (n : nat) : length (Py.linspace a b n) = n.
Proof.
  unfold Py.linspace. destruct n as [|[|n]]; simpl; auto.
  now rewrite length_map, length_seq.
Qed.

End PyFacts.

(** ** The Hermite transition *)

(** The clamping interval of the transition is not empty when both radii
    are non-negative. *)
Lemma hermite_interval_nonempty (r1 r2 : Q) :
  0 <= r1 -> 0 <= r2 ->
  Py.min r1 r2 * GEOMETRIC_CONSTRAINTS.radius_safety_margin
  <= Py.max r1 r2 * 1.2.
Proof.
  intros H1 H2. unfold GEOMETRIC_CONSTRAINTS.radius_safety_margin.
  destruct (PyFacts.min_spec r1 r2) as (Ha & Hb & _).
  destruct (PyFacts.max_spec r1 r2) as (Hc & Hd & _).
  assert (0 <= Py.min r1 r2).
  { destruct (PyFacts.min_spec r1 r2) as (_ & _ & [E|E]); rewrite E; auto. }
  lra.
Qed.

(** C7 (as amended).  For a call with [z1 < z2], non-negative end radii
    and at least two samples, the transition returns [num_points] radii,
    the first is exactly [r1], the last exactly [r2], and every interior
    radius lies in [[min(r1,r2) * 0.8, max(r1,r2) * 1.2]]. *)
Theorem hermite_clamped_with_exact_endpoints
    (z1 r1 slope1 z2 r2 slope2 tension : Q) (num_points : nat) :
  z1 < z2 -> 0 <= r1 -> 0 <= r2 -> (2 <= num_points)%nat ->
  exists z_trans r_trans,
    hermite_spline_transition z1 r1 slope1 z2 r2 slope2 num_points tension
    = Some (z_trans, r_trans)
    /\ length z_trans = num_points
    /\ length r_trans = num_points
    /\ nth_error r_trans 0 = Some r1
    /\ nth_error r_trans (num_points - 1) = Some r2
    /\ forall i r, (0 < i < num_points - 1)%nat ->
         nth_error r_trans i = Some r ->
         Py.min r1 r2 * 0.8 <= r /\ r <= Py.max r1 r2 * 1.2.
Proof.
  intros Hz Hr1 Hr2 Hn.
  unfold hermite_spline_transition.
  assert (Hdz : Qle_bool (z2 - z1) 0 = false)
    by (apply PyFacts.Qle_bool_false; lra).
  rewrite Hdz.
  set (t := Py.linspace 0 1 num_points).
  set (f := fun ti : Q => Py.clip _ _ _).
  assert (Ht : length t = num_points) by apply PyFacts.linspace_length.
  assert (Hm : length (map f t) = num_points) by now rewrite length_map.
  unfold Py.setitem.
  rewrite (PyFacts.index_zero (map f t)) by lia.
  rewrite PyFacts.index_last
    by (intro E; apply (f_equal (@length Q)) in E;
        rewrite PyFacts.update_length, Hm in E; simpl in E; lia).
  rewrite PyFacts.update_length, Hm.
  eexists _, _. split; [reflexivity|].
  repeat split.
  - now rewrite length_map.
  - now rewrite !PyFacts.update_length.
  - rewrite PyFacts.update_other by lia.
    apply PyFacts.update_same. lia.
  - apply PyFacts.update_same. rewrite PyFacts.update_length. lia.
  - rewrite !PyFacts.update_other in H0 by lia.
    rewrite nth_error_map in H0.
    destruct (nth_error t i); simpl in H0; [|discriminate].
    injection H0 as <-. subst f.
    apply (PyFacts.clip_bounds _ _ _ (hermite_interval_nonempty r1 r2 Hr1 Hr2)).
  - rewrite !PyFacts.update_other in H0 by lia.
    rewrite nth_error_map in H0.
    destruct (nth_error t i); simpl in H0; [|discriminate].
    injection H0 as <-. subst f.
    apply (PyFacts.clip_bounds _ _ _ (hermite_interval_nonempty r1 r2 Hr1 Hr2)).
Qed.

Lemma hermite_clamped_with_exact_endpoints_witness :
  exists z_trans r_trans,
    hermite_spline_transition 0 10 0 1 12 0 25 0.6 = Some (z_trans, r_trans)
    /\ length z_trans = 25%nat
    /\ length r_trans = 25%nat
    /\ nth_error r_trans 0 = Some 10
    /\ nth_error r_trans (25 - 1) = Some 12
    /\ forall i r, (0 < i < 25 - 1)%nat ->
         nth_error r_trans i = Some r ->
         Py.min 10 12 * 0.8 <= r /\ r <= Py.max 10 12 * 1.2.
Proof.
  apply hermite_clamped_with_exact_endpoints; [lra | lra | lra | lia].
Defined.

(** The same does not hold for every call with [z1 < z2]: with a single
    sample the only radius returned is [r2], not [r1]; and with negative
    radii the clamping interval is empty, every interior radius being
    [max(r1,r2) * 1.2], below [min(r1,r2) * 0.8]. *)
Lemma hermite_outside_domain :
  (exists z_trans,
     hermite_spline_transition 0 1 0 1 2 0 1 0.6 = Some (z_trans, [2])
     /\ nth_error [2] 0 <> Some 1)
  /\ (exists z_trans r_trans,
        hermite_spline_transition 0 (-1) 0 1 (-1) 0 25 0.6
        = Some (z_trans, r_trans)
        /\ nth_error r_trans 1 = Some (-1.2)
        /\ ~ (Py.min (-1) (-1) * 0.8 <= -1.2)).
Proof.
  split.
  - eexists. split; [reflexivity|]. simpl. discriminate.
  - eexists _, _. split; [vm_compute; reflexivity|].
    split; [reflexivity|]. vm_compute. intro H. apply H. reflexivity.
Qed.

(** ** Too few points *)

(** C9.  With fewer than [2 * min_points] area points, the legacy
    detector, the improved detector, the stability-based detector and
    the hybrid detector all return the two end points [[0, n - 1]]
    without raising; the hybrid detector tags the result
    [insufficient_data]. *)
Theorem too_few_points_trivial_result
    (L : SciLib) (area heights : list Q) (min_points : Z) :
  (Z.of_nat (length area) < 2 * min_points)%Z ->
  let n := Z.of_nat (length area) in
  (forall percentile_ variance_threshold,
     find_optimal_transitions L area min_points percentile_ variance_threshold
     = Some [0; n - 1]%Z)
  /\ (forall heights' use_adaptive,
        find_optimal_transitions_improved L area heights' min_points
                                          use_adaptive
        = Some [0; n - 1]%Z)
  /\ find_stability_transitions L area heights min_points
     = Some [0; n - 1]%Z
  /\ find_optimal_transitions_hybrid L area heights min_points
     = Some (Some [0; n - 1]%Z, insufficient_data).
Proof.
  intros H n. apply Z.ltb_lt in H. subst n.
  unfold find_optimal_transitions, find_optimal_transitions_improved,
    find_stability_transitions, find_optimal_transitions_hybrid.
  cbv zeta. rewrite H. repeat split; reflexivity.
Qed.

Lemma too_few_points_trivial_result_witness :
  let area := map Area (cylinder_table 20) in
  let heights := map Height_mm (cylinder_table 20) in
  (forall percentile_ variance_threshold,
     find_optimal_transitions (sample_lib []) area 12 percentile_
                              variance_threshold
     = Some [0; 19]%Z)
  /\ (forall heights' use_adaptive,
        find_optimal_transitions_improved (sample_lib []) area heights' 12
                                          use_adaptive
        = Some [0; 19]%Z)
  /\ find_stability_transitions (sample_lib []) area heights 12
     = Some [0; 19]%Z
  /\ find_optimal_transitions_hybrid (sample_lib []) area heights 12
     = Some (Some [0; 19]%Z, insufficient_data).
Proof.
  apply (too_few_points_trivial_result (sample_lib [])
           (map Area (cylinder_table 20)) (map Height_mm (cylinder_table 20))
           12).
  vm_compute. reflexivity.
Defined.

(** The two detectors of the copy at the repository root have the same
    guard. *)
Lemma root_copy_too_few_points
    (L : SciLib) (area : list Q) (min_points : Z) :
  (Z.of_nat (length area) < 2 * min_points)%Z ->
  let n := Z.of_nat (length area) in
  (forall percentile_ variance_threshold,
     RootCopy.find_optimal_transitions L area min_points percentile_
                                       variance_threshold
     = Some [0; n - 1]%Z)
  /\ (forall heights use_adaptive,
        RootCopy.find_optimal_transitions_improved L area heights min_points
                                                   use_adaptive
        = Some [0; n - 1]%Z).
Proof.
  intros H n. apply Z.ltb_lt in H. split; intros.
  - unfold RootCopy.find_optimal_transitions. cbv zeta. now rewrite H.
  - unfold RootCopy.find_optimal_transitions_improved. cbv zeta.
    now rewrite H.
Qed.

(** ** The score and the adaptive percentile *)


Lemma fold_max_spec (t : list Q) (x : Q) :
  In (fold_left Py.max t x) (x :: t)
  /\ forall y, In y (x :: t) -> y <= fold_left Py.max t x.
Proof.
  revert x. induction t as [|a t IH]; intro x; simpl.
  - split; [auto|]. intros y [<-|[]]. lra.
  - destruct (IH (Py.max x a)) as [Hin Hle]. split.
    + destruct Hin as [E|Hin]; [|auto].
      destruct (PyFacts.max_spec x a) as (_ & _ & [E'|E']);
        [left | right; left]; congruence.
    + intros y Hy.
      destruct (PyFacts.max_spec x a) as (Hx & Ha & _).
      assert (Hm := Hle (Py.max x a) (or_introl eq_refl)).
      destruct Hy as [<-|[<-|Hy]]; try lra.
      apply Hle. now right.
Qed.


Lemma amax_spec (l : list Q) (hi : Q) :
  Py.amax l = Some hi -> In hi l /\ forall y, In y l -> y <= hi.
Proof.
  destruct l as [|x t]; simpl; [discriminate|].
  intros [= <-]. apply fold_max_spec.
Qed.





(** ** The ensemble prediction and the hybrid routing *)

Lemma capped_count_range (k d : Z) :
  (0 <= k)%Z -> (0 < d)%Z -> (1 <= Z.min (1 + k / d) 3 <= 3)%Z.
Proof.
  intros Hk Hd. assert (0 <= k / d)%Z by (apply Z.div_pos; lia). lia.
Qed.

Lemma zero_crossing_range (L : SciLib) (area heights : list Q) (p : Z) :
  predict_segment_count_zero_crossing L area heights = Some p ->
  (1 <= p <= 3)%Z.
Proof.
  unfold predict_segment_count_zero_crossing, bind.
  destruct (Z.of_nat (length area) <? 10)%Z; [intros [= <-]; lia|].
  destruct (gradient L area heights) as [d1|]; [|discriminate].
  destruct (gradient L d1 heights) as [d2|]; [|discriminate].
  intros [= <-]. apply capped_count_range; [|lia].
  unfold count_nonzero. lia.
Qed.

Lemma curvature_regime_range (L : SciLib) (area heights : list Q) (p : Z) :
  predict_segment_count_curvature_regime L area heights = Some p ->
  (1 <= p <= 3)%Z.
Proof.
  unfold predict_segment_count_curvature_regime, bind.
  destruct (Z.of_nat (length area) <? 10)%Z; [intros [= <-]; lia|].
  destruct (compute_curvature L area heights) as [c|]; [|discriminate].
  destruct (savgol_filter L c _ 2) as [cs|]; [|discriminate].
  destruct (gradient_unit L cs) as [dc|]; [|discriminate].
  intros [= <-]. apply capped_count_range; lia.
Qed.

Lemma variance_range (area heights : list Q) (p : Z) :
  predict_segment_count_variance area heights = Some p ->
  (1 <= p <= 3)%Z.
Proof.
  unfold predict_segment_count_variance.
  destruct (Z.of_nat (length area) <? 15)%Z; [intros [= <-]; lia|].
  cbv zeta.
  destruct (map _ (range_step _ _ _)); intros [= <-]; [lia|].
  apply capped_count_range; lia.
Qed.

Lemma median_of_three_votes (a b c : Z) :
  (1 <= a <= 3)%Z -> (1 <= b <= 3)%Z -> (1 <= c <= 3)%Z ->
  py_int (Py.median [inject_Z a; inject_Z b; inject_Z c])
  = middle_of_three a b c.
Proof.
  intros Ha Hb Hc.
  assert (Ea : (a = 1 \/ a = 2 \/ a = 3)%Z) by lia.
  assert (Eb : (b = 1 \/ b = 2 \/ b = 3)%Z) by lia.
  assert (Ec : (c = 1 \/ c = 2 \/ c = 3)%Z) by lia.
  destruct Ea as [Ea|[Ea|Ea]]; destruct Eb as [Eb|[Eb|Eb]];
    destruct Ec as [Ec|[Ec|Ec]]; subst a b c; reflexivity.
Qed.

(** C8 (as amended).  Each of the three heuristics returns 1, 2 or 3;
    the ensemble prediction is the median of the three votes; on an
    input of at least [2 * min_points] points the hybrid detector hands
    over to the multi-derivative method exactly when the prediction is
    at most 2 and runs the stability-based detector exactly when it is 3
    or more; on a shorter input it makes no prediction and returns the
    two end points tagged [insufficient_data]. *)
Theorem ensemble_prediction_and_routing
    (L : SciLib) (area heights : list Q) (min_points : Z) :
  (forall p, predict_segment_count_zero_crossing L area heights = Some p ->
             (1 <= p <= 3)%Z)
  /\ (forall p, predict_segment_count_curvature_regime L area heights = Some p ->
                (1 <= p <= 3)%Z)
  /\ (forall p, predict_segment_count_variance area heights = Some p ->
                (1 <= p <= 3)%Z)
  /\ (forall p d,
        predict_segment_count L area heights = Some (p, d) ->
        predict_segment_count_zero_crossing L area heights = Some (method1 d)
        /\ predict_segment_count_curvature_regime L area heights
           = Some (method2 d)
        /\ predict_segment_count_variance area heights = Some (method3 d)
        /\ p = middle_of_three (method1 d) (method2 d) (method3 d)
        /\ (1 <= p <= 3)%Z)
  /\ (forall r route,
        find_optimal_transitions_hybrid L area heights min_points
        = Some (r, route) ->
        let n := Z.of_nat (length area) in
        ((n < 2 * min_points)%Z ->
         route = insufficient_data /\ r = Some [0; n - 1]%Z)
        /\ ((2 * min_points <= n)%Z ->
            exists p d,
              predict_segment_count L area heights = Some (p, d)
              /\ (route = route_multi_derivative <-> (p <= 2)%Z)
              /\ (route = stability <-> (3 <= p)%Z)
              /\ (route = route_multi_derivative -> r = None))).
Proof.
  assert (Hpred : forall p d,
    predict_segment_count L area heights = Some (p, d) ->
    predict_segment_count_zero_crossing L area heights = Some (method1 d)
    /\ predict_segment_count_curvature_regime L area heights = Some (method2 d)
    /\ predict_segment_count_variance area heights = Some (method3 d)
    /\ p = middle_of_three (method1 d) (method2 d) (method3 d)
    /\ (1 <= p <= 3)%Z).
  { intros p d. unfold predict_segment_count, bind.
    destruct (predict_segment_count_zero_crossing L area heights) as [p1|] eqn:E1;
      [|discriminate].
    destruct (predict_segment_count_curvature_regime L area heights)
      as [p2|] eqn:E2; [|discriminate].
    destruct (predict_segment_count_variance area heights) as [p3|] eqn:E3;
      [|discriminate].
    apply zero_crossing_range in E1. apply curvature_regime_range in E2.
    apply variance_range in E3.
    intros [= <- <-].
    rewrite (median_of_three_votes p1 p2 p3 E1 E2 E3).
    cbn [method1 method2 method3].
    repeat split; auto; unfold middle_of_three; lia. }
  split; [apply zero_crossing_range|].
  split; [apply curvature_regime_range|].
  split; [apply variance_range|].
  split; [exact Hpred|].
  intros r route. unfold find_optimal_transitions_hybrid. cbv zeta.
  destruct (Z.of_nat (length area) <? 2 * min_points)%Z eqn:En.
  - apply Z.ltb_lt in En. intros [= <- <-]. split; [auto|]. lia.
  - apply Z.ltb_ge in En. unfold bind at 1.
    destruct (predict_segment_count L area heights) as [[p d]|] eqn:Ep;
      [|discriminate].
    intro H. split; [lia|]. intros _. exists p, d. split; [reflexivity|].
    destruct (p <=? 2)%Z eqn:E2.
    + apply Z.leb_le in E2. injection H as <- <-.
      repeat split; auto; try discriminate; lia.
    + apply Z.leb_gt in E2. unfold bind in H.
      destruct (find_stability_transitions L area heights min_points);
        [|discriminate].
      destruct (validate_all_transitions L area heights l); [|discriminate].
      injection H as <- <-.
      repeat split; auto; try discriminate; lia.
Qed.

(** On an input of five points the ensemble predicts one segment, yet
    the hybrid detector does not hand over to the multi-derivative
    method: it returns the end points itself. *)
Lemma hybrid_short_input_not_routed :
  let area := map Area (cylinder_table 5) in
  let heights := map Height_mm (cylinder_table 5) in
  exists p d r route,
    predict_segment_count (sample_lib []) area heights = Some (p, d)
    /\ find_optimal_transitions_hybrid (sample_lib []) area heights 12
       = Some (r, route)
    /\ (p <= 2)%Z
    /\ route <> route_multi_derivative.
Proof.
  eexists _, _, _, _.
  split; [vm_compute; reflexivity|].
  split; [vm_compute; reflexivity|].
  split; [lia | discriminate].
Qed.

(** ** The shape of the transition list *)

Lemma insert_set_in (x y : Z) (l : list Z) :
  In y (Py.insert_set x l) <-> y = x \/ In y l.
Proof.
  induction l as [|a t IH]; simpl.
  - intuition.
  - destruct (x <? a)%Z eqn:E1; [simpl; intuition|].
    destruct (x =? a)%Z eqn:E2.
    + apply Z.eqb_eq in E2. subst. simpl. intuition.
    + simpl. rewrite IH. intuition.
Qed.

(** [sorted(set(l))] has the elements of [l]. *)
Lemma sorted_set_in (y : Z) (l : list Z) : In y (Py.sorted_set l) <-> In y l.
Proof.
  induction l as [|a t IH]; simpl; [tauto|].
  rewrite insert_set_in, IH. intuition.
Qed.

Lemma insert_set_sorted (x : Z) (l : list Z) :
  StronglySorted Z.lt l -> StronglySorted Z.lt (Py.insert_set x l).
Proof.
  induction 1 as [|a t Hs IH Hall]; simpl.
  - repeat constructor.
  - destruct (x <? a)%Z eqn:E1.
    + apply Z.ltb_lt in E1. constructor; [constructor; auto|].
      constructor; [exact E1|].
      eapply Forall_impl; [|exact Hall]. simpl. intros. lia.
    + destruct (x =? a)%Z eqn:E2; [constructor; auto|].
      apply Z.ltb_ge in E1. apply Z.eqb_neq in E2.
      constructor; [exact IH|].
      apply Forall_forall. intros y Hy. apply insert_set_in in Hy.
      destruct Hy as [->|Hy]; [lia|].
      rewrite Forall_forall in Hall. now apply Hall.
Qed.

(** [sorted(set(l))] is strictly increasing. *)
Lemma sorted_set_sorted (l : list Z) : StronglySorted Z.lt (Py.sorted_set l).
Proof.
  induction l as [|a t IH]; simpl; [constructor|].
  now apply insert_set_sorted.
Qed.

Lemma insert_set_above (x : Z) (l : list Z) :
  Forall (fun y => (x < y)%Z) l -> Py.insert_set x l = x :: l.
Proof.
  destruct l as [|a t]; simpl; [reflexivity|].
  intro H. inversion H; subst.
  assert (E : (x <? a)%Z = true) by now apply Z.ltb_lt.
  now rewrite E.
Qed.

(** A strictly increasing list is its own [sorted(set(...))]. *)
Lemma sorted_set_id (l : list Z) :
  StronglySorted Z.lt l -> Py.sorted_set l = l.
Proof.
  induction 1 as [|a t Hs IH Hall]; simpl; [reflexivity|].
  rewrite IH. now apply insert_set_above.
Qed.


Lemma last_item_app {A} (l : list A) (x : A) : Py.last_item (l ++ [x]) = Some x.
Proof.
  unfold Py.last_item, Py.getitem.
  rewrite PyFacts.index_last by (destruct l; discriminate).
  rewrite length_app. simpl.
  replace (length l + 1 - 1)%nat with (length l) by lia.
  rewrite nth_error_app2 by lia. now rewrite Nat.sub_diag.
Qed.

Lemma last_item_cons_last {A} (l : list A) (x : A) :
  l <> [] -> Py.last_item l = Some (last l x).
Proof.
  intro H. destruct (exists_last H) as (l' & a & ->).
  rewrite last_item_app. now rewrite last_last.
Qed.

Lemma enforce_spacing_gaps (min_points n : Z) (candidates : list Z) (last : Z) :
  gaps_from min_points last (enforce_spacing min_points n candidates last)
  /\ Forall (fun c => (c < n - 1)%Z)
            (enforce_spacing min_points n candidates last).
Proof.
  revert last. induction candidates as [|c t IH]; intro last; simpl.
  - split; constructor.
  - destruct ((c - last >=? min_points) && (c <? n - 1))%Z eqn:E.
    + apply andb_true_iff in E. destruct E as [E1 E2].
      apply Z.geb_le in E1. apply Z.ltb_lt in E2.
      destruct (IH c) as [Hg Hf]. simpl. split; [split; [lia|auto]|].
      constructor; auto.
    + apply IH.
Qed.

Lemma gaps_from_sorted (min_points last : Z) (l : list Z) :
  (1 <= min_points)%Z -> gaps_from min_points last l ->
  StronglySorted Z.lt (last :: l).
Proof.
  intro Hmp. revert last. induction l as [|c t IH]; intros last Hg.
  - repeat constructor.
  - destruct Hg as [Hc Hg]. specialize (IH c Hg).
    constructor; [exact IH|].
    constructor; [lia|].
    inversion IH as [|? ? _ Hall]; subst.
    eapply Forall_impl; [|exact Hall]. simpl. intros. lia.
Qed.


Lemma last_item_in {A} (l : list A) (x : A) : Py.last_item l = Some x -> In x l.
Proof.
  destruct l as [|a t]; [discriminate|].
  destruct (@exists_last _ (a :: t)) as (l' & b & E); [discriminate|].
  rewrite E, last_item_app. intros [= <-]. apply in_or_app. right. now left.
Qed.

Lemma sorted_snoc (l : list Z) (x : Z) :
  StronglySorted Z.lt l -> Forall (fun y => (y < x)%Z) l ->
  StronglySorted Z.lt (l ++ [x]).
Proof.
  induction 1 as [|a t Hs IH Hall]; intro Hf; simpl.
  - repeat constructor.
  - inversion Hf; subst. constructor; [auto|].
    apply Forall_app. split; [exact Hall|]. repeat constructor. assumption.
Qed.

(** Before validation the transitions of the improved detector are the
    index 0, candidates at least [min_points] apart and below [n - 1],
    and the final index [n - 1]. *)
Lemma improved_transitions_shape
    (L : SciLib) (area heights : list Q) (min_points : Z) (use_adaptive : bool)
    (transitions : list Z) :
  (2 <= Z.of_nat (length area))%Z ->
  improved_transitions L area heights min_points use_adaptive
  = Some transitions ->
  exists es,
    transitions = (0%Z :: es) ++ [Z.of_nat (length area) - 1]%Z
    /\ gaps_from min_points 0 es
    /\ Forall (fun c => (c < Z.of_nat (length area) - 1)%Z) es.
Proof.
  intros Hn. unfold improved_transitions, bind. cbv zeta.
  destruct (derivative_score L area heights _) as [score|]; [|discriminate].
  destruct (score_percentile L area _ use_adaptive) as [pct|]; [|discriminate].
  intros [= <-].
  set (n := Z.of_nat (length area)) in *.
  set (es := enforce_spacing min_points n _ 0).
  destruct (enforce_spacing_gaps min_points n
              (Py.sorted (score_candidates L score (percentile L score pct)
                                           min_points)) 0) as [Hg Hf].
  fold es in Hg, Hf.
  exists es. split; [|split; assumption].
  unfold close_at_end.
  destruct (Py.last_item (0%Z :: es)) as [l|] eqn:El; [|reflexivity].
  apply last_item_in in El.
  assert (l < n - 1)%Z.
  { destruct El as [<-|El]; [lia|].
    rewrite Forall_forall in Hf. now apply Hf. }
  assert (E : (l =? n - 1)%Z = false) by (apply Z.eqb_neq; lia).
  now rewrite E.
Qed.

Lemma improved_transitions_sorted
    (min_points n : Z) (es : list Z) :
  (1 <= min_points)%Z -> (2 <= n)%Z ->
  gaps_from min_points 0 es -> Forall (fun c => (c < n - 1)%Z) es ->
  StronglySorted Z.lt ((0%Z :: es) ++ [n - 1]%Z).
Proof.
  intros Hmp Hn Hg Hf. apply sorted_snoc.
  - now apply (gaps_from_sorted min_points).
  - constructor; [lia|exact Hf].
Qed.

(** The same for the improved detector of the copy at the repository
    root. *)
Lemma root_copy_improved_transitions_shape
    (L : SciLib) (area heights : list Q) (min_points : Z) (use_adaptive : bool)
    (transitions : list Z) :
  (2 <= Z.of_nat (length area))%Z ->
  RootCopy.improved_transitions L area heights min_points use_adaptive
  = Some transitions ->
  exists es,
    transitions = (0%Z :: es) ++ [Z.of_nat (length area) - 1]%Z
    /\ gaps_from min_points 0 es
    /\ Forall (fun c => (c < Z.of_nat (length area) - 1)%Z) es.
Proof.
  intros Hn. unfold RootCopy.improved_transitions, bind. cbv zeta.
  destruct (derivative_score L area heights _) as [score|]; [|discriminate].
  destruct (RootCopy.score_percentile L area _ use_adaptive) as [pct|];
    [|discriminate].
  intros [= <-].
  set (n := Z.of_nat (length area)) in *.
  set (es := enforce_spacing min_points n _ 0).
  destruct (enforce_spacing_gaps min_points n
              (Py.sorted (score_candidates L score (percentile L score pct)
                                           min_points)) 0) as [Hg Hf].
  fold es in Hg, Hf.
  exists es. split; [|split; assumption].
  unfold close_at_end.
  destruct (Py.last_item (0%Z :: es)) as [l|] eqn:El; [|reflexivity].
  apply last_item_in in El.
  assert (l < n - 1)%Z.
  { destruct El as [<-|El]; [lia|].
    rewrite Forall_forall in Hf. now apply Hf. }
  assert (E : (l =? n - 1)%Z = false) by (apply Z.eqb_neq; lia).
  now rewrite E.
Qed.




(** ** Segment validation *)





Lemma slice_length {A} (l : list A) (a b : Z) :
  (0 <= a <= b)%Z -> (b <= Z.of_nat (length l))%Z ->
  length (Py.slice l a b) = Z.to_nat (b - a).
Proof.
  intros Ha Hb. unfold Py.slice, Py.slice_bound. cbv zeta.
  assert (Ea : (a <? 0)%Z = false) by (apply Z.ltb_ge; lia).
  assert (Eb : (b <? 0)%Z = false) by (apply Z.ltb_ge; lia).
  rewrite Ea, Eb. rewrite length_firstn, length_skipn. lia.
Qed.







(** On that input the detector proposes the boundaries 13, 26 and 39.
    The segment from 13 to 26 rises linearly and meets the three
    criteria: its end 26 is kept.  The segment from 26 to 39 is constant
    and meets the third criterion only (no variation, no correlation
    coefficient): its end 39 is dropped. *)
Example validation_vote_on_ramp :
  RootCopy.improved_transitions (vote_lib [12; 25; 38]%Z) ramp_area
                                ramp_heights 12 true
  = Some [0; 13; 26; 39; 52]%Z
  /\ RootCopy.find_optimal_transitions_improved
       (vote_lib [12; 25; 38]%Z) ramp_area (Some ramp_heights) 12 true
     = Some [0; 13; 26; 52]%Z
  /\ passed_criteria (vote_lib [12; 25; 38]%Z) (Py.slice ramp_area 13 27) = 3%Z
  /\ passed_criteria (vote_lib [12; 25; 38]%Z) (Py.slice ramp_area 26 40) = 1%Z
  /\ 0.05 < coefficient_of_variation (vote_lib [12; 25; 38]%Z)
                                     (Py.slice ramp_area 13 27)
  /\ ~ 0.05 < coefficient_of_variation (vote_lib [12; 25; 38]%Z)
                                       (Py.slice ramp_area 26 40)
  /\ lag1_autocorrelation (vote_lib [12; 25; 38]%Z) (Py.slice ramp_area 26 40)
     = None.
Proof.
  repeat split; try (vm_compute; reflexivity).
  intro H. vm_compute in H. discriminate H.
Qed.

(** ** The segment list *)

Lemma gaps_from_weaken (min_points last last' : Z) (l : list Z) :
  (last <= last')%Z -> gaps_from min_points last' l ->
  gaps_from min_points last l.
Proof.
  destruct l as [|c t]; simpl; [auto|]. intros H [Hc Hg]. split; [lia|auto].
Qed.

(** What the validation loop appends on a well-spaced transition list:
    well-spaced candidates, then possibly the final index. *)
Lemma validate_loop_shape
    (L : SciLib) (area : list Q) (min_points len n : Z) (es : list Z) :
  (0 <= min_points)%Z ->
  forall last i0,
    gaps_from min_points last es ->
    Forall (fun c => (c < n - 1)%Z) es ->
    exists sub (b : bool),
      validate_loop L area min_points len i0 ((last :: es) ++ [n - 1]%Z)
      = sub ++ (if b then [n - 1]%Z else [])
      /\ gaps_from min_points last sub
      /\ Forall (fun c => (c < n - 1)%Z) sub.
Proof.
  intro Hmp. induction es as [|c es IH]; intros last i0 Hg Hf.
  - exists [], (keeps_segment_end L area min_points len i0 last (n - 1)).
    simpl. destruct (keeps_segment_end _ _ _ _ _ _ _); repeat split; auto.
  - destruct Hg as [Hc Hg]. inversion Hf as [|? ? Hcn Hf']; subst.
    destruct (IH c (i0 + 1)%Z Hg Hf') as (sub & b & E & Hgs & Hfs).
    change (validate_loop L area min_points len i0
              ((last :: c :: es) ++ [(n - 1)%Z]))
      with (if keeps_segment_end L area min_points len i0 last c
            then c :: validate_loop L area min_points len (i0 + 1)
                                    ((c :: es) ++ [(n - 1)%Z])
            else validate_loop L area min_points len (i0 + 1)
                               ((c :: es) ++ [(n - 1)%Z])).
    rewrite E.
    destruct (keeps_segment_end L area min_points len i0 last c).
    + exists (c :: sub), b. simpl. repeat split; auto.
    + exists sub, b. repeat split; auto.
      apply (gaps_from_weaken min_points last c); [lia|exact Hgs].
Qed.

(** The validated transitions of the improved detector have the shape of
    the transitions themselves. *)
Lemma validated_shape
    (L : SciLib) (area heights : list Q) (min_points : Z) (use_adaptive : bool)
    (validated : list Z) :
  (1 <= min_points)%Z ->
  (2 * min_points <= Z.of_nat (length area))%Z ->
  find_optimal_transitions_improved L area (Some heights) min_points
                                    use_adaptive = Some validated ->
  exists sub,
    validated = (0%Z :: sub) ++ [Z.of_nat (length area) - 1]%Z
    /\ gaps_from min_points 0 sub
    /\ Forall (fun c => (c < Z.of_nat (length area) - 1)%Z) sub.
Proof.
  intros Hmp Hn. unfold find_optimal_transitions_improved. cbv zeta.
  set (n := Z.of_nat (length area)) in *.
  assert (E : (n <? 2 * min_points)%Z = false) by (apply Z.ltb_ge; lia).
  rewrite E. unfold bind at 1.
  destruct (improved_transitions L area heights min_points use_adaptive)
    as [ts|] eqn:Et; [|discriminate].
  destruct (improved_transitions_shape L area heights min_points use_adaptive
              ts) as (es & Ets & Hg & Hf); [lia | exact Et |].
  fold n in Ets, Hf.
  assert (H0 : Py.getitem ts 0 = Some 0%Z).
  { unfold Py.getitem. rewrite PyFacts.index_zero
      by (rewrite Ets, length_app; simpl; lia).
    rewrite Ets. reflexivity. }
  assert (Hl : Py.last_item ts = Some (n - 1)%Z).
  { rewrite Ets. apply last_item_app. }
  unfold validate_transitions, bind. rewrite H0, Hl.
  destruct (validate_loop_shape L area min_points (Z.of_nat (length ts)) n es
              ltac:(lia) 0%Z 0%Z Hg Hf) as (sub & b & Ev & Hgs & Hfs).
  rewrite <- Ets in Ev. rewrite Ev.
  assert (Hsorted : StronglySorted Z.lt ((0%Z :: sub) ++ [n - 1]%Z))
    by (apply (improved_transitions_sorted min_points); auto; lia).
  intros [= <-]. exists sub. split; [|split; assumption].
  destruct b.
  - change (0%Z :: sub ++ [(n - 1)%Z]) with ((0%Z :: sub) ++ [(n - 1)%Z]).
    rewrite last_item_app, Z.eqb_refl. simpl negb. cbv iota.
    now apply sorted_set_id.
  - rewrite app_nil_r.
    destruct (Py.last_item (0%Z :: sub)) as [l|] eqn:El.
    + apply last_item_in in El.
      assert (l < n - 1)%Z.
      { destruct El as [<-|El]; [lia|].
        rewrite Forall_forall in Hfs. now apply Hfs. }
      assert (E' : (l =? n - 1)%Z = false) by (apply Z.eqb_neq; lia).
      rewrite E'. simpl negb. cbv iota. now apply sorted_set_id.
    + now apply sorted_set_id.
Qed.

(** A fitted segment spans the pair of transitions it was fitted on. *)
Lemma fit_segment_bounds
    (L : SciLib) (df_areas : DataFrame) (start end_ : Z) (seg : Segment)
    (err : Q) :
  fit_segment L df_areas start end_ = Some (seg, err) ->
  seg_start seg = start /\ seg_end seg = end_.
Proof.
  unfold fit_segment, bind. cbv zeta.
  destruct (Py.last_item _); [|discriminate].
  destruct (Py.getitem _ 0); [|discriminate].
  destruct (select_best_fit _) as [[[shape params] e]|];
    intros [= <- _]; auto.
Qed.

(** The fitting loop on a well-spaced transition list yields a chain of
    segments from the first transition up to the final index, or up to
    the last transition before it when fewer than [min_points] points
    remain. *)
Lemma fit_loop_chain
    (L : SciLib) (df_areas : DataFrame) (n : Z) (sub : list Z) :
  forall last fitted,
    gaps_from DEFAULT_PARAMS.min_points last sub ->
    fit_loop L df_areas ((last :: sub) ++ [n - 1]%Z) = Some fitted ->
    exists e,
      chain DEFAULT_PARAMS.min_points last (map fst fitted) e
      /\ (e = (n - 1)%Z
          \/ ((last <= e)%Z /\ (n - e < DEFAULT_PARAMS.min_points)%Z)).
Proof.
  unfold DEFAULT_PARAMS.min_points.
  induction sub as [|c sub IH]; intros last fitted Hg.
  - simpl. unfold DEFAULT_PARAMS.min_points.
    destruct (n - 1 - last + 1 <? 12)%Z eqn:E.
    + apply Z.ltb_lt in E. intros [= <-]. exists last. simpl.
      split; [reflexivity|]. right. lia.
    + apply Z.ltb_ge in E. unfold bind.
      destruct (fit_segment L df_areas last (n - 1)) as [[seg err]|] eqn:Ef;
        [|discriminate].
      apply fit_segment_bounds in Ef. destruct Ef as [E1 E2].
      intros [= <-]. exists (n - 1)%Z. simpl.
      repeat split; auto; try lia.
  - destruct Hg as [Hc Hg].
    change (fit_loop L df_areas ((last :: c :: sub) ++ [(n - 1)%Z]))
      with (if (c - last + 1 <? DEFAULT_PARAMS.min_points)%Z
            then fit_loop L df_areas ((c :: sub) ++ [(n - 1)%Z])
            else
              r <- fit_segment L df_areas last c ;;
              rs <- fit_loop L df_areas ((c :: sub) ++ [(n - 1)%Z]) ;;
              Some (r :: rs)).
    unfold DEFAULT_PARAMS.min_points.
    assert (E : (c - last + 1 <? 12)%Z = false) by (apply Z.ltb_ge; lia).
    rewrite E. unfold bind.
    destruct (fit_segment L df_areas last c) as [[seg err]|] eqn:Ef;
      [|discriminate].
    destruct (fit_loop L df_areas ((c :: sub) ++ [(n - 1)%Z])) as [rs|] eqn:Er;
      [|discriminate].
    apply fit_segment_bounds in Ef. destruct Ef as [E1 E2].
    intros [= <-].
    destruct (IH c rs Hg Er) as (e & Hch & He).
    exists e. simpl. rewrite E1, E2.
    repeat split; auto; lia.
Qed.

Lemma try_merge_bounds (current next merged : Segment) :
  try_merge current next = Some merged ->
  seg_start merged = seg_start current /\ seg_end merged = seg_end next.
Proof.
  unfold try_merge.
  destruct (negb _ || _); [discriminate|].
  destruct (_ || _); [discriminate|].
  destruct (seg_shape current); try discriminate;
    destruct (seg_params current) as [|a [|a' ps]];
    destruct (seg_params next) as [|b [|b' qs]]; try discriminate;
    match goal with
    | |- (if ?c then _ else _) = _ -> _ =>
        destruct c; [intros [= <-]; auto|discriminate]
    end.
Qed.

(** Merging keeps a chain a chain, with the same two ends. *)
Lemma merge_from_chain (min_points : Z) (rest : list Segment) :
  (1 <= min_points)%Z ->
  forall current a b,
    chain min_points a (current :: rest) b ->
    chain min_points a (merge_from current rest) b.
Proof.
  intro Hmp. induction rest as [|next rest IH]; intros current a b Hch.
  - exact Hch.
  - simpl. destruct (try_merge current next) as [merged|] eqn:Em.
    + apply try_merge_bounds in Em. destruct Em as [E1 E2].
      apply IH. simpl in Hch |- *.
      destruct Hch as (Ha & Hlen & Hn & Hlen' & Hrest).
      rewrite E1, E2. repeat split; auto. lia.
    + simpl in Hch |- *. destruct Hch as (Ha & Hlen & Hch).
      split; [exact Ha|]. split; [exact Hlen|]. apply IH. exact Hch.
Qed.

Lemma merge_segments_chain (min_points a b : Z) (segments : list Segment) :
  (1 <= min_points)%Z ->
  chain min_points a segments b ->
  chain min_points a (merge_segments segments) b.
Proof.
  intros Hmp Hch. destruct segments as [|s rest]; [exact Hch|].
  now apply merge_from_chain.
Qed.

(** A non-empty chain from 0 to [n - 1] satisfies the invariant. *)
Lemma chain_contiguous (min_points a b : Z) (segments : list Segment) :
  (2 <= min_points)%Z -> chain min_points a segments b ->
  forallb (fun s => (seg_start s <? seg_end s)%Z) segments = true
  /\ contiguous segments = true
  /\ (segments <> [] -> Py.last_item segments
                        = Some (last segments (mkSegment 0 0 cylinder []))
                        /\ seg_end (last segments (mkSegment 0 0 cylinder []))
                           = b).
Proof.
  intro Hmp. revert a. induction segments as [|s rest IH]; intros a Hch.
  - split; [reflexivity|]. split; [reflexivity|]. intro H. congruence.
  - destruct Hch as (Ha & Hlen & Hch).
    destruct (IH _ Hch) as (H1 & H2 & H3).
    split; [|split].
    + simpl. rewrite H1, andb_true_r. apply Z.ltb_lt. lia.
    + destruct rest as [|s' rest']; [reflexivity|].
      change (contiguous (s :: s' :: rest'))
        with ((seg_start s' =? seg_end s)%Z && contiguous (s' :: rest')).
      rewrite H2, andb_true_r. apply Z.eqb_eq.
      destruct Hch as (Hs' & _). exact Hs'.
    + intros _. split; [apply last_item_cons_last; discriminate|].
      destruct rest as [|s' rest'].
      * simpl in *. congruence.
      * destruct H3 as [_ H3]; [discriminate|].
        exact H3.
Qed.

Lemma chain_invariant (n : Z) (segments : list Segment) :
  segments <> [] ->
  chain DEFAULT_PARAMS.min_points 0 segments (n - 1) ->
  segments_invariant n segments = true.
Proof.
  intros Hne Hch.
  destruct (chain_contiguous DEFAULT_PARAMS.min_points 0 (n - 1) segments)
    as (H1 & H2 & H3); [unfold DEFAULT_PARAMS.min_points; lia | exact Hch |].
  destruct (H3 Hne) as [H4 H5].
  unfold segments_invariant. rewrite H1, H2, H4, H5, Z.eqb_refl.
  destruct segments as [|s rest]; [congruence|].
  simpl. destruct Hch as [-> _]. reflexivity.
Qed.

(** The segment list returned by the stage of the analyzer module under
    [src] (improved detector, four models, merge pass) is a chain
    starting at index 0: every segment spans at least [min_points]
    points and starts where the previous one ends.  The chain ends at
    the final index [n - 1], unless fewer than [min_points] points
    remain after its last boundary.  A non-empty chain that reaches
    [n - 1] satisfies the data-model invariant. *)
Lemma merged_segment_list_is_chain
    (L : SciLib) (df_areas : DataFrame) (segments : list Segment)
    (errors : list Q) :
  segment_and_fit L df_areas = Some (segments, errors) ->
  let n := Z.of_nat (length df_areas) in
  exists e,
    chain DEFAULT_PARAMS.min_points 0 segments e
    /\ (e = (n - 1)%Z
        \/ ((0 <= e)%Z /\ (n - e < DEFAULT_PARAMS.min_points)%Z))
    /\ (e = (n - 1)%Z -> segments <> [] ->
        segments_invariant n segments = true).
Proof.
  intros H n.
  assert (Hchain : exists (fitted : list (Segment * Q)) e,
            segments = merge_segments (map fst fitted)
            /\ chain DEFAULT_PARAMS.min_points 0 (map fst fitted) e
            /\ (e = (n - 1)%Z
                \/ ((0 <= e)%Z /\ (n - e < DEFAULT_PARAMS.min_points)%Z))).
  { unfold segment_and_fit, bind in H.
    destruct (detect_transitions L df_areas) as [ts|] eqn:Et; [|discriminate].
    destruct (fit_loop L df_areas ts) as [fitted|] eqn:Ef; [|discriminate].
    injection H as <- _.
    unfold detect_transitions in Et.
    unfold DEFAULT_PARAMS.transition_detection_method_improved in Et.
    assert (Hlen : Z.of_nat (length (map Area df_areas)) = n)
      by (now rewrite length_map).
    destruct (Z.lt_ge_cases n (2 * DEFAULT_PARAMS.min_points)) as [Hn|Hn].
    - unfold find_optimal_transitions_improved in Et. cbv zeta in Et.
      rewrite Hlen in Et.
      assert (E : (n <? 2 * DEFAULT_PARAMS.min_points)%Z = true)
        by now apply Z.ltb_lt.
      rewrite E in Et. injection Et as <-.
      destruct (fit_loop_chain L df_areas n [] 0 fitted I Ef) as (e & H1 & H2).
      exists fitted, e. auto.
    - destruct (validated_shape L (map Area df_areas)
                  (map Height_mm df_areas) DEFAULT_PARAMS.min_points
                  DEFAULT_PARAMS.use_adaptive_threshold ts)
        as (sub & Ets & Hg & _).
      + unfold DEFAULT_PARAMS.min_points. lia.
      + now rewrite Hlen.
      + exact Et.
      + rewrite Hlen in Ets. subst ts.
        destruct (fit_loop_chain L df_areas n sub 0 fitted Hg Ef)
          as (e & H1 & H2).
        exists fitted, e. auto. }
  destruct Hchain as (fitted & e & -> & Hch & He).
  assert (Hm : chain DEFAULT_PARAMS.min_points 0
                     (merge_segments (map fst fitted)) e).
  { apply merge_segments_chain; [unfold DEFAULT_PARAMS.min_points; lia|].
    exact Hch. }
  exists e. split; [exact Hm|]. split; [exact He|].
  intros -> Hne. now apply chain_invariant.
Qed.

(** *** The stage of the copy at the repository root *)

(** Validation of a well-spaced transition list returns a well-spaced
    list with the same two ends. *)
Lemma validate_transitions_shape
    (L : SciLib) (area : list Q) (min_points n : Z) (es validated : list Z) :
  (1 <= min_points)%Z -> (2 <= n)%Z ->
  gaps_from min_points 0 es ->
  Forall (fun c => (c < n - 1)%Z) es ->
  validate_transitions L area min_points ((0%Z :: es) ++ [n - 1]%Z)
  = Some validated ->
  exists sub,
    validated = (0%Z :: sub) ++ [n - 1]%Z
    /\ gaps_from min_points 0 sub
    /\ Forall (fun c => (c < n - 1)%Z) sub.
Proof.
  intros Hmp Hn Hg Hf.
  set (ts := (0%Z :: es) ++ [(n - 1)%Z]).
  assert (H0 : Py.getitem ts 0 = Some 0%Z).
  { unfold Py.getitem. rewrite PyFacts.index_zero
      by (unfold ts; rewrite length_app; simpl; lia).
    reflexivity. }
  assert (Hl : Py.last_item ts = Some (n - 1)%Z) by apply last_item_app.
  unfold validate_transitions, bind. rewrite H0, Hl.
  destruct (validate_loop_shape L area min_points (Z.of_nat (length ts)) n es
              ltac:(lia) 0%Z 0%Z Hg Hf) as (sub & b & Ev & Hgs & Hfs).
  fold ts in Ev. rewrite Ev.
  assert (Hsorted : StronglySorted Z.lt ((0%Z :: sub) ++ [n - 1]%Z))
    by (apply (improved_transitions_sorted min_points); auto; lia).
  intros [= <-]. exists sub. split; [|split; assumption].
  destruct b.
  - change (0%Z :: sub ++ [(n - 1)%Z]) with ((0%Z :: sub) ++ [(n - 1)%Z]).
    rewrite last_item_app, Z.eqb_refl. simpl negb. cbv iota.
    now apply sorted_set_id.
  - rewrite app_nil_r.
    destruct (Py.last_item (0%Z :: sub)) as [l|] eqn:El.
    + apply last_item_in in El.
      assert (l < n - 1)%Z.
      { destruct El as [<-|El]; [lia|].
        rewrite Forall_forall in Hfs. now apply Hfs. }
      assert (E' : (l =? n - 1)%Z = false) by (apply Z.eqb_neq; lia).
      rewrite E'. simpl negb. cbv iota. now apply sorted_set_id.
    + now apply sorted_set_id.
Qed.

(** The improved detector of the copy differs from the one under [src]
    only without adaptive thresholding. *)
Lemma root_copy_detector_adaptive
    (L : SciLib) (area : list Q) (heights : option (list Q)) (min_points : Z) :
  RootCopy.find_optimal_transitions_improved L area heights min_points true
  = find_optimal_transitions_improved L area heights min_points true.
Proof. reflexivity. Qed.

(** The transitions that the improved detector of the copy returns:
    the two end points alone below [2 * min_points] points, and
    otherwise index 0, boundaries at least [min_points] apart and below
    [n - 1], and the final index [n - 1]. *)
Lemma root_copy_transitions_shape
    (L : SciLib) (area : list Q) (heights : list Q) (min_points : Z)
    (use_adaptive : bool) (ts : list Z) :
  (1 <= min_points)%Z ->
  RootCopy.find_optimal_transitions_improved L area (Some heights) min_points
                                             use_adaptive = Some ts ->
  exists sub,
    ts = (0%Z :: sub) ++ [Z.of_nat (length area) - 1]%Z
    /\ gaps_from min_points 0 sub
    /\ Forall (fun c => (c < Z.of_nat (length area) - 1)%Z) sub.
Proof.
  intros Hmp. unfold RootCopy.find_optimal_transitions_improved. cbv zeta.
  set (n := Z.of_nat (length area)).
  destruct (n <? 2 * min_points)%Z eqn:E.
  - intros [= <-]. exists []. repeat split; constructor.
  - apply Z.ltb_ge in E. unfold bind.
    destruct (RootCopy.improved_transitions L area heights min_points
                                            use_adaptive) as [ts0|] eqn:Et;
      [|discriminate].
    destruct (root_copy_improved_transitions_shape L area heights min_points
                use_adaptive ts0) as (es & -> & Hg & Hf); [lia | exact Et |].
    fold n in Hf |- *.
    apply (validate_transitions_shape L area min_points n es ts); auto; lia.
Qed.

(** A fitted segment spans the pair of transitions it was fitted on. *)
Lemma root_copy_select_fit_bounds
    (start end_ : Z) (guess_r : Q) (cyl frust : option RootCopy.Fit)
    (seg : Segment) (err : Q) :
  RootCopy.select_fit start end_ guess_r cyl frust = Some (seg, err) ->
  seg_start seg = start /\ seg_end seg = end_
  /\ (seg_shape seg = cylinder \/ seg_shape seg = frustum).
Proof.
  unfold RootCopy.select_fit, bind.
  destruct cyl as [[[popt_cyl cyl_error] cyl_pct]|];
    destruct frust as [[[popt_frust frust_error] frust_pct]|];
    try destruct (Py.Qltb cyl_error frust_error);
    try destruct (Py.getitem popt_cyl 0);
    try discriminate; intros [= <- _]; auto.
Qed.

Lemma root_copy_fit_segment_bounds
    (L : SciLib) (g : RootCopy.Globals) (df_areas : DataFrame)
    (start end_ : Z) (seg : Segment) (err : Q) :
  RootCopy.fit_segment L g df_areas start end_ = Some (seg, err) ->
  seg_start seg = start /\ seg_end seg = end_.
Proof.
  unfold RootCopy.fit_segment, bind. cbv zeta.
  destruct (Py.last_item _); [|discriminate].
  destruct (Py.getitem _ 0); [|discriminate].
  intro H. apply root_copy_select_fit_bounds in H. tauto.
Qed.

(** The fitting loop on a well-spaced transition list yields a chain of
    segments from the first transition up to the final index, or up to
    the last transition before it when fewer than
    [DEFAULT_PARAMS['min_points']] points remain. *)
Lemma root_copy_fit_loop_chain
    (L : SciLib) (g : RootCopy.Globals) (df_areas : DataFrame) (n : Z)
    (sub : list Z) :
  let min_points := RootCopy.min_points (RootCopy.DEFAULT_PARAMS g) in
  forall last fitted,
    gaps_from min_points last sub ->
    Forall (fun c => (c < n - 1)%Z) sub ->
    RootCopy.fit_loop L g df_areas ((last :: sub) ++ [n - 1]%Z) = Some fitted ->
    exists e,
      chain min_points last (map fst fitted) e
      /\ (e = (n - 1)%Z \/ ((last <= e)%Z /\ (n - e < min_points)%Z))
      /\ (e = last \/ (e <= n - 1)%Z).
Proof.
  intro min_points.
  induction sub as [|c sub IH]; intros last fitted Hg Hf.
  - simpl. fold min_points.
    destruct (n - 1 - last + 1 <? min_points)%Z eqn:E.
    + apply Z.ltb_lt in E. intros [= <-]. exists last. simpl.
      split; [reflexivity|]. split; [right; lia|now left].
    + apply Z.ltb_ge in E. unfold bind.
      destruct (RootCopy.fit_segment L g df_areas last (n - 1))
        as [[seg err]|] eqn:Ef; [|discriminate].
      apply root_copy_fit_segment_bounds in Ef. destruct Ef as [E1 E2].
      intros [= <-]. exists (n - 1)%Z. simpl.
      repeat split; auto; try lia.
  - destruct Hg as [Hc Hg]. inversion Hf as [|? ? Hcn Hf']; subst.
    change (RootCopy.fit_loop L g df_areas ((last :: c :: sub) ++ [(n - 1)%Z]))
      with (if (c - last + 1 <? min_points)%Z
            then RootCopy.fit_loop L g df_areas ((c :: sub) ++ [(n - 1)%Z])
            else
              r <- RootCopy.fit_segment L g df_areas last c ;;
              rs <- RootCopy.fit_loop L g df_areas ((c :: sub) ++ [(n - 1)%Z]) ;;
              Some (r :: rs)).
    assert (E : (c - last + 1 <? min_points)%Z = false)
      by (apply Z.ltb_ge; lia).
    rewrite E. unfold bind.
    destruct (RootCopy.fit_segment L g df_areas last c) as [[seg err]|] eqn:Ef;
      [|discriminate].
    destruct (RootCopy.fit_loop L g df_areas ((c :: sub) ++ [(n - 1)%Z]))
      as [rs|] eqn:Er; [|discriminate].
    apply root_copy_fit_segment_bounds in Ef. destruct Ef as [E1 E2].
    intros [= <-].
    destruct (IH c rs Hg Hf' Er) as (e & Hch & He & Hb).
    exists e. simpl. rewrite E1, E2.
    repeat split; auto; lia.
Qed.

(** With the improved detector selected, the segments of the copy form
    a chain from index 0. *)
Lemma root_copy_segment_list_is_chain
    (L : SciLib) (g : RootCopy.Globals) (df_areas : DataFrame)
    (segments : list Segment) (errors : list Q) :
  RootCopy.transition_detection_method (RootCopy.DEFAULT_PARAMS g)
  = Some "improved"%string ->
  (1 <= RootCopy.min_points (RootCopy.DEFAULT_PARAMS g))%Z ->
  RootCopy.segment_and_fit L g df_areas = Some (segments, errors) ->
  let n := Z.of_nat (length df_areas) in
  let min_points := RootCopy.min_points (RootCopy.DEFAULT_PARAMS g) in
  exists e,
    chain min_points 0 segments e
    /\ (e = (n - 1)%Z \/ ((0 <= e)%Z /\ (n - e < min_points)%Z))
    /\ (e = 0%Z \/ (e <= n - 1)%Z).
Proof.
  intros Hm Hmp H n min_points.
  unfold RootCopy.segment_and_fit, bind in H.
  destruct (RootCopy.detect_transitions L g df_areas) as [ts|] eqn:Et;
    [|discriminate].
  destruct (RootCopy.fit_loop L g df_areas ts) as [fitted|] eqn:Ef;
    [|discriminate].
  injection H as <- _.
  unfold RootCopy.detect_transitions in Et. rewrite Hm in Et.
  cbn [RootCopy.get] in Et.
  change (String.eqb "improved" "improved") with true in Et. cbv iota in Et.
  fold min_points in Et.
  destruct (root_copy_transitions_shape L (map Area df_areas)
              (map Height_mm df_areas) min_points _ ts Hmp Et)
    as (sub & -> & Hg & Hf).
  rewrite length_map in Hf, Ef. fold n in Hf, Ef.
  apply (root_copy_fit_loop_chain L g df_areas n sub 0 fitted Hg Hf Ef).
Qed.

(** The segments of a chain lie between its two ends. *)
Lemma chain_in_range (min_points a b : Z) (segments : list Segment) :
  (2 <= min_points)%Z -> chain min_points a segments b ->
  (a <= b)%Z
  /\ (segments <> [] -> (a + min_points - 1 <= b)%Z)
  /\ Forall (fun s => (a <= seg_start s < seg_end s)%Z /\ (seg_end s <= b)%Z)
            segments.
Proof.
  intro Hmp. revert a. induction segments as [|s rest IH]; intros a Hch.
  - simpl in Hch. subst b. split; [lia|]. split; [congruence|constructor].
  - destruct Hch as (Ha & Hlen & Hch).
    destruct (IH _ Hch) as (H1 & H2 & H3).
    split; [lia|]. split; [intros _; lia|].
    constructor; [lia|].
    eapply Forall_impl; [|exact H3]. simpl. intros s' Hs'. lia.
Qed.

(** C2 (as amended).  With the improved detector selected and
    [min_points >= 2] (the dictionary has 12), the segment list returned
    by the segmentation and fitting stage is a chain starting at index
    0: every segment spans at least [min_points] points (so
    [start < end]), starts where the previous one ends, and lies within
    the table.  The chain ends at the final index [n - 1], unless fewer
    than [min_points] points remain after its last boundary: that final
    stretch is skipped, and the list is empty when the whole table has
    fewer than [min_points] rows.  A non-empty chain that reaches
    [n - 1] satisfies the data-model invariant. *)
Theorem segment_list_is_chain
    (L : SciLib) (g : RootCopy.Globals) (df_areas : DataFrame)
    (segments : list Segment) (errors : list Q) :
  RootCopy.transition_detection_method (RootCopy.DEFAULT_PARAMS g)
  = Some "improved"%string ->
  (2 <= RootCopy.min_points (RootCopy.DEFAULT_PARAMS g))%Z ->
  RootCopy.segment_and_fit L g df_areas = Some (segments, errors) ->
  let n := Z.of_nat (length df_areas) in
  let min_points := RootCopy.min_points (RootCopy.DEFAULT_PARAMS g) in
  exists e,
    chain min_points 0 segments e
    /\ (e = (n - 1)%Z \/ ((0 <= e < n - 1)%Z /\ (n - e < min_points)%Z)
        \/ (e = 0%Z /\ n = 0%Z))
    /\ Forall (fun s => (0 <= seg_start s < seg_end s)%Z
                        /\ (seg_end s <= n - 1)%Z) segments
    /\ ((n < min_points)%Z -> segments = [])
    /\ (e = (n - 1)%Z -> segments <> [] ->
        segments_invariant n segments = true).
Proof.
  intros Hm Hmp H n min_points.
  destruct (root_copy_segment_list_is_chain L g df_areas segments errors Hm
              ltac:(lia) H) as (e & Hch & He & Hb).
  fold n min_points in Hch, He, Hb.
  destruct (chain_in_range min_points 0 e segments Hmp Hch)
    as (H0e & Hne & Hrange).
  assert (Hn0 : (0 <= n)%Z) by (unfold n; lia).
  assert (Hempty : (n < min_points)%Z -> segments = []).
  { intro Hlt. destruct segments as [|s rest]; [reflexivity|].
    assert (0 + min_points - 1 <= e)%Z by (apply Hne; discriminate).
    lia. }
  exists e. split; [exact Hch|]. split; [|split; [|split]].
  - destruct He as [He|[He1 He2]]; [now left|].
    destruct Hb as [Hb|Hb].
    + subst e. destruct (Z.eq_dec n 1) as [->|Hn1]; [now left|].
      right. destruct (Z.eq_dec n 0) as [E0|E0]; [right; lia|].
      left. lia.
    + destruct (Z.eq_dec e (n - 1)) as [->|Hne']; [now left|].
      right. left. lia.
  - eapply Forall_impl; [|exact Hrange]. simpl. intros s Hs.
    destruct segments as [|s0 rest]; [lia|].
    assert (0 + min_points - 1 <= e)%Z by (apply Hne; discriminate).
    destruct Hb as [Hb|Hb]; lia.
  - exact Hempty.
  - intros -> Hnonempty.
    destruct (chain_contiguous min_points 0 (n - 1) segments Hmp Hch)
      as (H1 & H2 & H3).
    destruct (H3 Hnonempty) as [H4 H5].
    unfold segments_invariant. rewrite H1, H2, H4, H5, Z.eqb_refl.
    destruct segments as [|s rest]; [congruence|].
    simpl. destruct Hch as [-> _]. reflexivity.
Qed.

Lemma segment_list_is_chain_witness :
  let segments :=
    match RootCopy.segment_and_fit (sample_lib [14%Z]) RootCopy.initial_globals
                                   (cylinder_table 30) with
    | Some r => fst r
    | None => []
    end in
  length segments = 2%nat
  /\ exists e,
       chain 12 0 segments e
       /\ (e = (30 - 1)%Z \/ ((0 <= e < 30 - 1)%Z /\ (30 - e < 12)%Z)
           \/ (e = 0%Z /\ 30%Z = 0%Z))
       /\ Forall (fun s => (0 <= seg_start s < seg_end s)%Z
                           /\ (seg_end s <= 30 - 1)%Z) segments
       /\ ((30 < 12)%Z -> segments = [])
       /\ (e = (30 - 1)%Z -> segments <> [] ->
           segments_invariant 30 segments = true).
Proof.
  split; [vm_compute; reflexivity|].
  apply (segment_list_is_chain (sample_lib [14%Z]) RootCopy.initial_globals
           (cylinder_table 30) _
           (match RootCopy.segment_and_fit (sample_lib [14%Z])
                    RootCopy.initial_globals (cylinder_table 30) with
            | Some r => snd r
            | None => []
            end)).
  - reflexivity.
  - vm_compute. discriminate.
  - vm_compute. reflexivity.
Defined.

(** The invariant itself fails on well-formed inputs.  A table of 8 rows
    yields no segment at all, whatever the library.  On the table of 30
    rows whose area changes at index 25, when the peak finder reports
    that change (peak 24 of the score, candidate boundary 25), the
    stretch from 25 to 29 is skipped and the last segment ends at 25.
    The module under [src] behaves in the same way. *)
Lemma segment_list_invariant_fails :
  (strictly_increasing (map Height_mm (cylinder_table 8))
   /\ (forall L, RootCopy.segment_and_fit L RootCopy.initial_globals
                                          (cylinder_table 8)
                 = Some ([], []))
   /\ segments_invariant 8 [] = false)
  /\ (strictly_increasing (map Height_mm step_table)
      /\ exists segments errors,
           RootCopy.segment_and_fit (sample_lib [24%Z])
                                    RootCopy.initial_globals step_table
           = Some (segments, errors)
           /\ map seg_start segments = [0%Z]
           /\ map seg_end segments = [25%Z]
           /\ segments_invariant 30 segments = false)
  /\ ((forall L, segment_and_fit L (cylinder_table 8) = Some ([], []))
      /\ exists segments errors,
           segment_and_fit (sample_lib [24%Z]) step_table
           = Some (segments, errors)
           /\ map seg_start segments = [0%Z]
           /\ map seg_end segments = [25%Z]
           /\ segments_invariant 30 segments = false).
Proof.
  split; [|split].
  - split; [|split]; [|intro L; reflexivity|reflexivity].
    simpl. repeat split; reflexivity.
  - split; [vm_compute; repeat split|].
    eexists _, _. split; [vm_compute; reflexivity|].
    repeat split; reflexivity.
  - split; [intro L; reflexivity|].
    eexists _, _. split; [vm_compute; reflexivity|].
    repeat split; reflexivity.
Qed.

(** ** The fitted models *)

Lemma getitem_some {A} (l : list A) (i : Z) :
  (0 <= i < Z.of_nat (length l))%Z -> exists v, Py.getitem l i = Some v.
Proof.
  intro H. unfold Py.getitem.
  replace i with (Z.of_nat (Z.to_nat i)) by lia.
  rewrite PyFacts.index_nonneg by lia.
  destruct (nth_error l (Z.to_nat i)) eqn:E; [eauto|].
  apply nth_error_None in E. lia.
Qed.

Lemma last_item_some {A} (l : list A) :
  l <> [] -> exists v, Py.last_item l = Some v.
Proof.
  intro H. destruct (exists_last H) as (l' & a & ->).
  exists a. apply last_item_app.
Qed.

Lemma map_option_some {A B} (f : A -> option B) (l : list A) :
  (forall a, exists b, f a = Some b) -> exists bs, map_option f l = Some bs.
Proof.
  intro H. induction l as [|a t [bs IH]]; simpl; [eauto|].
  destruct (H a) as [b ->]. rewrite IH. simpl. eauto.
Qed.

Lemma volume_model_some (L : SciLib) (s : Shape) (h : Q) (popt : list Q) :
  length popt = arity s -> exists v, volume_model L s h popt = Some v.
Proof.
  destruct s; destruct popt as [|a [|b [|c [|d t]]]]; simpl; try discriminate;
    eauto.
Qed.

Lemma attempt_fit_some
    (L : SciLib) (s : Shape) (x y p0 lower upper : list Q) :
  x <> [] -> y <> [] ->
  (forall s xs ys p0 lo hi m,
     exists popt, curve_fit L s xs ys p0 lo hi m = Some popt
                  /\ length popt = length p0) ->
  length p0 = arity s ->
  exists popt error_pct,
    attempt_fit L s x y p0 lower upper = Some (popt, error_pct)
    /\ length popt = arity s.
Proof.
  intros Hx Hy Hfit Hp0.
  assert (Hx0 : exists v, Py.getitem x 0 = Some v).
  { apply getitem_some. destruct x; simpl; [congruence|lia]. }
  assert (Hy0 : exists v, Py.getitem y 0 = Some v).
  { apply getitem_some. destruct y; simpl; [congruence|lia]. }
  destruct Hx0 as [x0 Hx0]. destruct Hy0 as [y0 Hy0].
  destruct (last_item_some y Hy) as [yl Hyl].
  unfold attempt_fit, fit_error_pct, bind. rewrite Hx0, Hy0.
  destruct (Hfit s (map (fun xi => xi - x0) x) (map (fun yi => yi - y0) y)
                 p0 lower upper DEFAULT_PARAMS.maxfev) as (popt & -> & Hlen).
  rewrite Hyl.
  destruct (map_option_some (fun xi => volume_model L s (xi - x0) popt) x)
    as [fitted ->].
  { intro a. apply volume_model_some. congruence. }
  eexists _, _. split; [reflexivity|congruence].
Qed.

(** When the solver converges for every model, the four candidates of a
    segment are the four models, in the order they are attempted. *)
Lemma fit_candidates_all_four
    (L : SciLib) (area x y : list Q) (start end_ : Z)
    (mean_area guess_r height_span : Q) :
  x <> [] -> y <> [] ->
  (0 <= start <= end_)%Z -> (start < Z.of_nat (length area))%Z ->
  (forall s xs ys p0 lo hi m,
     exists popt, curve_fit L s xs ys p0 lo hi m = Some popt
                  /\ length popt = length p0) ->
  map (fun f : FitResult => fst (fst f))
      (fit_candidates L area x y start end_ mean_area guess_r height_span)
  = [cylinder; frustum; cone; sphere_cap].
Proof.
  intros Hx Hy Hse Hlen Hfit.
  set (len := Z.of_nat (length area)) in *.
  assert (Hend : exists v, Py.getitem area (Z.min end_ (len - 1)) = Some v)
    by (apply getitem_some; fold len; lia).
  destruct Hend as [area_end Hend].
  assert (Hcyl : exists f, try_cylinder L x y guess_r = Some f
                           /\ fst (fst f) = cylinder).
  { unfold try_cylinder, bind.
    destruct (attempt_fit_some L cylinder x y [guess_r]
                [GEOMETRIC_CONSTRAINTS.fit_bounds_lower * guess_r]
                [GEOMETRIC_CONSTRAINTS.fit_bounds_upper * guess_r]
                Hx Hy Hfit eq_refl) as (popt & e & -> & Hl).
    destruct popt as [|r [|? ?]]; try discriminate.
    simpl. eauto. }
  assert (Hfru : exists f, try_frustum L area x y start end_ mean_area
                                       height_span = Some f
                           /\ fst (fst f) = frustum).
  { unfold try_frustum, bind. cbv zeta. fold len.
    assert (E : (start <? len)%Z = true) by (apply Z.ltb_lt; lia).
    rewrite E.
    destruct (getitem_some area start) as [area_start ->]; [fold len; lia|].
    rewrite Hend.
    match goal with
    | |- context [attempt_fit L frustum x y ?p0 ?lo ?hi] =>
        destruct (attempt_fit_some L frustum x y p0 lo hi Hx Hy Hfit eq_refl)
          as (popt & e & -> & Hl)
    end.
    eauto. }
  assert (Hcone : exists f, try_cone L area x y end_ height_span = Some f
                            /\ fst (fst f) = cone).
  { unfold try_cone, bind. cbv zeta. fold len. rewrite Hend.
    match goal with
    | |- context [attempt_fit L cone x y ?p0 ?lo ?hi] =>
        destruct (attempt_fit_some L cone x y p0 lo hi Hx Hy Hfit eq_refl)
          as (popt & e & -> & Hl)
    end.
    eauto. }
  assert (Hsph : exists f, try_sphere_cap L area x y start end_ = Some f
                           /\ fst (fst f) = sphere_cap).
  { unfold try_sphere_cap, bind. cbv zeta. fold len.
    assert (Hs : length (Py.slice area start (Z.min (end_ + 1) len))
                 = Z.to_nat (Z.min (end_ + 1) len - start))
      by (apply slice_length; fold len; lia).
    destruct (Py.slice area start (Z.min (end_ + 1) len)) as [|a t] eqn:Es;
      [simpl in Hs; lia|].
    simpl Py.amax. cbv iota beta.
    match goal with
    | |- context [attempt_fit L sphere_cap x y ?p0 ?lo ?hi] =>
        destruct (attempt_fit_some L sphere_cap x y p0 lo hi Hx Hy Hfit
                    eq_refl) as (popt & e & -> & Hl)
    end.
    eauto. }
  destruct Hcyl as (f1 & E1 & S1). destruct Hfru as (f2 & E2 & S2).
  destruct Hcone as (f3 & E3 & S3). destruct Hsph as (f4 & E4 & S4).
  unfold fit_candidates. rewrite E1, E2, E3, E4. simpl.
  now rewrite S1, S2, S3, S4.
Qed.

(** The four models are attempted and selected by the module under
    [src]: with a solver that returns the parameters of the container
    exactly, each of the four kinds is the shape fitted to its table. *)
Example each_model_selected_on_its_table :
  (exists err,
     segment_and_fit (exact_fit_lib cylinder [5])
                     (shape_table cylinder [5] (fun _ => 75))
     = Some ([mkSegment 0 12 cylinder [5]], [err]))
  /\ (exists err,
        segment_and_fit (exact_fit_lib frustum [4; 8; 12])
          (shape_table frustum [4; 8; 12] (fun h => 3 * (4 + h / 3) ^ 2))
        = Some ([mkSegment 0 12 frustum [4; 8; 12]], [err]))
  /\ (exists err,
        segment_and_fit (exact_fit_lib cone [6; 12])
                        (shape_table cone [6; 12] (fun h => 3 * (h / 2) ^ 2))
        = Some ([mkSegment 0 12 cone [6; 12]], [err]))
  /\ (exists err,
        segment_and_fit (exact_fit_lib sphere_cap [10])
          (shape_table sphere_cap [10] (fun h => 3 * (20 * h - h ^ 2)))
        = Some ([mkSegment 0 12 sphere_cap [10]], [err])).
Proof. repeat split; eexists; vm_compute; reflexivity. Qed.

(** *** The two models of the copy at the repository root *)

Lemma getitem_zero {A} (l : list A) (r : A) :
  Py.getitem l 0 = Some r -> exists rest, l = r :: rest.
Proof.
  destruct l as [|a t]; [discriminate|].
  unfold Py.getitem. rewrite PyFacts.index_zero by (simpl; lia).
  simpl. intros [= <-]. eauto.
Qed.

(** What [select_fit] returns is the frustum fit, the first parameter of
    the cylinder fit, or, when both fits failed, the initial radius. *)
Lemma root_copy_select_fit_origin
    (start end_ : Z) (guess_r : Q) (cyl frust : option RootCopy.Fit)
    (seg : Segment) (err : Q) :
  RootCopy.select_fit start end_ guess_r cyl frust = Some (seg, err) ->
  (seg_shape seg = frustum
   /\ exists e, frust = Some (seg_params seg, e, err))
  \/ (seg_shape seg = cylinder
      /\ exists r rest e,
           cyl = Some (r :: rest, e, err) /\ seg_params seg = [r])
  \/ (seg_shape seg = cylinder /\ cyl = None /\ frust = None
      /\ seg_params seg = [guess_r] /\ err = 0).
Proof.
  unfold RootCopy.select_fit, bind.
  destruct cyl as [[[popt_cyl cyl_error] cyl_pct]|];
    destruct frust as [[[popt_frust frust_error] frust_pct]|];
    try destruct (Py.Qltb cyl_error frust_error);
    try (destruct (Py.getitem popt_cyl 0) as [r|] eqn:Er;
         [apply getitem_zero in Er; destruct Er as [rest ->]|discriminate]);
    intros [= <- <-]; simpl; eauto 10.
Qed.

(** The body of the fitting loop selects among the two fits attempted
    on the pair of transitions. *)
Lemma root_copy_fit_segment_select
    (L : SciLib) (g : RootCopy.Globals) (df_areas : DataFrame)
    (start end_ : Z) (r : Segment * Q) :
  RootCopy.fit_segment L g df_areas start end_ = Some r ->
  RootCopy.select_fit start end_
    (RootCopy.segment_guess_r L df_areas start end_)
    (RootCopy.cylinder_attempt L g df_areas start end_)
    (RootCopy.frustum_attempt L g df_areas start end_)
  = Some r.
Proof.
  unfold RootCopy.fit_segment, RootCopy.frustum_attempt,
    RootCopy.cylinder_attempt, RootCopy.segment_guess_r,
    RootCopy.segment_mean_area, bind.
  cbv zeta.
  destruct (Py.last_item _); [|discriminate].
  destruct (Py.getitem _ 0); [|discriminate].
  intro H. exact H.
Qed.

(** Every entry of the fitting loop is the outcome of the loop body on
    the bounds of its segment. *)
Lemma root_copy_fit_loop_origin
    (L : SciLib) (g : RootCopy.Globals) (df_areas : DataFrame)
    (transitions : list Z) :
  forall fitted,
    RootCopy.fit_loop L g df_areas transitions = Some fitted ->
    Forall (fun r => RootCopy.fit_segment L g df_areas (seg_start (fst r))
                                          (seg_end (fst r)) = Some r)
           fitted.
Proof.
  induction transitions as [|start rest IH]; intro fitted.
  - simpl. intros [= <-]. constructor.
  - destruct rest as [|end_ rest'].
    + simpl. intros [= <-]. constructor.
    + change (RootCopy.fit_loop L g df_areas (start :: end_ :: rest'))
        with (if (end_ - start + 1
                  <? RootCopy.min_points (RootCopy.DEFAULT_PARAMS g))%Z
              then RootCopy.fit_loop L g df_areas (end_ :: rest')
              else
                r <- RootCopy.fit_segment L g df_areas start end_ ;;
                rs <- RootCopy.fit_loop L g df_areas (end_ :: rest') ;;
                Some (r :: rs)).
      destruct (end_ - start + 1 <? _)%Z; [apply IH|].
      unfold bind.
      destruct (RootCopy.fit_segment L g df_areas start end_) as [[seg err]|]
        eqn:Ef; [|discriminate].
      destruct (RootCopy.fit_loop L g df_areas (end_ :: rest')) as [rs|];
        [|discriminate].
      intros [= <-]. constructor; [|now apply IH].
      destruct (root_copy_fit_segment_bounds L g df_areas start end_ seg err Ef)
        as [E1 E2].
      cbn [fst]. rewrite E1, E2. exact Ef.
Qed.

(** The copy selects between two models only. *)
Lemma root_copy_two_models
    (L : SciLib) (g : RootCopy.Globals) (df_areas : DataFrame)
    (start end_ : Z) (seg : Segment) (err : Q) :
  RootCopy.fit_segment L g df_areas start end_ = Some (seg, err) ->
  seg_shape seg = cylinder \/ seg_shape seg = frustum.
Proof.
  intro H. apply root_copy_fit_segment_select in H.
  apply root_copy_select_fit_bounds in H. tauto.
Qed.

(** The parameters of a fit are those the solver returned. *)
Lemma root_copy_raw_fit_popt
    (L : SciLib) (g : RootCopy.Globals) (s : Shape)
    (x y p0 lower upper popt : list Q) (e pct : Q) :
  RootCopy.raw_fit L g s x y p0 lower upper = Some (popt, e, pct) ->
  exists xs ys,
    curve_fit L s xs ys p0 lower upper
              (RootCopy.maxfev (RootCopy.DEFAULT_PARAMS g))
    = Some popt.
Proof.
  unfold RootCopy.raw_fit, bind.
  destruct (Py.getitem x 0) as [x0|]; [|discriminate].
  destruct (Py.getitem y 0) as [y0|]; [|discriminate].
  destruct (curve_fit L s _ _ p0 lower upper _) as [popt'|] eqn:Ec;
    [|discriminate].
  destruct (map_option _ x); [|discriminate].
  destruct (Py.last_item y); [|discriminate].
  intros [= <- _ _]. eauto.
Qed.

(** The stage calls the solver for the cylinder and the frustum model
    only: a library whose solver differs for the other models gives the
    same fits. *)
Lemma root_copy_raw_fit_solver
    (L : SciLib) (cf : Shape -> list Q -> list Q -> list Q -> list Q -> list Q
                       -> Z -> option (list Q))
    (g : RootCopy.Globals) (s : Shape) (x y p0 lower upper : list Q) :
  (forall xs ys q lo hi m, cf s xs ys q lo hi m = curve_fit L s xs ys q lo hi m) ->
  RootCopy.raw_fit (with_curve_fit L cf) g s x y p0 lower upper
  = RootCopy.raw_fit L g s x y p0 lower upper.
Proof.
  intro Hcf. unfold RootCopy.raw_fit.
  change (curve_fit (with_curve_fit L cf)) with cf.
  change (volume_model (with_curve_fit L cf)) with (volume_model L).
  destruct (Py.getitem x 0) as [x0|]; [|reflexivity].
  destruct (Py.getitem y 0) as [y0|]; [|reflexivity].
  unfold bind. now rewrite Hcf.
Qed.

Lemma root_copy_fit_loop_solver
    (L : SciLib) (cf : Shape -> list Q -> list Q -> list Q -> list Q -> list Q
                       -> Z -> option (list Q))
    (g : RootCopy.Globals) (df_areas : DataFrame) (transitions : list Z) :
  (forall xs ys q lo hi m,
     cf cylinder xs ys q lo hi m = curve_fit L cylinder xs ys q lo hi m) ->
  (forall xs ys q lo hi m,
     cf frustum xs ys q lo hi m = curve_fit L frustum xs ys q lo hi m) ->
  RootCopy.fit_loop (with_curve_fit L cf) g df_areas transitions
  = RootCopy.fit_loop L g df_areas transitions.
Proof.
  intros Hc Hf.
  assert (Hseg : forall start end_,
            RootCopy.fit_segment (with_curve_fit L cf) g df_areas start end_
            = RootCopy.fit_segment L g df_areas start end_).
  { intros start end_.
    unfold RootCopy.fit_segment, RootCopy.try_cylinder, RootCopy.try_frustum.
    cbv zeta.
    change (sqrt (with_curve_fit L cf)) with (sqrt L).
    change (pi (with_curve_fit L cf)) with (pi L).
    rewrite (root_copy_raw_fit_solver L cf g cylinder) by exact Hc.
    destruct (Py.last_item _) as [x_last|]; [|reflexivity].
    destruct (Py.getitem _ 0) as [x_first|]; [|reflexivity].
    unfold bind.
    destruct (if (0 <? start)%Z then _ else _) as [area_start|];
      [|reflexivity].
    destruct (if (end_ <? _)%Z then _ else _) as [area_end|]; [|reflexivity].
    rewrite (root_copy_raw_fit_solver L cf g frustum) by exact Hf.
    reflexivity. }
  induction transitions as [|start rest IH]; [reflexivity|].
  destruct rest as [|end_ rest']; [reflexivity|].
  change (RootCopy.fit_loop (with_curve_fit L cf) g df_areas
                            (start :: end_ :: rest'))
    with (if (end_ - start + 1
              <? RootCopy.min_points (RootCopy.DEFAULT_PARAMS g))%Z
          then RootCopy.fit_loop (with_curve_fit L cf) g df_areas
                                 (end_ :: rest')
          else
            r <- RootCopy.fit_segment (with_curve_fit L cf) g df_areas
                                      start end_ ;;
            rs <- RootCopy.fit_loop (with_curve_fit L cf) g df_areas
                                    (end_ :: rest') ;;
            Some (r :: rs)).
  rewrite IH, Hseg. reflexivity.
Qed.

(** C1 (as amended).  For every segment it returns, the segmentation
    and fitting stage has attempted two volume models through the
    bounded least-squares solver, the cylinder and the frustum: the
    segment is a frustum that carries the parameters and the percent
    error of the frustum fit, or a cylinder that carries the radius and
    the percent error of the cylinder fit, or, when both fits raised,
    the fall-back cylinder of the initial radius with error 0.  The
    parameters of a fit are those the solver returned for that model
    from the initial guess, between the lower and the upper bound of
    [GEOMETRIC_CONSTRAINTS] times the guessed radii (and 0.8 and 1.2
    times the height span).  The solver is not called for the cone and
    the spherical cap: a library whose solver differs for those two
    models gives the same segments and errors. *)
Theorem two_models_attempted_and_selected
    (L : SciLib) (g : RootCopy.Globals) (df_areas : DataFrame)
    (segments : list Segment) (errors : list Q) :
  RootCopy.segment_and_fit L g df_areas = Some (segments, errors) ->
  Forall2
    (fun seg err =>
       (seg_shape seg = frustum
        /\ exists e,
             RootCopy.frustum_attempt L g df_areas (seg_start seg)
                                      (seg_end seg)
             = Some (seg_params seg, e, err))
       \/ (seg_shape seg = cylinder
           /\ exists r rest e,
                RootCopy.cylinder_attempt L g df_areas (seg_start seg)
                                          (seg_end seg)
                = Some (r :: rest, e, err)
                /\ seg_params seg = [r])
       \/ (seg_shape seg = cylinder
           /\ RootCopy.cylinder_attempt L g df_areas (seg_start seg)
                                        (seg_end seg) = None
           /\ RootCopy.frustum_attempt L g df_areas (seg_start seg)
                                       (seg_end seg) = None
           /\ seg_params seg
              = [RootCopy.segment_guess_r L df_areas (seg_start seg)
                                          (seg_end seg)]
           /\ err = 0))
    segments errors
  /\ (forall start end_ popt e pct,
        RootCopy.cylinder_attempt L g df_areas start end_
        = Some (popt, e, pct) ->
        exists xs ys r,
          curve_fit L cylinder xs ys [r]
            [RootCopy.fit_bounds_lower (RootCopy.GEOMETRIC_CONSTRAINTS g) * r]
            [RootCopy.fit_bounds_upper (RootCopy.GEOMETRIC_CONSTRAINTS g) * r]
            (RootCopy.maxfev (RootCopy.DEFAULT_PARAMS g))
          = Some popt)
  /\ (forall start end_ popt e pct,
        RootCopy.frustum_attempt L g df_areas start end_
        = Some (popt, e, pct) ->
        exists xs ys r1 r2 H,
          let lo :=
            RootCopy.fit_bounds_lower (RootCopy.GEOMETRIC_CONSTRAINTS g) in
          let hi :=
            RootCopy.fit_bounds_upper (RootCopy.GEOMETRIC_CONSTRAINTS g) in
          curve_fit L frustum xs ys [r1; r2; H]
            [lo * r1; lo * r2; 0.8 * H] [hi * r1; hi * r2; 1.2 * H]
            (RootCopy.maxfev (RootCopy.DEFAULT_PARAMS g))
          = Some popt)
  /\ forall cf,
       (forall xs ys p0 lo hi m,
          cf cylinder xs ys p0 lo hi m = curve_fit L cylinder xs ys p0 lo hi m
          /\ cf frustum xs ys p0 lo hi m
             = curve_fit L frustum xs ys p0 lo hi m) ->
       RootCopy.segment_and_fit (with_curve_fit L cf) g df_areas
       = Some (segments, errors).
Proof.
  intro H. split; [|split; [|split]].
  2:{ intros start end_ popt e pct Ha.
      apply root_copy_raw_fit_popt in Ha. destruct Ha as (xs & ys & Ha).
      eauto. }
  2:{ intros start end_ popt e pct Ha.
      unfold RootCopy.frustum_attempt, RootCopy.try_frustum, bind in Ha.
      cbv zeta in Ha.
      destruct (Py.last_item _) as [x_last|]; [|discriminate].
      destruct (Py.getitem _ 0) as [x_first|]; [|discriminate].
      destruct (if (0 <? start)%Z then _ else _) as [area_start|];
        [|discriminate].
      destruct (if (end_ <? _)%Z then _ else _) as [area_end|];
        [|discriminate].
      apply root_copy_raw_fit_popt in Ha. destruct Ha as (xs & ys & Ha).
      eexists xs, ys, _, _, _. exact Ha. }
  - unfold RootCopy.segment_and_fit, bind in H.
    destruct (RootCopy.detect_transitions L g df_areas) as [ts|];
      [|discriminate].
    destruct (RootCopy.fit_loop L g df_areas ts) as [fitted|] eqn:Ef;
      [|discriminate].
    injection H as <- <-.
    apply root_copy_fit_loop_origin in Ef.
    induction Ef as [|[seg err] rest Hr _ IH]; simpl; constructor; [|exact IH].
    simpl in Hr. apply root_copy_fit_segment_select in Hr.
    exact (root_copy_select_fit_origin _ _ _ _ _ _ _ Hr).
  - intros cf Hcf. rewrite <- H.
    unfold RootCopy.segment_and_fit.
    change (RootCopy.detect_transitions (with_curve_fit L cf) g df_areas)
      with (RootCopy.detect_transitions L g df_areas).
    destruct (RootCopy.detect_transitions L g df_areas) as [ts|];
      [|reflexivity].
    unfold bind.
    rewrite (root_copy_fit_loop_solver L cf g df_areas ts);
      [reflexivity | apply Hcf | apply Hcf].
Qed.

Lemma two_models_attempted_and_selected_witness :
  let L := two_solver_lib (Some [10.1]) (Some [10; 10.2; 12]) in
  let r :=
    match RootCopy.segment_and_fit L RootCopy.initial_globals
                                   near_cylinder_table with
    | Some r => r
    | None => ([], [])
    end in
  fst r = [mkSegment 0 12 frustum [10; 10.2; 12]]
  /\ Forall2
       (fun seg err =>
          (seg_shape seg = frustum
           /\ exists e,
                RootCopy.frustum_attempt L RootCopy.initial_globals
                  near_cylinder_table (seg_start seg) (seg_end seg)
                = Some (seg_params seg, e, err))
          \/ (seg_shape seg = cylinder
              /\ exists r rest e,
                   RootCopy.cylinder_attempt L RootCopy.initial_globals
                     near_cylinder_table (seg_start seg) (seg_end seg)
                   = Some (r :: rest, e, err)
                   /\ seg_params seg = [r])
          \/ (seg_shape seg = cylinder
              /\ RootCopy.cylinder_attempt L RootCopy.initial_globals
                   near_cylinder_table (seg_start seg) (seg_end seg) = None
              /\ RootCopy.frustum_attempt L RootCopy.initial_globals
                   near_cylinder_table (seg_start seg) (seg_end seg) = None
              /\ seg_params seg
                 = [RootCopy.segment_guess_r L near_cylinder_table
                                             (seg_start seg) (seg_end seg)]
              /\ err = 0))
       (fst r) (snd r)
  /\ (forall start end_ popt e pct,
        RootCopy.cylinder_attempt L RootCopy.initial_globals
                                  near_cylinder_table start end_
        = Some (popt, e, pct) ->
        exists xs ys r0,
          curve_fit L cylinder xs ys [r0] [0.5 * r0] [3.0 * r0] 4000
          = Some popt)
  /\ (forall start end_ popt e pct,
        RootCopy.frustum_attempt L RootCopy.initial_globals
                                 near_cylinder_table start end_
        = Some (popt, e, pct) ->
        exists xs ys r1 r2 H,
          let lo := 0.5 in
          let hi := 3.0 in
          curve_fit L frustum xs ys [r1; r2; H]
            [lo * r1; lo * r2; 0.8 * H] [hi * r1; hi * r2; 1.2 * H] 4000
          = Some popt)
  /\ forall cf,
       (forall xs ys p0 lo hi m,
          cf cylinder xs ys p0 lo hi m = curve_fit L cylinder xs ys p0 lo hi m
          /\ cf frustum xs ys p0 lo hi m
             = curve_fit L frustum xs ys p0 lo hi m) ->
       RootCopy.segment_and_fit (with_curve_fit L cf) RootCopy.initial_globals
                                near_cylinder_table
       = Some (fst r, snd r).
Proof.
  split; [vm_compute; reflexivity|].
  apply (two_models_attempted_and_selected
           (two_solver_lib (Some [10.1]) (Some [10; 10.2; 12]))
           RootCopy.initial_globals near_cylinder_table).
  vm_compute. reflexivity.
Defined.

(** The stage never returns a cone or a spherical cap.  On the table of
    a cone, and on the table of a spherical cap, with a solver that
    returns the parameters of the container exactly for its own model,
    the stage returns a single segment of another kind, where the module
    under [src] returns the cone and the cap
    ([each_model_selected_on_its_table]). *)
Lemma cone_and_sphere_cap_never_selected :
  (forall L g df_areas segments errors seg,
     RootCopy.segment_and_fit L g df_areas = Some (segments, errors) ->
     In seg segments ->
     seg_shape seg <> cone /\ seg_shape seg <> sphere_cap)
  /\ (exists seg err,
        RootCopy.segment_and_fit (exact_fit_lib cone [6; 12])
          RootCopy.initial_globals
          (shape_table cone [6; 12] (fun h => 3 * (h / 2) ^ 2))
        = Some ([seg], [err])
        /\ seg_start seg = 0%Z /\ seg_end seg = 12%Z
        /\ seg_shape seg <> cone)
  /\ (exists seg err,
        RootCopy.segment_and_fit (exact_fit_lib sphere_cap [10])
          RootCopy.initial_globals
          (shape_table sphere_cap [10] (fun h => 3 * (20 * h - h ^ 2)))
        = Some ([seg], [err])
        /\ seg_start seg = 0%Z /\ seg_end seg = 12%Z
        /\ seg_shape seg <> sphere_cap).
Proof.
  split; [|split].
  - intros L g df_areas segments errors seg H Hin.
    unfold RootCopy.segment_and_fit, bind in H.
    destruct (RootCopy.detect_transitions L g df_areas) as [ts|];
      [|discriminate].
    destruct (RootCopy.fit_loop L g df_areas ts) as [fitted|] eqn:Ef;
      [|discriminate].
    injection H as <- _.
    apply root_copy_fit_loop_origin in Ef.
    apply in_map_iff in Hin. destruct Hin as ([seg' err] & <- & Hin).
    rewrite Forall_forall in Ef. specialize (Ef _ Hin). simpl in Ef.
    apply root_copy_two_models in Ef. simpl.
    destruct Ef as [-> | ->]; split; discriminate.
  - eexists _, _. split; [vm_compute; reflexivity|].
    repeat split; discriminate.
  - eexists _, _. split; [vm_compute; reflexivity|].
    repeat split; discriminate.
Qed.

(** ** Model selection and the cylinder preference *)

Lemma insert_by_adjusted_in (c d : FitResult * Q) (l : list (FitResult * Q)) :
  In d (insert_by_adjusted c l) <-> d = c \/ In d l.
Proof.
  induction l as [|a t IH]; simpl; [intuition|].
  destruct (Qle_bool (snd a) (snd c)); simpl; [rewrite IH|]; intuition.
Qed.

Lemma insert_by_adjusted_sorted (c : FitResult * Q) (l : list (FitResult * Q)) :
  StronglySorted (fun a b => snd a <= snd b) l ->
  StronglySorted (fun a b => snd a <= snd b) (insert_by_adjusted c l).
Proof.
  induction 1 as [|a t Hs IH Hall]; simpl.
  - repeat constructor.
  - destruct (Qle_bool (snd a) (snd c)) eqn:E.
    + apply Qle_bool_iff in E. constructor; [exact IH|].
      apply Forall_forall. intros d Hd. apply insert_by_adjusted_in in Hd.
      destruct Hd as [->|Hd]; [exact E|].
      rewrite Forall_forall in Hall. now apply Hall.
    + apply PyFacts.Qle_bool_false in E.
      constructor; [constructor; auto|].
      constructor; [lra|].
      eapply Forall_impl; [|exact Hall]. simpl. intros d Hd. lra.
Qed.

Lemma sort_by_adjusted_spec (l acc : list (FitResult * Q)) :
  StronglySorted (fun a b => snd a <= snd b) acc ->
  StronglySorted (fun a b => snd a <= snd b)
                 (fold_left (fun acc c => insert_by_adjusted c acc) l acc)
  /\ forall d, In d (fold_left (fun acc c => insert_by_adjusted c acc) l acc)
               <-> In d l \/ In d acc.
Proof.
  revert acc. induction l as [|c t IH]; intros acc Hacc; simpl.
  - split; [exact Hacc|]. intuition.
  - destruct (IH (insert_by_adjusted c acc)) as [Hs Hin].
    { now apply insert_by_adjusted_sorted. }
    split; [exact Hs|]. intro d. rewrite Hin, insert_by_adjusted_in.
    intuition.
Qed.

(** The fit selected before the cylinder preference is a candidate of
    lowest adjusted error. *)
Lemma select_best_fit_lowest (fit_results : list FitResult)
    (selected : FitResult) :
  select_best_fit fit_results = Some selected ->
  exists best,
    In best fit_results
    /\ (forall f, In f fit_results ->
                  adjusted_error (fst (fst best)) (snd best)
                  <= adjusted_error (fst (fst f)) (snd f))
    /\ selected = cylinder_preference fit_results best.
Proof.
  unfold select_best_fit, sort_by_adjusted.
  match goal with
  | |- match fold_left ?f ?adj [] with _ => _ end = _ -> _ =>
      assert (Hspec :
                StronglySorted (fun a b : FitResult * Q => snd a <= snd b)
                               (fold_left f adj [])
                /\ forall d, In d (fold_left f adj [])
                             <-> In d adj \/ In d [])
        by (apply sort_by_adjusted_spec; constructor);
      destruct (fold_left f adj []) as [|[best a] rest]
  end; [discriminate|].
  destruct Hspec as [Hs Hin].
  intros [= <-]. exists best.
  assert (Hb : In (best, a)
                  (map (fun f : FitResult =>
                          (f, adjusted_error (fst (fst f)) (snd f)))
                       fit_results)).
  { destruct (proj1 (Hin (best, a)) (or_introl eq_refl)) as [Hb|[]].
    exact Hb. }
  apply in_map_iff in Hb. destruct Hb as (f0 & Heq & Hf0).
  injection Heq as -> <-.
  split; [exact Hf0|]. split; [|reflexivity].
  intros f Hf.
  assert (Hfs : In (f, adjusted_error (fst (fst f)) (snd f))
                   ((best, adjusted_error (fst (fst best)) (snd best))
                      :: rest)).
  { apply Hin. left. apply in_map_iff. exists f. auto. }
  inversion Hs as [|? ? _ Hall]; subst.
  destruct Hfs as [Heq|Hfs].
  - injection Heq as ->. lra.
  - rewrite Forall_forall in Hall. apply (Hall _ Hfs).
Qed.

Lemma find_cylinder_shape (fit_results : list FitResult) (s : Shape)
    (p : list Q) (e : Q) :
  find_cylinder fit_results = Some (s, p, e) -> s = cylinder.
Proof.
  unfold find_cylinder. intro H. apply find_some in H.
  destruct H as [_ H]. simpl in H. destruct s; try discriminate. reflexivity.
Qed.

(** In the module under [src], the fit selected for a segment is the
    candidate of lowest adjusted error, corrected as follows when it is
    a frustum whose two end radii differ by less than 5% of the larger,
    positive one: if a cylinder candidate exists, it replaces the
    frustum when its raw error is at most 1.2 times the frustum's error,
    and the frustum is kept when the cylinder's error is larger; if no
    cylinder candidate exists, a cylinder of the mean of the two radii
    is returned with the frustum's error. *)
Lemma cylinder_preference_resolution
    (fit_results : list FitResult) (r1 r2 : Q) (rest : list Q)
    (best_error : Q) :
  0 < Py.max r1 r2 ->
  Qabs (r2 - r1) / Py.max r1 r2 < 0.05 ->
  (forall selected,
     select_best_fit fit_results = Some selected ->
     exists best,
       In best fit_results
       /\ (forall f, In f fit_results ->
                     adjusted_error (fst (fst best)) (snd best)
                     <= adjusted_error (fst (fst f)) (snd f))
       /\ selected = cylinder_preference fit_results best)
  /\ (forall s cyl_params cyl_error,
        find_cylinder fit_results = Some (s, cyl_params, cyl_error) ->
        s = cylinder
        /\ (cyl_error <= best_error * 1.2 ->
            cylinder_preference fit_results
                                (frustum, r1 :: r2 :: rest, best_error)
            = (cylinder, cyl_params, cyl_error))
        /\ (best_error * 1.2 < cyl_error ->
            cylinder_preference fit_results
                                (frustum, r1 :: r2 :: rest, best_error)
            = (frustum, r1 :: r2 :: rest, best_error)))
  /\ (find_cylinder fit_results = None ->
      cylinder_preference fit_results (frustum, r1 :: r2 :: rest, best_error)
      = (cylinder, [(r1 + r2) / 2], best_error)).
Proof.
  intros Hpos Hdiff.
  apply PyFacts.Qltb_true in Hpos. apply PyFacts.Qltb_true in Hdiff.
  split; [exact (select_best_fit_lowest fit_results)|].
  split.
  - intros s cyl_params cyl_error Hc.
    split; [exact (find_cylinder_shape _ _ _ _ Hc)|].
    unfold cylinder_preference. rewrite Hpos, Hdiff, Hc.
    split; intro H.
    + apply Qle_bool_iff in H. now rewrite H.
    + apply PyFacts.Qle_bool_false in H. now rewrite H.
  - intro Hc. unfold cylinder_preference. now rewrite Hpos, Hdiff, Hc.
Qed.

(** There, a frustum whose radii differ by 2% is not always returned as
    a cylinder: with a cylinder candidate of error 2.0 and a frustum
    candidate of radii 10 and 10.2 and error 1.0, the frustum has the
    lowest adjusted error (1.5), its radii differ by less than 5%, and
    the cylinder's error exceeds 1.2 times the frustum's: the frustum is
    kept. *)
Example cylinder_preference_keeps_frustum :
  select_best_fit [(cylinder, [10.1], 2.0); (frustum, [10; 10.2; 12], 1.0)]
  = Some (frustum, [10; 10.2; 12], 1.0)
  /\ Qabs (10.2 - 10) / Py.max 10 10.2 < 0.05
  /\ ~ 2.0 <= 1.0 * 1.2.
Proof.
  split; [reflexivity|]. split; [reflexivity|].
  intro H. vm_compute in H. apply H. reflexivity.
Qed.

(** *** The selection of the copy at the repository root *)

(** C4 (as amended).  The copy of the analyzer at the repository root
    has no cylinder-preference correction.  When the frustum fit of a
    segment converges, the fitter returns the frustum, with the
    parameters and the percent error of that fit, whatever its two end
    radii, unless the cylinder fit converged with a strictly lower raw
    error; when the cylinder fit raised, the frustum is returned as it
    is, and no cylinder is made from its radii. *)
Theorem frustum_returned_unless_cylinder_error_lower
    (L : SciLib) (g : RootCopy.Globals) (df_areas : DataFrame)
    (start end_ : Z) (seg : Segment) (err : Q)
    (popt_frust : list Q) (frust_error frust_pct : Q) :
  RootCopy.fit_segment L g df_areas start end_ = Some (seg, err) ->
  RootCopy.frustum_attempt L g df_areas start end_
  = Some (popt_frust, frust_error, frust_pct) ->
  match RootCopy.cylinder_attempt L g df_areas start end_ with
  | Some (popt_cyl, cyl_error, cyl_pct) =>
      (cyl_error < frust_error ->
       exists r,
         Py.getitem popt_cyl 0 = Some r
         /\ seg = mkSegment start end_ cylinder [r] /\ err = cyl_pct)
      /\ (frust_error <= cyl_error ->
          seg = mkSegment start end_ frustum popt_frust /\ err = frust_pct)
  | None => seg = mkSegment start end_ frustum popt_frust /\ err = frust_pct
  end.
Proof.
  intros Hfit Hfrust. apply root_copy_fit_segment_select in Hfit.
  rewrite Hfrust in Hfit. unfold RootCopy.select_fit, bind in Hfit.
  destruct (RootCopy.cylinder_attempt L g df_areas start end_)
    as [[[popt_cyl cyl_error] cyl_pct]|].
  - destruct (Py.Qltb cyl_error frust_error) eqn:E.
    + apply PyFacts.Qltb_true in E.
      destruct (Py.getitem popt_cyl 0) as [r|]; [|discriminate].
      injection Hfit as <- <-.
      split; [intros _; exists r; auto|]. intro H. lra.
    + apply PyFacts.Qltb_false in E. injection Hfit as <- <-.
      split; [intro H; lra|auto].
  - injection Hfit as <- <-. auto.
Qed.

Lemma frustum_returned_unless_cylinder_error_lower_witness :
  let L := two_solver_lib (Some [10.1]) (Some [10.028; 10.228; 12]) in
  let r :=
    match RootCopy.fit_segment L RootCopy.initial_globals near_cylinder_table
                               0 12 with
    | Some r => r
    | None => (mkSegment 0 0 cylinder [], 0)
    end in
  let f :=
    match RootCopy.frustum_attempt L RootCopy.initial_globals
                                   near_cylinder_table 0 12 with
    | Some f => f
    | None => ([], 0, 0)
    end in
  fst r = mkSegment 0 12 frustum [10.028; 10.228; 12]
  /\ match RootCopy.cylinder_attempt L RootCopy.initial_globals
                                     near_cylinder_table 0 12 with
     | Some (popt_cyl, cyl_error, cyl_pct) =>
         (cyl_error < snd (fst f) ->
          exists r0,
            Py.getitem popt_cyl 0 = Some r0
            /\ fst r = mkSegment 0 12 cylinder [r0] /\ snd r = cyl_pct)
         /\ (snd (fst f) <= cyl_error ->
             fst r = mkSegment 0 12 frustum (fst (fst f)) /\ snd r = snd f)
     | None => fst r = mkSegment 0 12 frustum (fst (fst f)) /\ snd r = snd f
     end.
Proof.
  intros L r f. split; [vm_compute; reflexivity|].
  apply (frustum_returned_unless_cylinder_error_lower
           L RootCopy.initial_globals near_cylinder_table 0 12
           (fst r) (snd r) (fst (fst f)) (snd (fst f)) (snd f)).
  - vm_compute. reflexivity.
  - vm_compute. reflexivity.
Defined.

(** A frustum whose radii differ by 2% is returned as a frustum.  On
    the table of the frustum of radii 10 and 10.2, when the solver
    returns the radius 10.1 for the cylinder and the frustum itself, the
    segment is that frustum; it still is when the solver raises for the
    cylinder, so that there is no cylinder candidate.  When the solver
    stops at the frustum of radii 10.028 and 10.228, the raw error of
    the cylinder is above the frustum's and within 1.2 times it, and the
    segment is the frustum. *)
Lemma near_cylindrical_frustum_returned :
  Qabs (10.2 - 10) / Py.max 10 10.2 < 0.05
  /\ (exists err,
        RootCopy.segment_and_fit
          (two_solver_lib (Some [10.1]) (Some [10; 10.2; 12]))
          RootCopy.initial_globals near_cylinder_table
        = Some ([mkSegment 0 12 frustum [10; 10.2; 12]], [err]))
  /\ (exists err,
        RootCopy.segment_and_fit (two_solver_lib None (Some [10; 10.2; 12]))
                                 RootCopy.initial_globals near_cylinder_table
        = Some ([mkSegment 0 12 frustum [10; 10.2; 12]], [err]))
  /\ (exists cyl_error cyl_pct frust_error frust_pct,
        RootCopy.cylinder_attempt
          (two_solver_lib (Some [10.1]) (Some [10.028; 10.228; 12]))
          RootCopy.initial_globals near_cylinder_table 0 12
        = Some ([10.1], cyl_error, cyl_pct)
        /\ RootCopy.frustum_attempt
             (two_solver_lib (Some [10.1]) (Some [10.028; 10.228; 12]))
             RootCopy.initial_globals near_cylinder_table 0 12
           = Some ([10.028; 10.228; 12], frust_error, frust_pct)
        /\ Qabs (10.228 - 10.028) / Py.max 10.028 10.228 < 0.05
        /\ frust_error < cyl_error
        /\ cyl_error <= frust_error * 1.2
        /\ RootCopy.segment_and_fit
             (two_solver_lib (Some [10.1]) (Some [10.028; 10.228; 12]))
             RootCopy.initial_globals near_cylinder_table
           = Some ([mkSegment 0 12 frustum [10.028; 10.228; 12]],
                   [frust_pct])).
Proof.
  split; [reflexivity|].
  split; [eexists; vm_compute; reflexivity|].
  split; [eexists; vm_compute; reflexivity|].
  eexists _, _, _, _.
  split; [vm_compute; reflexivity|].
  split; [vm_compute; reflexivity|].
  split; [reflexivity|].
  split; [reflexivity|].
  split; [vm_compute; discriminate|].
  vm_compute. reflexivity.
Qed.

(** ** The reconstructed profile *)










(** ** What a run of the stage reads *)

(** In the module under [src] the segments returned by
    [segment_and_fit_optimized], and the fit errors it records in the
    job, are those of [segment_and_fit]. *)
Lemma segment_and_fit_optimized_result
    (L : SciLib) (df_areas : DataFrame) (job : option AnalysisJob) (w : World) :
  match segment_and_fit_optimized L df_areas job w,
        segment_and_fit L df_areas with
  | Some (segments, job', _), Some (segments', errors') =>
      segments = segments'
      /\ (job = None <-> job' = None)
      /\ forall j, job' = Some j ->
                   fit_errors j = errors'
                   /\ segments_count j = Z.of_nat (length segments')
                   /\ avg_fit_error j
                      = match errors' with [] => 0 | _ => Py.mean errors' end
                   /\ max_fit_error j
                      = match Py.amax errors' with Some m => m | None => 0 end
  | None, None => True
  | _, _ => False
  end.
Proof.
  unfold segment_and_fit_optimized, read_clock, add_warning, complete_step,
    read_clock, bind.
  destruct (Z.of_nat (length df_areas) <? 10)%Z; destruct job as [j0|];
    simpl; destruct (segment_and_fit L df_areas) as [[segs errs]|];
    simpl; auto;
    (split; [reflexivity|]); (split; [split; congruence|]);
    intros j [= <-]; simpl; auto; discriminate.
Qed.





(** ** Evaluation on sample inputs *)



Example normalize_score_sample :
  normalize_score [1; 3; 2] = Some [(1 - 1) / (3 - 1); (3 - 1) / (3 - 1);
                                    (2 - 1) / (3 - 1)]
  /\ normalize_score [4; 4; 4] = Some [0; 0; 0]
  /\ combine_scores [0; 1; 0.5] [1; 0; 0.5]
     = [0.6 * 0 + 0.4 * 1; 0.6 * 1 + 0.4 * 0; 0.6 * 0.5 + 0.4 * 0.5]
  /\ adaptive_percentile 150 = 70
  /\ adaptive_percentile 100 = 75
  /\ adaptive_percentile 30 = 80
  /\ adaptive_percentile 15 = 85
  /\ adaptive_percentile 10 = 90.
Proof. repeat split; reflexivity. Qed.

Example improved_score_sample :
  derivative_score (sample_lib []) (map Area (cylinder_table 30))
                   (map Height_mm (cylinder_table 30)) 30
  = Some (repeat (0.6 * 0 + 0.4 * 0) 29)
  /\ score_percentile (sample_lib []) (map Area (cylinder_table 30)) 30 true
     = Some 90.
Proof. split; vm_compute; reflexivity. Qed.

(** The clock does reach the job: the same run under two clocks records
    different step durations, with the same segments. *)
Example clock_only_reaches_the_job :
  match RootCopy.segment_and_fit_optimized
          (sample_lib [14%Z]) (cylinder_table 30) (Some new_job)
          RootCopy.initial_globals still_clock,
        RootCopy.segment_and_fit_optimized
          (sample_lib [14%Z]) (cylinder_table 30) (Some new_job)
          RootCopy.initial_globals ticking_clock with
  | Some (segments1, Some j1, _, _), Some (segments2, Some j2, _, _) =>
      segments1 = segments2
      /\ fit_errors j1 = fit_errors j2
      /\ steps_completed j1 = [(Segmentation_and_Fitting, 0, 0 - 0)]
      /\ steps_completed j2 = [(Segmentation_and_Fitting, 2, 1 - 0)]
  | _, _ => False
  end.
Proof. vm_compute. repeat split. Qed.

(** * Further properties of the engine *)

(** ** The volume models *)

(** X3.  Above the top of the sphere, at fill heights of [2 * R] or more, the
    spherical-cap model returns the volume of the whole sphere,
    [4/3 * pi * R^3]. *)
Theorem sphere_cap_saturates_at_full_sphere (L : SciLib) (h R : Q) :
  2 * R <= h ->
  volume_sphere_cap L h R == 4 / 3 * pi L * R ^ 3.
Proof.
  intro Hh. unfold volume_sphere_cap, Py.min. cbv zeta.
  destruct (Py.Qltb (2 * R) h) eqn:E.
  - field.
  - apply PyFacts.Qltb_false in E.
    assert (Eh : h == 2 * R) by lra.
    rewrite Eh. field.
Qed.

Lemma sphere_cap_saturates_at_full_sphere_witness :
  volume_sphere_cap (sample_lib []) 25 10
  == 4 / 3 * pi (sample_lib []) * 10 ^ 3.
Proof.
  apply (sphere_cap_saturates_at_full_sphere (sample_lib []) 25 10).
  vm_compute. discriminate.
Defined.

Lemma cap_poly_monotone (R a b : Q) :
  0 <= a -> a <= b -> b <= 2 * R ->
  a ^ 2 * (3 * R - a) <= b ^ 2 * (3 * R - b).
Proof.
  intros Ha Hab Hb.
  assert (H1 : 0 <= (b - a) * ((3 # 2) * ((2 * R - b) * (a + b))
                               + (1 # 2) * ((b - a) * (b + 2 * a)))).
  { apply Qmult_le_0_compat; [lra|].
    assert (0 <= (2 * R - b) * (a + b)) by (apply Qmult_le_0_compat; lra).
    assert (0 <= (b - a) * (b + 2 * a)) by (apply Qmult_le_0_compat; lra).
    lra. }
  assert (E : b ^ 2 * (3 * R - b) - a ^ 2 * (3 * R - a)
              == (b - a) * ((3 # 2) * ((2 * R - b) * (a + b))
                            + (1 # 2) * ((b - a) * (b + 2 * a)))) by ring.
  lra.
Qed.

Lemma min_cap (h R : Q) : 0 <= h -> 0 <= R ->
  0 <= Py.min h (2 * R) /\ Py.min h (2 * R) <= 2 * R.
Proof.
  intros. unfold Py.min. PyFacts.qcases; split; lra.
Qed.

Lemma min_mono (a b c : Q) : a <= b -> Py.min a c <= Py.min b c.
Proof. intros. unfold Py.min. PyFacts.qcases; lra. Qed.

(** X4.  For a non-negative sphere radius (and [pi >= 0]) the
    spherical-cap model is non-negative and non-decreasing in the fill
    height, from height 0 on. *)
Theorem sphere_cap_volume_grows_with_height (L : SciLib) (R h1 h2 : Q) :
  0 <= pi L -> 0 <= R -> 0 <= h1 -> h1 <= h2 ->
  0 <= volume_sphere_cap L h1 R
  /\ volume_sphere_cap L h1 R <= volume_sphere_cap L h2 R.
Proof.
  intros Hpi HR H1 H12. unfold volume_sphere_cap. cbv zeta.
  destruct (min_cap h1 R H1 HR) as [Ha1 Ha2].
  destruct (min_cap h2 R ltac:(lra) HR) as [Hb1 Hb2].
  pose proof (min_mono h1 h2 (2 * R) H12) as Hm.
  set (a := Py.min h1 (2 * R)) in *. set (b := Py.min h2 (2 * R)) in *.
  pose proof (cap_poly_monotone R a b Ha1 Hm Hb2) as Hp.
  pose proof (cap_poly_monotone R 0 a ltac:(lra) Ha1 Ha2) as Hp0.
  assert (E0 : 0 ^ 2 * (3 * R - 0) == 0) by ring.
  assert (Hq : 0 <= pi L * (a ^ 2 * (3 * R - a))) by (apply Qmult_le_0_compat; lra).
  assert (Hr : 0 <= pi L * (b ^ 2 * (3 * R - b) - a ^ 2 * (3 * R - a))) by (apply Qmult_le_0_compat; lra).
  split.
  - assert (E : pi L * a ^ 2 * (3 * R - a) / 3
                == (1 # 3) * (pi L * (a ^ 2 * (3 * R - a)))) by field.
    rewrite E. lra.
  - assert (E : pi L * b ^ 2 * (3 * R - b) / 3
                == pi L * a ^ 2 * (3 * R - a) / 3
                   + (1 # 3) * (pi L * (b ^ 2 * (3 * R - b)
                                        - a ^ 2 * (3 * R - a)))) by field.
    rewrite E. lra.
Qed.

Lemma sphere_cap_volume_grows_with_height_witness :
  0 <= volume_sphere_cap (sample_lib []) 2 10
  /\ volume_sphere_cap (sample_lib []) 2 10
     <= volume_sphere_cap (sample_lib []) 5 10.
Proof.
  apply (sphere_cap_volume_grows_with_height (sample_lib []) 10 2 5);
    vm_compute; discriminate.
Defined.

(** ** The volume of a profile *)

Lemma slice_to_minus1 {A} (l : list A) : Py.slice_to l (-1) = removelast l.
Proof.
  unfold Py.slice_to, Py.slice, Py.slice_bound. cbv zeta.
  change (0 <? 0)%Z with false. change (-1 <? 0)%Z with true. cbv iota.
  rewrite removelast_firstn_len.
  replace (Z.to_nat (Z.max 0 (Z.min (Z.of_nat (length l)) 0))) with 0%nat by lia.
  rewrite skipn_O. f_equal. lia.
Qed.

Lemma slice_from_1 {A} (l : list A) : Py.slice_from l 1 = tl l.
Proof.
  unfold Py.slice_from, Py.slice, Py.slice_bound. cbv zeta.
  change (1 <? 0)%Z with false. cbv iota.
  destruct l as [|x t]; [reflexivity|].
  assert (E0 : (Z.of_nat (length (x :: t)) <? 0)%Z = false) by (apply Z.ltb_ge; lia).
  rewrite E0.
  replace (Z.to_nat (Z.max 0 (Z.min (Z.of_nat (length (x :: t))) 1))) with 1%nat
    by (simpl length; lia).
  simpl skipn. apply firstn_all2. simpl length. lia.
Qed.

Lemma profile_layers (L : SciLib) (z r : list Q) :
  length r = length z ->
  broadcast_mul
    (map (fun x => pi L * x ^ 2)
         (map (fun p => (fst p + snd p) / 2)
              (combine (Py.slice_to r (-1)) (Py.slice_from r 1))))
    (Py.diff z)
  = Some (layer_list L z r).
Proof.
  rewrite slice_to_minus1, slice_from_1. intro Hlen.
  assert (E : map (fun p => fst p * snd p)
                (combine (map (fun x => pi L * x ^ 2)
                            (map (fun p => (fst p + snd p) / 2)
                                 (combine (removelast r) (tl r))))
                         (Py.diff z))
              = layer_list L z r).
  { revert r Hlen. induction z as [|z0 zt IH]; intros [|r0 rt] Hlen;
      try discriminate; [reflexivity|].
    destruct zt as [|z1 zt]; destruct rt as [|r1 rt]; try discriminate;
      [reflexivity|].
    specialize (IH (r1 :: rt) ltac:(simpl in *; lia)).
    change (layer_list L (z0 :: z1 :: zt) (r0 :: r1 :: rt))
      with ((pi L * ((r0 + r1) / 2) ^ 2 * (z1 - z0))
              :: layer_list L (z1 :: zt) (r1 :: rt)).
    rewrite <- IH. reflexivity. }
  unfold broadcast_mul.
  assert (El : Nat.eqb
                 (length (map (fun x => pi L * x ^ 2)
                            (map (fun p => (fst p + snd p) / 2)
                                 (combine (removelast r) (tl r)))))
                 (length (Py.diff z)) = true).
  { apply Nat.eqb_eq. rewrite !length_map, length_combine.
    assert (Hd : forall l, length (Py.diff l) = (length l - 1)%nat).
    { induction l as [|a [|b t] IHl]; simpl in *; auto. rewrite IHl. lia. }
    rewrite Hd, removelast_firstn_len, length_firstn.
    destruct r; simpl in *; lia. }
  rewrite El, E. reflexivity.
Qed.

Lemma cumsum_from_length (acc : Q) (l : list Q) :
  length (cumsum_from acc l) = length l.
Proof. revert acc; induction l as [|x t IH]; intro acc; simpl; auto. Qed.

Lemma cumsum_length (l : list Q) : length (cumsum l) = length l.
Proof. destruct l; simpl; [reflexivity|]. now rewrite cumsum_from_length. Qed.

Lemma last_cons_default {A} (a d : A) (l : list A) :
  last (a :: l) d = last l a.
Proof.
  revert a d; induction l as [|b l IH]; intros a d; [reflexivity|].
  change (last (a :: b :: l) d) with (last (b :: l) d).
  rewrite (IH b d), (IH b a). reflexivity.
Qed.

Lemma cumsum_from_last (acc : Q) (l : list Q) :
  last (cumsum_from acc l) acc == acc + Py.sum l.
Proof.
  revert acc; induction l as [|x t IH]; intro acc.
  - simpl. ring.
  - change (cumsum_from acc (x :: t))
      with ((acc + x) :: cumsum_from (acc + x) t).
    rewrite last_cons_default, IH. simpl. ring.
Qed.

Lemma cumsum_last (l : list Q) : last (0 :: cumsum l) 0 == Py.sum l.
Proof.
  destruct l as [|x t]; [reflexivity|].
  change (cumsum (x :: t)) with (x :: cumsum_from x t).
  rewrite !last_cons_default, cumsum_from_last. reflexivity.
Qed.

Lemma last_item_last {A} (l : list A) (d : A) :
  l <> [] -> Py.last_item l = Some (last l d).
Proof.
  intro H. unfold Py.last_item, Py.getitem. rewrite (PyFacts.index_last l H).
  destruct (@exists_last _ l H) as (l' & a & ->).
  rewrite last_last, length_app. simpl.
  rewrite nth_error_app2 by lia.
  replace (length l' + 1 - 1 - length l')%nat with 0%nat by lia. reflexivity.
Qed.

Lemma layer_list_length (L : SciLib) (z r : list Q) :
  length r = length z -> length (layer_list L z r) = (length z - 1)%nat.
Proof.
  revert r; induction z as [|z0 zt IH]; intros [|r0 rt] H; try discriminate;
    [reflexivity|].
  destruct zt as [|z1 zt]; destruct rt as [|r1 rt]; try discriminate;
    [reflexivity|].
  change (layer_list L (z0 :: z1 :: zt) (r0 :: r1 :: rt))
    with ((pi L * ((r0 + r1) / 2) ^ 2 * (z1 - z0))
            :: layer_list L (z1 :: zt) (r1 :: rt)).
  cbn [length]. rewrite IH by (simpl in *; lia). simpl. lia.
Qed.

Lemma profile_volume_value (L : SciLib) (z r : list Q) :
  (2 <= length z)%nat -> length r = length z ->
  calculate_profile_volume L z r = Some (0 :: cumsum (layer_list L z r)).
Proof.
  intros Hn Hlen. unfold calculate_profile_volume. cbv zeta.
  assert (E : (Z.of_nat (length z) <? 2)%Z = false) by (apply Z.ltb_ge; lia).
  rewrite E. unfold bind. now rewrite profile_layers.
Qed.

(** X5.  On a height and a radius array of the same length
    [calculate_profile_volume] returns one cumulative volume per profile
    point, starting at 0, except that a profile of fewer than two points
    always gives the single value 0 (also an empty one).  With three
    heights or more, a radius array of another length (other than 2,
    which numpy broadcasts) raises. *)
Theorem profile_volume_shape (L : SciLib) (z r : list Q) :
  (length r = length z ->
   exists v,
     calculate_profile_volume L z r = Some v
     /\ length v = Nat.max 1 (length z)
     /\ nth_error v 0 = Some 0)
  /\ ((3 <= length z)%nat -> length r <> length z -> length r <> 2%nat ->
      calculate_profile_volume L z r = None).
Proof.
  split.
  - intro Hlen. destruct (le_lt_dec 2 (length z)) as [Hn|Hn].
    + exists (0 :: cumsum (layer_list L z r)).
      split; [now apply profile_volume_value|].
      split; [|reflexivity].
      simpl length. rewrite cumsum_length, layer_list_length by exact Hlen. lia.
    + exists [0]. unfold calculate_profile_volume.
      assert (E : (Z.of_nat (length z) <? 2)%Z = true) by (apply Z.ltb_lt; lia).
      rewrite E. split; [reflexivity|]. split; [|reflexivity].
      destruct z as [|? [|? ?]]; simpl in *; try reflexivity; lia.
  - intros Hn Hne H2. unfold calculate_profile_volume. cbv zeta.
    assert (E : (Z.of_nat (length z) <? 2)%Z = false) by (apply Z.ltb_ge; lia).
    rewrite E. unfold bind, broadcast_mul.
    rewrite slice_to_minus1, slice_from_1.
    assert (Hd : forall l, length (Py.diff l) = (length l - 1)%nat).
    { induction l as [|a [|b t] IHl]; simpl in *; auto. rewrite IHl. lia. }
    set (areas := map _ (map _ (combine (removelast r) (tl r)))).
    assert (Ha : length areas = (length r - 1)%nat).
    { unfold areas. rewrite !length_map, length_combine.
      rewrite removelast_firstn_len, length_firstn.
      destruct r; simpl; lia. }
    assert (El : Nat.eqb (length areas) (length (Py.diff z)) = false).
    { apply Nat.eqb_neq. rewrite Ha, Hd. lia. }
    rewrite El.
    pose proof (Hd z) as Hdz.
    destruct areas as [|a0 [|a1 at_]]; destruct (Py.diff z) as [|d0 [|d1 dt]];
      simpl in *; try reflexivity; lia.
Qed.

Lemma cumsum_from_nondecreasing (acc : Q) (l : list Q) :
  Forall (fun x => 0 <= x) l -> nondecreasing (acc :: cumsum_from acc l).
Proof.
  intro H. revert acc. induction H as [|x t Hx Ht IH]; intro acc; [exact I|].
  change (cumsum_from acc (x :: t)) with ((acc + x) :: cumsum_from (acc + x) t).
  split; [lra|apply IH].
Qed.

Lemma Qsquare_nonneg (x : Q) : 0 <= x * x.
Proof.
  destruct (Qlt_le_dec x 0) as [H|H].
  - assert (E : x * x == (- x) * (- x)) by ring.
    rewrite E. apply Qmult_le_0_compat; lra.
  - apply Qmult_le_0_compat; exact H.
Qed.

Lemma diff_nonneg (z : list Q) :
  nondecreasing z -> Forall (fun x => 0 <= x) (Py.diff z).
Proof.
  induction z as [|z0 [|z1 zt] IH]; intro Hz; try constructor.
  - destruct Hz. lra.
  - apply IH. apply Hz.
Qed.

Lemma broadcast_mul_nonneg (a b d : list Q) :
  Forall (fun x => 0 <= x) a -> Forall (fun x => 0 <= x) b ->
  broadcast_mul a b = Some d -> Forall (fun x => 0 <= x) d.
Proof.
  intros Ha Hb. unfold broadcast_mul.
  rewrite Forall_forall in Ha, Hb.
  destruct (Nat.eqb (length a) (length b)).
  - intros [= <-]. apply Forall_forall. intros x Hx.
    apply in_map_iff in Hx. destruct Hx as ([p q] & <- & Hin).
    apply Qmult_le_0_compat;
      [apply Ha; eapply in_combine_l | apply Hb; eapply in_combine_r];
      exact Hin.
  - assert (Hscale_l : forall x, In x a ->
              Forall (fun y => 0 <= y) (map (fun y => x * y) b)).
    { intros x Hx. apply Forall_forall. intros y Hy.
      apply in_map_iff in Hy. destruct Hy as (y' & <- & Hy').
      apply Qmult_le_0_compat; auto. }
    assert (Hscale_r : forall y, In y b ->
              Forall (fun x => 0 <= x) (map (fun x => x * y) a)).
    { intros y Hy. apply Forall_forall. intros x Hx.
      apply in_map_iff in Hx. destruct Hx as (x' & <- & Hx').
      apply Qmult_le_0_compat; auto. }
    destruct a as [|a0 [|a1 at_]]; destruct b as [|b0 [|b1 bt]];
      try discriminate; intros [= <-];
      try (apply Hscale_l; now left); try (apply Hscale_r; now left);
      constructor.
Qed.

Lemma nondecreasing_above (a : Q) (l : list Q) :
  nondecreasing (a :: l) -> Forall (fun x => a <= x) (a :: l).
Proof.
  revert a; induction l as [|b t IH]; intros a H.
  - constructor; [lra|constructor].
  - destruct H as [Hab Ht]. specialize (IH b Ht).
    constructor; [lra|].
    eapply Forall_impl; [|exact IH]. simpl. intros x Hx. lra.
Qed.

(** X7.  Along a profile of non-decreasing heights (and [pi >= 0]) the
    cumulative volumes returned by [calculate_profile_volume] are
    non-negative and never decrease, whatever the radii. *)
Theorem profile_volume_never_decreases (L : SciLib) (z r v : list Q) :
  0 <= pi L -> nondecreasing z ->
  calculate_profile_volume L z r = Some v ->
  nondecreasing v /\ Forall (fun x => 0 <= x) v.
Proof.
  intros Hpi Hz. unfold calculate_profile_volume. cbv zeta.
  assert (Hgoal : forall d, Forall (fun x => 0 <= x) d ->
            nondecreasing (0 :: cumsum d)
            /\ Forall (fun x => 0 <= x) (0 :: cumsum d)).
  { intros d Hd.
    assert (Hn : nondecreasing (0 :: cumsum d)).
    { destruct d as [|d0 dt]; [exact I|].
      inversion Hd; subst.
      change (cumsum (d0 :: dt)) with (d0 :: cumsum_from d0 dt).
      split; [assumption|]. now apply cumsum_from_nondecreasing. }
    split; [exact Hn|]. now apply nondecreasing_above. }
  destruct (Z.of_nat (length z) <? 2)%Z.
  - intros [= <-]. apply (Hgoal []). constructor.
  - unfold bind.
    destruct (broadcast_mul _ (Py.diff z)) as [d|] eqn:Ed; [|discriminate].
    intros [= <-]. apply Hgoal.
    apply (broadcast_mul_nonneg _ _ d) in Ed; [exact Ed| |now apply diff_nonneg].
    apply Forall_forall. intros x Hx. apply in_map_iff in Hx.
    destruct Hx as (y & <- & _).
    apply Qmult_le_0_compat; [exact Hpi|].
    assert (E : y ^ 2 == y * y) by ring. rewrite E. apply Qsquare_nonneg.
Qed.

Lemma profile_volume_never_decreases_witness :
  let v :=
    match calculate_profile_volume (sample_lib []) [0; 1; 4] [5; 3; 6] with
    | Some v => v
    | None => []
    end in
  nondecreasing v /\ Forall (fun x => 0 <= x) v.
Proof.
  apply (profile_volume_never_decreases (sample_lib []) [0; 1; 4] [5; 3; 6]).
  - vm_compute. discriminate.
  - simpl. repeat split; vm_compute; discriminate.
  - vm_compute. reflexivity.
Defined.

(** ** Area computation *)

Lemma insert_sortedQ_in (x y : Q) (l : list Q) :
  In y (Py.insert_sortedQ x l) <-> y = x \/ In y l.
Proof.
  induction l as [|a t IH]; simpl; [intuition|].
  destruct (Qle_bool x a); simpl; [|rewrite IH]; intuition.
Qed.

Lemma sortedQ_in (y : Q) (l : list Q) : In y (Py.sortedQ l) <-> In y l.
Proof.
  induction l as [|a t IH]; simpl; [tauto|].
  rewrite insert_sortedQ_in, IH. intuition.
Qed.

Lemma insert_sortedQ_length (x : Q) (l : list Q) :
  length (Py.insert_sortedQ x l) = S (length l).
Proof.
  induction l as [|a t IH]; simpl; [reflexivity|].
  destruct (Qle_bool x a); simpl; [|rewrite IH]; reflexivity.
Qed.

Lemma sortedQ_length (l : list Q) : length (Py.sortedQ l) = length l.
Proof.
  induction l as [|a t IH]; simpl; [reflexivity|].
  now rewrite insert_sortedQ_length, IH.
Qed.

(** The median of three values is one of them. *)
Lemma median_of_three_in (a b c : Q) : In (Py.median [a; b; c]) [a; b; c].
Proof.
  unfold Py.median. cbv zeta.
  rewrite sortedQ_length. change (Nat.even (length [a; b; c])) with false.
  cbv iota. apply sortedQ_in. apply nth_In. rewrite sortedQ_length. simpl. lia.
Qed.

Lemma median_filter3_length (a : list Q) :
  length (median_filter3 a) = length a.
Proof. unfold median_filter3. now rewrite length_map, length_seq. Qed.

Lemma median_filter3_keeps (P : Q -> Prop) (a : list Q) :
  Forall P a -> Forall P (median_filter3 a).
Proof.
  intro H. rewrite Forall_forall in H. apply Forall_forall. intros x Hx.
  unfold median_filter3 in Hx. apply in_map_iff in Hx.
  destruct Hx as (i & <- & Hi). apply in_seq in Hi.
  destruct (median_of_three_in (nth (i - 1) a 0) (nth i a 0)
              (nth (Nat.min (i + 1) (length a - 1)) a 0)) as [E|[E|[E|[]]]];
    rewrite <- E; apply H; apply nth_In; lia.
Qed.

Lemma diff_length (l : list Q) : length (Py.diff l) = (length l - 1)%nat.
Proof.
  induction l as [|a [|b t] IH]; simpl in *; auto. rewrite IH. lia.
Qed.

Lemma range_length (a b : Z) : length (Py.range a b) = Z.to_nat (b - a).
Proof. unfold Py.range. now rewrite length_map, length_seq. Qed.

Lemma range_in (a b i : Z) : In i (Py.range a b) <-> (a <= i < b)%Z.
Proof.
  unfold Py.range. rewrite in_map_iff. split.
  - intros (k & <- & Hk). apply in_seq in Hk. lia.
  - intro H. exists (Z.to_nat (i - a)). split; [lia|]. apply in_seq. lia.
Qed.

(** The rows assembled from the columns of a table. *)
Lemma area_rows_columns (df : list Measurement) :
  forall dV dh Area_ MidHeight : list Q,
    length dV = length df -> length dh = length df ->
    length Area_ = length df -> length MidHeight = length df ->
    let rows :=
      map (fun p : Measurement * Q * Q * Q * Q =>
             let '(m, dV, dh, a, mid) := p in
             mkAreaRow (height_mm m) (volume_mm3 m) (volume_ml m) dV dh a mid)
          (combine (combine (combine (combine df dV) dh) Area_) MidHeight) in
    length rows = length df
    /\ map ar_Area rows = Area_
    /\ map ar_Height_mm rows = map height_mm df.
Proof.
  induction df as [|m df IH];
    intros [|v dV] [|h dh] [|a Area_] [|mid MidHeight] H1 H2 H3 H4;
    try discriminate; [repeat split|].
  injection H1 as H1. injection H2 as H2. injection H3 as H3. injection H4 as H4.
  destruct (IH dV dh Area_ MidHeight H1 H2 H3 H4) as (E1 & E2 & E3).
  cbv zeta in *. simpl. rewrite E1, E2, E3. repeat split.
Qed.

Lemma local_area_floor (polyfit : list Q -> list Q -> option (Q * Q))
    (heights volumes : list Q) (min_dv : Q) (window i : Z) :
  min_dv <= local_area polyfit heights volumes min_dv window i.
Proof.
  unfold local_area, bind. cbv zeta.
  destruct (2 <=? _)%Z.
  - destruct (polyfit _ _) as [[dV_dh b]|].
    + apply PyFacts.max_ge_r.
    + destruct (0 <? i)%Z; [apply PyFacts.max_ge_r|lra].
  - lra.
Qed.

(** X10.  [compute_areas] never returns an area below the minimum
    differential volume (0.01 unless given), by either method; the
    local regression keeps one row per measurement, the point-to-point
    method drops the first row; the heights of the rows are those of
    the measurements kept. *)
Theorem areas_floor_and_rows
    (polyfit : list Q -> list Q -> option (Q * Q)) (df : list Measurement)
    (min_dv : option Q) (use_local_regression : bool) :
  let df_areas := compute_areas polyfit df min_dv use_local_regression in
  let floor :=
    match min_dv with
    | Some v => v
    | None => 0.01
    end in
  Forall (fun row => floor <= ar_Area row) df_areas
  /\ length df_areas
     = (if use_local_regression then length df else length df - 1)%nat
  /\ map ar_Height_mm df_areas
     = (if use_local_regression then map height_mm df
        else tl (map height_mm df)).
Proof.
  cbv zeta. unfold compute_areas. cbv zeta.
  set (floor := match min_dv with
                | Some v => v
                | None => GEOMETRIC_CONSTRAINTS.min_differential_volume
                end).
  change (match min_dv with Some v => v | None => 0.01 end) with floor.
  set (heights := map height_mm df). set (volumes := map volume_mm3 df).
  assert (Hh : length heights = length df) by apply length_map.
  assert (Hv : length volumes = length df) by apply length_map.
  match goal with
  | |- context [if negb use_local_regression then Py.slice_from ?t 1 else ?t] =>
      set (table := t);
      assert (Htable : Forall (fun row => floor <= ar_Area row) table
                       /\ length table = length df
                       /\ map ar_Height_mm table = heights)
  end.
  { unfold table.
    destruct (use_local_regression && (5 <=? Z.of_nat (length heights))%Z).
    - set (areas := median_filter3 _).
      assert (Ha : Forall (fun x => floor <= x) areas).
      { apply median_filter3_keeps. apply Forall_forall. intros x Hx.
        apply in_map_iff in Hx. destruct Hx as (i & <- & _).
        apply local_area_floor. }
      destruct (area_rows_columns df (diff_prepend volumes 0)
                  (diff_prepend heights 0.1) areas heights)
        as (E1 & E2 & E3).
      + unfold diff_prepend. rewrite diff_length. simpl. lia.
      + unfold diff_prepend. rewrite diff_length. simpl. lia.
      + unfold areas. rewrite median_filter3_length, length_map, range_length.
        lia.
      + exact Hh.
      + cbv zeta in E1, E2, E3. split; [|split; assumption].
        apply Forall_forall. intros row Hrow.
        rewrite Forall_forall in Ha. apply Ha. rewrite <- E2.
        now apply in_map.
    - set (dV := map (fun x => Py.max x floor) (diff_fillna volumes 0)).
      set (dh := map (fun x => Py.max x 0.01) (diff_fillna heights 0.1)).
      set (Area_ := map (fun x => Py.max x floor)
                        (map (fun p => fst p / snd p) (combine dV dh))).
      set (MidHeight := map _ (combine heights _)).
      assert (Hfill : forall l f, length (diff_fillna l f) = length l).
      { intros [|a l] f; [reflexivity|]. unfold diff_fillna.
        cbn [length]. rewrite diff_length. simpl. lia. }
      assert (HdV : length dV = length df)
        by (unfold dV; now rewrite length_map, Hfill).
      assert (Hdh : length dh = length df)
        by (unfold dh; now rewrite length_map, Hfill).
      destruct (area_rows_columns df dV dh Area_ MidHeight) as (E1 & E2 & E3);
        auto.
      + unfold Area_. rewrite !length_map, length_combine. lia.
      + unfold MidHeight. rewrite length_map, length_combine.
        destruct heights as [|h0 ht] eqn:Eh; [simpl in *; lia|].
        rewrite slice_to_minus1. cbn [length].
        rewrite removelast_firstn_len, length_firstn. simpl in *. lia.
      + cbv zeta in E1, E2, E3. split; [|split; assumption].
        apply Forall_forall. intros row Hrow.
        assert (Hin : In (ar_Area row) Area_)
          by (rewrite <- E2; now apply in_map).
        unfold Area_ in Hin. apply in_map_iff in Hin.
        destruct Hin as (x & <- & _). apply PyFacts.max_ge_r. }
  destruct Htable as (Hfloor & Hlen & Hheights).
  destruct use_local_regression; simpl negb; cbv iota.
  - repeat split; assumption.
  - rewrite slice_from_1. split; [|split].
    + destruct table; [constructor|]. now inversion Hfloor.
    + destruct table; simpl in *; lia.
    + rewrite <- Hheights. destruct table; reflexivity.
Qed.

(** ** The meshes of the exporters *)

Lemma flat_map_blocks {A B} (f : A -> list B) (l : list A) (k : nat) :
  (forall x, In x l -> length (f x) = k) ->
  length (flat_map f l) = (length l * k)%nat.
Proof.
  induction l as [|a t IH]; intro H; [reflexivity|].
  simpl. rewrite length_app, IH by (intros; apply H; simpl; auto).
  rewrite (H a) by (simpl; auto). reflexivity.
Qed.

Lemma ring_angles_length (L : SciLib) (num : Z) :
  length (ring_angles L num) = Z.to_nat num.
Proof.
  unfold ring_angles. rewrite length_map, range_length. f_equal. lia.
Qed.

Lemma shift_to_ground_some (z : list Q) :
  z <> [] ->
  exists z', shift_to_ground z = Some z' /\ length z' = length z.
Proof.
  intro H. unfold shift_to_ground, bind.
  destruct z as [|z0 zt]; [congruence|].
  change (Py.amin (z0 :: zt)) with (Some (fold_left Py.min zt z0)).
  cbv iota beta.
  destruct (Py.Qltb 0 (fold_left Py.min zt z0)); eexists; split;
    try reflexivity.
  now rewrite length_map.
Qed.

Lemma stl_sidewall_faces_spec (angular_res n_p : Z) :
  (0 < angular_res)%Z -> (1 <= n_p)%Z ->
  length (stl_sidewall_faces angular_res n_p)
  = (Z.to_nat angular_res * (Z.to_nat (n_p - 1) * 2))%nat
  /\ forall a b c,
       In (a, b, c) (stl_sidewall_faces angular_res n_p) ->
       (0 <= a < angular_res * n_p)%Z /\ (0 <= b < angular_res * n_p)%Z
       /\ (0 <= c < angular_res * n_p)%Z.
Proof.
  intros HA Hn. unfold stl_sidewall_faces. split.
  - rewrite (flat_map_blocks _ _ (Z.to_nat (n_p - 1) * 2)).
    + rewrite range_length. f_equal. lia.
    + intros i _. rewrite (flat_map_blocks _ _ 2).
      * rewrite range_length. f_equal. f_equal. lia.
      * reflexivity.
  - intros a b c Hin. apply in_flat_map in Hin.
    destruct Hin as (i & Hi & Hin). apply in_flat_map in Hin.
    destruct Hin as (j & Hj & Hin).
    apply range_in in Hi, Hj.
    pose proof (Z.mod_pos_bound (i + 1) angular_res HA) as Hm.
    set (i' := ((i + 1) mod angular_res)%Z) in *.
    assert (i * n_p <= (angular_res - 1) * n_p)%Z by nia.
    assert (i' * n_p <= (angular_res - 1) * n_p)%Z by nia.
    assert (0 <= i * n_p)%Z by nia.
    assert (0 <= i' * n_p)%Z by nia.
    cbv zeta in Hin. destruct Hin as [[= <- <- <-]|[[= <- <- <-]|[]]]; lia.
Qed.

(** X13.  [export_stl_watertight] builds no mesh for a profile of fewer
    than 3 points.  For a longer profile with one radius per height,
    the mesh has 48 or 60 meridians [m], [m * n + m + 1] vertices (the
    side wall, the bottom ring and its centre) and [2 * m * (n - 1) + m]
    triangles, and every triangle refers to vertices of the mesh. *)
Theorem stl_mesh_is_well_formed
    (L : SciLib) (cos sin : Q -> Q) (z_profile r_profile : list Q) :
  ((length z_profile < 3)%nat ->
   export_stl_watertight L cos sin true z_profile r_profile = Some None)
  /\ ((3 <= length z_profile)%nat ->
      length r_profile = length z_profile ->
      exists verts faces m,
        export_stl_watertight L cos sin true z_profile r_profile
        = Some (Some (verts, faces))
        /\ (m = 48 \/ m = 60)%nat
        /\ length verts = (m * length z_profile + m + 1)%nat
        /\ length faces = (2 * m * (length z_profile - 1) + m)%nat
        /\ Forall (face_in_range (length verts)) faces).
Proof.
  unfold export_stl_watertight. simpl negb. cbv iota. split.
  - intro H.
    assert (E : (Z.of_nat (length z_profile) <? 3)%Z = true)
      by (apply Z.ltb_lt; lia).
    now rewrite E.
  - intros Hn Hlen.
    assert (E : (Z.of_nat (length z_profile) <? 3)%Z = false)
      by (apply Z.ltb_ge; lia).
    rewrite E.
    destruct (shift_to_ground_some z_profile) as (z & Ez & Hz).
    { destruct z_profile; [simpl in Hn; lia|discriminate]. }
    unfold bind at 1. rewrite Ez. rewrite <- Hz in *. clear Ez E.
    destruct (Py.amax z) as [total_h|] eqn:Emax;
      [|destruct z; [simpl in Hn; lia|discriminate]].
    unfold bind at 1.
    assert (Eb : broadcast_to (length z) r_profile = Some r_profile).
    { unfold broadcast_to. rewrite Hlen, Nat.eqb_refl. reflexivity. }
    cbv zeta. unfold bind at 1. rewrite Eb.
    destruct r_profile as [|r0 rt] eqn:Er; [simpl in Hlen; lia|].
    rewrite <- Er in *.
    assert (E0 : Py.getitem r_profile 0 = Some r0) by (rewrite Er; reflexivity).
    unfold bind. rewrite E0.
    set (A := if Py.Qltb total_h 50 then 48%Z else 60%Z).
    assert (HA : (A = 48 \/ A = 60)%Z)
      by (unfold A; destruct (Py.Qltb total_h 50); auto).
    assert (HA0 : (0 < A)%Z) by lia.
    set (wall := flat_map _ (ring_angles L A)).
    assert (Hwall : length wall = (Z.to_nat A * length z)%nat).
    { unfold wall. rewrite (flat_map_blocks _ _ (length z)).
      - now rewrite ring_angles_length.
      - intros x _. rewrite length_map, length_combine. lia. }
    set (ring := map _ (ring_angles L A)).
    assert (Hring : length ring = Z.to_nat A)
      by (unfold ring; now rewrite length_map, ring_angles_length).
    destruct (stl_sidewall_faces_spec A (Z.of_nat (length z)) HA0 ltac:(lia))
      as [Hside_len Hside].
    eexists _, _, (Z.to_nat A). split; [reflexivity|].
    match goal with
    | |- _ /\ length ?v = _ /\ _ =>
        assert (Hverts : length v
                         = (Z.to_nat A * length z + Z.to_nat A + 1)%nat)
    end.
    { rewrite !length_app, Hwall, Hring. simpl. lia. }
    split; [lia|]. split; [exact Hverts|]. split.
    + rewrite length_app, Hside_len, length_map, range_length.
      replace (Z.to_nat (Z.of_nat (length z) - 1)) with (length z - 1)%nat
        by lia.
      replace (Z.to_nat (A - 0)) with (Z.to_nat A) by (f_equal; lia). nia.
    + assert (Hv : Z.of_nat (Z.to_nat A * length z + Z.to_nat A + 1)
                   = (A * Z.of_nat (length z) + A + 1)%Z).
      { rewrite !Nat2Z.inj_add, Nat2Z.inj_mul, Z2Nat.id by lia. reflexivity. }
      assert (Hw : Z.of_nat (length wall) = (A * Z.of_nat (length z))%Z).
      { rewrite Hwall, Nat2Z.inj_mul, Z2Nat.id by lia. reflexivity. }
      apply Forall_app. split.
      * apply Forall_forall. intros [[a b] c] Hin.
        destruct (Hside a b c Hin) as (Ha & Hb & Hc).
        unfold face_in_range, Vertex. rewrite Hverts, Hv. lia.
      * apply Forall_forall. intros [[a b] c] Hin.
        apply in_map_iff in Hin. destruct Hin as (k & [= <- <- <-] & Hk).
        apply range_in in Hk.
        pose proof (Z.mod_pos_bound (k + 1) A HA0) as Hm.
        unfold face_in_range, Vertex. rewrite Hverts, Hv, Hw. lia.
Qed.

Lemma map_option_all {A B} (f : A -> option B) (P : B -> Prop) (l : list A) :
  (forall a, In a l -> exists b, f a = Some b /\ P b) ->
  exists bs, map_option f l = Some bs /\ length bs = length l /\ Forall P bs.
Proof.
  induction l as [|a t IH]; intro H.
  - exists []. repeat split. constructor.
  - destruct (H a (or_introl eq_refl)) as (b & Eb & Pb).
    destruct IH as (bs & Ebs & Hlen & HP); [intros; apply H; now right|].
    exists (b :: bs). simpl. unfold bind. rewrite Eb, Ebs.
    repeat split; [simpl; lia|constructor; assumption].
Qed.

Lemma concat_blocks {A} (ls : list (list A)) (k : nat) :
  Forall (fun l => length l = k) ls ->
  length (concat ls) = (length ls * k)%nat.
Proof.
  induction 1 as [|l ls Hl Hls IH]; [reflexivity|].
  simpl. rewrite length_app, IH, Hl. reflexivity.
Qed.

Lemma directx_sidewall_faces_spec (angular_res n_profile : Z) :
  (0 < angular_res)%Z -> (1 <= n_profile)%Z ->
  length (directx_sidewall_faces angular_res n_profile)
  = (Z.to_nat (n_profile - 1) * (Z.to_nat angular_res * 2))%nat
  /\ forall a b c,
       In (a, b, c) (directx_sidewall_faces angular_res n_profile) ->
       (0 <= a < n_profile * angular_res)%Z
       /\ (0 <= b < n_profile * angular_res)%Z
       /\ (0 <= c < n_profile * angular_res)%Z.
Proof.
  intros HA Hn. unfold directx_sidewall_faces. split.
  - rewrite (flat_map_blocks _ _ (Z.to_nat angular_res * 2)).
    + rewrite range_length. f_equal. lia.
    + intros i _. rewrite (flat_map_blocks _ _ 2).
      * rewrite range_length. f_equal. f_equal. lia.
      * reflexivity.
  - intros a b c Hin. apply in_flat_map in Hin.
    destruct Hin as (i & Hi & Hin). apply in_flat_map in Hin.
    destruct Hin as (j & Hj & Hin).
    apply range_in in Hi, Hj.
    pose proof (Z.mod_pos_bound (j + 1) angular_res HA) as Hm.
    set (j' := ((j + 1) mod angular_res)%Z) in *.
    assert (i * angular_res <= (n_profile - 2) * angular_res)%Z by nia.
    assert (0 <= i * angular_res)%Z by nia.
    cbv zeta in Hin. destruct Hin as [[= <- <- <-]|[[= <- <- <-]|[]]]; nia.
Qed.

(** X14.  [export_directx] builds no mesh for a profile of fewer than 3
    points.  For a longer profile with one radius per height, the mesh
    has [48 * n + 49] vertices (the rings of the side wall, the centre
    of the bottom and the bottom ring) and [96 * (n - 1) + 48]
    triangles, and every triangle refers to vertices of the mesh. *)
Theorem directx_mesh_is_well_formed
    (L : SciLib) (cos sin : Q -> Q) (z_profile r_profile : list Q) :
  ((length z_profile < 3)%nat ->
   export_directx L cos sin z_profile r_profile = Some None)
  /\ ((3 <= length z_profile)%nat ->
      length r_profile = length z_profile ->
      exists vertices faces,
        export_directx L cos sin z_profile r_profile
        = Some (Some (vertices, faces))
        /\ length vertices = (48 * length z_profile + 49)%nat
        /\ length faces = (96 * (length z_profile - 1) + 48)%nat
        /\ Forall (face_in_range (length vertices)) faces).
Proof.
  unfold export_directx. split.
  - intro H.
    assert (E : (Z.of_nat (length z_profile) <? 3)%Z = true)
      by (apply Z.ltb_lt; lia).
    now rewrite E.
  - intros Hn Hlen.
    assert (E : (Z.of_nat (length z_profile) <? 3)%Z = false)
      by (apply Z.ltb_ge; lia).
    rewrite E.
    destruct (shift_to_ground_some z_profile) as (z & Ez & Hz).
    { destruct z_profile; [simpl in Hn; lia|discriminate]. }
    unfold bind at 1. rewrite Ez. rewrite <- Hz in *. clear Ez E.
    cbv zeta.
    match goal with
    | |- context [map_option ?f (Py.range 0 (Z.of_nat (length z)))] =>
        destruct (map_option_all f (fun ring => length ring = 48%nat)
                    (Py.range 0 (Z.of_nat (length z))))
          as (rings & Erings & Hrings_len & Hrings)
    end.
    { intros i Hi. apply range_in in Hi.
      destruct (getitem_some z i ltac:(lia)) as (zi & Ezi).
      destruct (getitem_some r_profile i ltac:(lia)) as (ri & Eri).
      unfold bind. rewrite Ezi, Eri. eexists. split; [reflexivity|].
      rewrite length_map. apply ring_angles_length. }
    unfold bind at 1. rewrite Erings.
    destruct (getitem_some r_profile 0 ltac:(lia)) as (r0 & Er0).
    unfold bind. rewrite Er0.
    rewrite range_length in Hrings_len.
    assert (Hwall : length (concat rings) = (length z * 48)%nat).
    { rewrite (concat_blocks rings 48 Hrings), Hrings_len. f_equal. lia. }
    destruct (directx_sidewall_faces_spec 48 (Z.of_nat (length z))
                ltac:(lia) ltac:(lia)) as [Hside_len Hside].
    eexists _, _. split; [reflexivity|]. unfold Vertex.
    match goal with
    | |- length ?v = _ /\ _ =>
        assert (Hverts : length v = (48 * length z + 49)%nat)
    end.
    { rewrite !length_app, Hwall, length_map, ring_angles_length. simpl. lia. }
    split; [exact Hverts|]. split.
    + rewrite length_app, Hside_len, length_map, range_length.
      replace (Z.to_nat (Z.of_nat (length z) - 1)) with (length z - 1)%nat
        by lia.
      simpl Z.to_nat. lia.
    + assert (Hc : Z.of_nat (length (concat rings ++ [(0, 0, 0)]))
                   = (48 * Z.of_nat (length z) + 1)%Z).
      { rewrite length_app, Hwall. cbn [length]. lia. }
      apply Forall_app. split.
      * apply Forall_forall. intros [[a b] c] Hin.
        destruct (Hside a b c Hin) as (Ha & Hb & Hc').
        unfold face_in_range. rewrite Hverts. lia.
      * apply Forall_forall. intros [[a b] c] Hin.
        apply in_map_iff in Hin. destruct Hin as (k & [= <- <- <-] & Hk).
        apply range_in in Hk.
        pose proof (Z.mod_pos_bound (k + 1) 48 ltac:(lia)) as Hm.
        unfold face_in_range. rewrite Hverts, Hc. lia.
Qed.

Lemma key_eqb_eq (a b : Z * Z * Z) : key_eqb a b = true <-> a = b.
Proof.
  destruct a as [[k i] j], b as [[k' i'] j']. unfold key_eqb.
  rewrite !andb_true_iff, !Z.eqb_eq. split.
  - intros [[-> ->] ->]. reflexivity.
  - intros [= -> -> ->]. auto.
Qed.

Lemma dict_get_some (d : list (Z * Z * Z * Z)) (key : Z * Z * Z) :
  In key (map fst d) -> exists v, dict_get d key = Some v /\ In (key, v) d.
Proof.
  intro H. unfold dict_get.
  destruct (find (fun e => key_eqb (fst e) key) d) as [[key' v]|] eqn:E.
  - apply find_some in E. destruct E as [Hin He].
    apply key_eqb_eq in He. simpl in He. subst key'. eauto.
  - apply in_map_iff in H. destruct H as ([key' v] & <- & Hin).
    apply (find_none _ _ E) in Hin. simpl in Hin.
    assert (key_eqb key' key' = true) by now apply key_eqb_eq.
    congruence.
Qed.

Lemma vtk_extends_refl (st : list Vertex * list (Z * Z * Z * Z)) :
  vtk_extends st st 0 (fun _ => False).
Proof. unfold vtk_extends. repeat split; auto; tauto. Qed.

Lemma vtk_extends_trans (st1 st2 st3 : list Vertex * list (Z * Z * Z * Z))
    (n m : nat) (K1 K2 K : Z * Z * Z -> Prop) :
  vtk_extends st1 st2 n K1 -> vtk_extends st2 st3 m K2 ->
  (forall key, K key <-> K1 key \/ K2 key) ->
  vtk_extends st1 st3 (n + m) K.
Proof.
  intros (L1 & I1 & V1) (L2 & I2 & V2) HK. split; [lia|]. split; [|auto].
  intro key. rewrite I2, I1, HK. tauto.
Qed.

Lemma vtk_add_point_extends (st : list Vertex * list (Z * Z * Z * Z))
    (key : Z * Z * Z) (p : Vertex) :
  vtk_extends st (vtk_add_point st key p) 1 (fun key' => key' = key).
Proof.
  unfold vtk_extends, vtk_add_point, dict_set, dict_in_range. cbn [fst snd].
  rewrite length_app. cbn [length]. split; [reflexivity|]. split.
  - intro key'. cbn [map fst In]. intuition.
  - intro H. constructor; [cbn [snd]; lia|].
    eapply Forall_impl; [|exact H]. cbv beta. intros e He. lia.
Qed.

(** A loop that adds one point per element of [xs]. *)
Lemma vtk_loop_extends {X} (kf : X -> Z * Z * Z) (pf : X -> Vertex)
    (xs : list X) :
  forall st,
    vtk_extends st
      (fold_left (fun st x => vtk_add_point st (kf x) (pf x)) xs st)
      (length xs) (fun key => In key (map kf xs)).
Proof.
  induction xs as [|x xs IH]; intro st.
  - apply vtk_extends_refl.
  - simpl fold_left.
    apply (vtk_extends_trans st _ _ 1 (length xs) _ _ _
             (vtk_add_point_extends st (kf x) (pf x)) (IH _)).
    intro key. simpl. intuition.
Qed.

Lemma vtk_ring_extends (L : SciLib) (cos sin : Q -> Q) (z r : Q) (k i : Z)
    (st : list Vertex * list (Z * Z * Z * Z)) :
  vtk_extends st (vtk_ring L cos sin z r k i st) 24
    (fun key => exists j, (0 <= j < n_angular)%Z /\ key = (k, i, j)).
Proof.
  unfold vtk_ring.
  pose proof (vtk_loop_extends (fun j => (k, i, j))
                (fun j => (r * cos (inject_Z j / inject_Z n_angular * 2 * pi L),
                           r * sin (inject_Z j / inject_Z n_angular * 2 * pi L),
                           z))
                (Py.range 0 n_angular) st) as H.
  destruct H as (H1 & H2 & H3). split; [exact H1|]. split; [|exact H3].
  intro key. rewrite H2, in_map_iff.
  split; (intros [H|H]; [left|now right]).
  - destruct H as (j & <- & Hj). apply range_in in Hj. eauto.
  - destruct H as (j & Hj & ->). exists j. split; [reflexivity|].
    now apply range_in.
Qed.

Lemma vtk_level_extends (L : SciLib) (cos sin : Q -> Q) (z r_max : Q) (k : Z)
    (st : list Vertex * list (Z * Z * Z * Z)) :
  vtk_extends st (vtk_level L cos sin z r_max k st) 121 (level_key k).
Proof.
  unfold vtk_level.
  change (Py.range 0 (n_radial + 1)) with [0; 1; 2; 3; 4; 5]%Z.
  cbn [fold_left]. cbv beta.
  change (0 =? 0)%Z with true. change (1 =? 0)%Z with false.
  change (2 =? 0)%Z with false. change (3 =? 0)%Z with false.
  change (4 =? 0)%Z with false. change (5 =? 0)%Z with false.
  cbv iota.
  set (st0 := vtk_add_point st (k, 0%Z, 0%Z) (0, 0, z)).
  set (st1 := vtk_ring L cos sin z _ k 1 st0).
  set (st2 := vtk_ring L cos sin z _ k 2 st1).
  set (st3 := vtk_ring L cos sin z _ k 3 st2).
  set (st4 := vtk_ring L cos sin z _ k 4 st3).
  pose proof (vtk_add_point_extends st (k, 0%Z, 0%Z) (0, 0, z)) as E0.
  fold st0 in E0.
  pose proof (vtk_ring_extends L cos sin z
                (inject_Z 1 / inject_Z n_radial * r_max) k 1 st0) as E1.
  fold st1 in E1.
  pose proof (vtk_ring_extends L cos sin z
                (inject_Z 2 / inject_Z n_radial * r_max) k 2 st1) as E2.
  fold st2 in E2.
  pose proof (vtk_ring_extends L cos sin z
                (inject_Z 3 / inject_Z n_radial * r_max) k 3 st2) as E3.
  fold st3 in E3.
  pose proof (vtk_ring_extends L cos sin z
                (inject_Z 4 / inject_Z n_radial * r_max) k 4 st3) as E4.
  fold st4 in E4.
  pose proof (vtk_ring_extends L cos sin z
                (inject_Z 5 / inject_Z n_radial * r_max) k 5 st4) as E5.
  destruct E0 as (L0 & I0 & V0), E1 as (L1 & I1 & V1), E2 as (L2 & I2 & V2),
           E3 as (L3 & I3 & V3), E4 as (L4 & I4 & V4), E5 as (L5 & I5 & V5).
  split; [lia|]. split; [|intro Hv; apply V5, V4, V3, V2, V1, V0, Hv].
  intro key. rewrite I5, I4, I3, I2, I1, I0. unfold level_key, n_radial.
  split.
  - intros [(j & Hj & ->)|[(j & Hj & ->)|[(j & Hj & ->)|[(j & Hj & ->)
                                   |[(j & Hj & ->)|[->|H]]]]]];
      try (left; right; eexists _, j; repeat split; try exact (proj1 Hj);
           try exact (proj2 Hj); lia);
      [left; now left|now right].
  - intros [[->|(i & j & Hi & Hj & ->)]|H]; [| |tauto].
    + tauto.
    + assert (Hcases : (i = 1 \/ i = 2 \/ i = 3 \/ i = 4 \/ i = 5)%Z) by lia.
      destruct Hcases as [->|[->|[->|[->| ->]]]]; eauto 8.
Qed.

Lemma vtk_points_extends (L : SciLib) (cos sin : Q -> Q)
    (z_profile r_profile : list Q) (ks : list Z) :
  (forall k, In k ks -> (0 <= k < Z.of_nat (length z_profile))%Z
                        /\ (0 <= k < Z.of_nat (length r_profile))%Z) ->
  forall st,
  exists st',
    vtk_points L cos sin z_profile r_profile ks st = Some st'
    /\ vtk_extends st st' (121 * length ks)
         (fun key => exists k, In k ks /\ level_key k key).
Proof.
  induction ks as [|k ks IH]; intros Hks st.
  - exists st. split; [reflexivity|].
    destruct (vtk_extends_refl st) as (H1 & H2 & H3).
    split; [simpl; lia|]. split; [|exact H3].
    intro key. split; intro H.
    + apply H2 in H. destruct H as [[]|H]. now right.
    + destruct H as [(k & [] & _)|H]. apply H2. now right.
  - destruct (Hks k (or_introl eq_refl)) as [Hz Hr].
    destruct (getitem_some z_profile k Hz) as (z & Ez).
    destruct (getitem_some r_profile k Hr) as (r_max & Er).
    destruct (IH (fun k' H => Hks k' (or_intror H))
                 (vtk_level L cos sin z r_max k st)) as (st' & Est & Hext).
    exists st'. cbn [vtk_points]. unfold bind. rewrite Ez, Er.
    split; [exact Est|].
    replace (121 * length (k :: ks))%nat with (121 + 121 * length ks)%nat
      by (cbn [length]; lia).
    apply (vtk_extends_trans st _ st' 121 (121 * length ks) _ _ _
             (vtk_level_extends L cos sin z r_max k st) Hext).
    intro key. split.
    + intros (k' & [<-|Hk'] & Hkey); [now left|right; eauto].
    + intros [Hkey|(k' & Hk' & Hkey)]; [exists k|exists k']; simpl; auto.
Qed.

(** X15.  [export_vtk_hex] builds no grid for a profile of fewer than 3
    points.  For a longer profile with one radius per height, it builds
    [121 * n] points and [120 * (n - 1)] cells of eight point numbers;
    every key it looks up in its point dictionary is present, and every
    point number of a cell is the number of a point of the grid. *)
Theorem vtk_grid_is_well_formed
    (L : SciLib) (cos sin : Q -> Q) (z_profile r_profile : list Q) :
  ((length z_profile < 3)%nat ->
   export_vtk_hex L cos sin z_profile r_profile = Some None)
  /\ ((3 <= length z_profile)%nat ->
      length r_profile = length z_profile ->
      exists points cells,
        export_vtk_hex L cos sin z_profile r_profile
        = Some (Some (points, cells))
        /\ length points = (121 * length z_profile)%nat
        /\ length cells = (120 * (length z_profile - 1))%nat
        /\ Forall (cell_in_range (length points)) cells).
Proof.
  unfold export_vtk_hex. split.
  - intro H.
    assert (E : (Z.of_nat (length z_profile) <? 3)%Z = true)
      by (apply Z.ltb_lt; lia).
    now rewrite E.
  - intros Hn Hlen.
    assert (E : (Z.of_nat (length z_profile) <? 3)%Z = false)
      by (apply Z.ltb_ge; lia).
    rewrite E.
    destruct (shift_to_ground_some z_profile) as (z & Ez & Hz).
    { destruct z_profile; [simpl in Hn; lia|discriminate]. }
    unfold bind at 1. rewrite Ez. rewrite <- Hz in *. clear Ez E.
    cbv zeta. set (n := Z.of_nat (length z)).
    destruct (vtk_points_extends L cos sin z r_profile (Py.range 0 n))
      with (st := (@nil Vertex, @nil (Z * Z * Z * Z)))
      as ([points point_index] & Epts & Hlenp & Hkeys & Hvalid).
    { intros k Hk. apply range_in in Hk. unfold n in Hk. lia. }
    unfold bind at 1. rewrite Epts.
    cbn [fst snd length map] in Hlenp, Hkeys.
    rewrite range_length in Hlenp.
    assert (Hrange : dict_in_range (points, point_index))
      by (apply Hvalid; constructor).
    assert (lookup : forall k i j,
              (0 <= k < n)%Z ->
              (i = 0 /\ j = 0)%Z
              \/ ((1 <= i <= n_radial)%Z /\ (0 <= j < n_angular)%Z) ->
              exists v, dict_get point_index (k, i, j) = Some v
                        /\ (0 <= v < Z.of_nat (length points))%Z).
    { intros k i j Hk Hij.
      destruct (dict_get_some point_index (k, i, j)) as (v & Ev & Hin).
      - apply Hkeys. left. exists k. split; [now apply range_in|].
        destruct Hij as [[-> ->]|[Hi Hj]]; [now left|right; eauto].
      - exists v. split; [exact Ev|].
        unfold dict_in_range in Hrange. rewrite Forall_forall in Hrange.
        apply (Hrange _ Hin). }
    match goal with
    | |- context [map_option ?f ?l] =>
        destruct (map_option_all f (cell_in_range (length points)) l)
          as (cells & Ecells & Hcells_len & Hcells)
    end.
    { intros [[k i] j] Hin.
      apply in_flat_map in Hin. destruct Hin as (k' & Hk & Hin).
      apply in_flat_map in Hin. destruct Hin as (i' & Hi & Hin).
      apply in_map_iff in Hin. destruct Hin as (j' & [= <- <- <-] & Hj).
      apply range_in in Hk, Hi, Hj. unfold n_radial, n_angular in *.
      pose proof (Z.mod_pos_bound (j' + 1) 24 ltac:(lia)) as Hm.
      unfold vtk_cell. cbv zeta. unfold n_angular.
      set (j_next := ((j' + 1) mod 24)%Z) in *.
      destruct (i' =? 0)%Z eqn:Ei.
      - apply Z.eqb_eq in Ei.
        destruct (lookup k' 0%Z 0%Z ltac:(lia) ltac:(lia)) as (a0 & E0 & H0).
        destruct (lookup k' 1%Z j' ltac:(lia)
                    ltac:(unfold n_radial, n_angular; lia))
          as (a1 & E1 & H1).
        destruct (lookup k' 1%Z j_next ltac:(lia)
                    ltac:(unfold n_radial, n_angular; lia))
          as (a2 & E2 & H2).
        destruct (lookup (k' + 1)%Z 0%Z 0%Z ltac:(lia) ltac:(lia))
          as (b0 & F0 & G0).
        destruct (lookup (k' + 1)%Z 1%Z j' ltac:(lia)
                    ltac:(unfold n_radial, n_angular; lia))
          as (b1 & F1 & G1).
        destruct (lookup (k' + 1)%Z 1%Z j_next ltac:(lia)
                    ltac:(unfold n_radial, n_angular; lia))
          as (b2 & F2 & G2).
        unfold bind. rewrite E0, E1, E2, F0, F1, F2.
        eexists. split; [reflexivity|].
        split; [reflexivity|]. repeat constructor; lia.
      - apply Z.eqb_neq in Ei.
        destruct (lookup k' i' j' ltac:(lia)
                    ltac:(unfold n_radial, n_angular; lia))
          as (a0 & E0 & H0).
        destruct (lookup k' (i' + 1)%Z j' ltac:(lia)
                    ltac:(unfold n_radial, n_angular; lia))
          as (a1 & E1 & H1).
        destruct (lookup k' (i' + 1)%Z j_next ltac:(lia)
                    ltac:(unfold n_radial, n_angular; lia))
          as (a2 & E2 & H2).
        destruct (lookup k' i' j_next ltac:(lia)
                    ltac:(unfold n_radial, n_angular; lia))
          as (a3 & E3 & H3).
        destruct (lookup (k' + 1)%Z i' j' ltac:(lia)
                    ltac:(unfold n_radial, n_angular; lia))
          as (b0 & F0 & G0).
        destruct (lookup (k' + 1)%Z (i' + 1)%Z j' ltac:(lia)
                    ltac:(unfold n_radial, n_angular; lia))
          as (b1 & F1 & G1).
        destruct (lookup (k' + 1)%Z (i' + 1)%Z j_next ltac:(lia)
                    ltac:(unfold n_radial, n_angular; lia))
          as (b2 & F2 & G2).
        destruct (lookup (k' + 1)%Z i' j_next ltac:(lia)
                    ltac:(unfold n_radial, n_angular; lia))
          as (b3 & F3 & G3).
        unfold bind. rewrite E0, E1, E2, E3, F0, F1, F2, F3.
        eexists. split; [reflexivity|].
        split; [reflexivity|]. repeat constructor; lia. }
    unfold bind. rewrite Ecells.
    exists points, cells. split; [reflexivity|].
    split; [unfold n in Hlenp; lia|]. split; [|exact Hcells].
    rewrite Hcells_len.
    rewrite (flat_map_blocks _ _ 120).
    + rewrite range_length. unfold n. lia.
    + intros k _. rewrite (flat_map_blocks _ _ 24).
      * rewrite range_length. reflexivity.
      * intros i _. rewrite length_map, range_length. reflexivity.
Qed.

(** ** The shape of the detected transitions *)

(** X18.  The legacy detector always returns a list that holds the
    index 0 and the final index [n - 1]; with at least [2 * min_points]
    points the list is strictly increasing. *)
Theorem legacy_transitions_keep_both_ends
    (L : SciLib) (area : list Q) (min_points : Z)
    (percentile_ variance_threshold : Q) :
  let n := Z.of_nat (length area) in
  exists transitions,
    find_optimal_transitions L area min_points percentile_ variance_threshold
    = Some transitions
    /\ In 0%Z transitions
    /\ In (n - 1)%Z transitions
    /\ ((2 * min_points <= n)%Z -> StronglySorted Z.lt transitions).
Proof.
  cbv zeta. unfold find_optimal_transitions. cbv zeta.
  set (n := Z.of_nat (length area)).
  destruct (n <? 2 * min_points)%Z eqn:En.
  - apply Z.ltb_lt in En. eexists. split; [reflexivity|].
    split; [now left|]. split; [right; now left|]. intro. lia.
  - set (lv := legacy_validate L area min_points variance_threshold _).
    assert (Hfix : exists validated,
               (if (Z.of_nat (length (0%Z :: lv)) =? 1)%Z
                then Some ((0%Z :: lv) ++ [(n - 1)%Z])
                else
                  l <- Py.last_item (0%Z :: lv) ;;
                  if negb (l =? n - 1)%Z
                  then Py.setitem (0%Z :: lv) (-1) (n - 1)%Z
                  else Some (0%Z :: lv)) = Some validated
               /\ In 0%Z validated /\ In (n - 1)%Z validated).
    { destruct lv as [|a lv'].
      - eexists. split; [reflexivity|]. simpl. auto.
      - assert (E1 : (Z.of_nat (length (0%Z :: a :: lv')) =? 1)%Z = false)
          by (apply Z.eqb_neq; simpl length; lia).
        rewrite E1.
        destruct (last_item_some (0%Z :: a :: lv') ltac:(discriminate))
          as (l & El).
        unfold bind. rewrite El.
        destruct (l =? n - 1)%Z eqn:Eq; simpl negb; cbv iota.
        + apply Z.eqb_eq in Eq. subst l. eexists. split; [reflexivity|].
          split; [now left|]. now apply last_item_in.
        + unfold Py.setitem.
          rewrite PyFacts.index_last by discriminate.
          eexists. split; [reflexivity|]. split.
          * apply (nth_error_In _ 0).
            rewrite PyFacts.update_other by (simpl; lia). reflexivity.
          * apply (nth_error_In _ (length (0%Z :: a :: lv') - 1)).
            apply PyFacts.update_same. simpl. lia. }
    destruct Hfix as (validated & Ev & H0 & Hn).
    unfold bind at 1. rewrite Ev.
    eexists. split; [reflexivity|].
    split; [now apply sorted_set_in|].
    split; [now apply sorted_set_in|].
    intros _. apply sorted_set_sorted.
Qed.

(** X19.  With [min_points >= 1] and at least [2 * min_points] points,
    the improved detector returns a strictly increasing list from 0 to
    [n - 1] whose interior boundaries are at least [min_points] apart
    from their predecessor and lie below [n - 1]. *)
Theorem improved_transitions_are_spaced
    (L : SciLib) (area heights : list Q) (min_points : Z) (use_adaptive : bool)
    (validated : list Z) :
  (1 <= min_points)%Z ->
  (2 * min_points <= Z.of_nat (length area))%Z ->
  find_optimal_transitions_improved L area (Some heights) min_points
                                    use_adaptive = Some validated ->
  let n := Z.of_nat (length area) in
  exists interior,
    validated = (0%Z :: interior) ++ [(n - 1)%Z]
    /\ gaps_from min_points 0 interior
    /\ Forall (fun c => (c < n - 1)%Z) interior
    /\ StronglySorted Z.lt validated.
Proof.
  intros Hmp Hn H n.
  destruct (validated_shape L area heights min_points use_adaptive validated
              Hmp Hn H) as (sub & E & Hg & Hf).
  exists sub. repeat split; try assumption.
  rewrite E. apply (improved_transitions_sorted min_points); auto.
  unfold n. lia.
Qed.

Lemma improved_transitions_are_spaced_witness :
  let n := Z.of_nat (length (map Area (cylinder_table 30))) in
  exists interior,
    [0; 15; 29]%Z = (0%Z :: interior) ++ [(n - 1)%Z]
    /\ gaps_from 12 0 interior
    /\ Forall (fun c => (c < n - 1)%Z) interior
    /\ StronglySorted Z.lt [0; 15; 29]%Z.
Proof.
  apply (improved_transitions_are_spaced (sample_lib [14%Z])
           (map Area (cylinder_table 30)) (map Height_mm (cylinder_table 30))
           12 true [0; 15; 29]%Z).
  - lia.
  - simpl. lia.
  - vm_compute. reflexivity.
Defined.

Lemma insert_by_score_in (c d : Z * Q * Q) (l : list (Z * Q * Q)) :
  In d (insert_by_score c l) <-> d = c \/ In d l.
Proof.
  induction l as [|a t IH]; simpl; [intuition|].
  destruct (Py.Qltb (snd (fst c)) (snd (fst a))); simpl; [rewrite IH|];
    intuition.
Qed.

Lemma sort_by_score_desc_in (d : Z * Q * Q) (l : list (Z * Q * Q)) :
  In d (sort_by_score_desc l) <-> In d l.
Proof.
  induction l as [|a t IH]; simpl; [tauto|].
  rewrite insert_by_score_in, IH. intuition.
Qed.

Lemma stability_candidates_indices
    (stability_ dS_dh : list Q) (n : Z) (threshold : Q) (indices : list Z)
    (cs : list (Z * Q * Q)) :
  stability_candidates stability_ dS_dh n threshold indices = Some cs ->
  Forall (fun c => In (fst (fst c)) indices) cs.
Proof.
  revert cs; induction indices as [|i rest IH]; intros cs.
  - intros [= <-]. constructor.
  - cbn [stability_candidates]. unfold bind.
    destruct (stability_candidate stability_ dS_dh n threshold i) as [c|] eqn:Ec;
      [|discriminate].
    destruct (stability_candidates stability_ dS_dh n threshold rest)
      as [cs'|]; [|discriminate].
    intros [= <-]. specialize (IH cs' eq_refl).
    assert (Hrest : Forall (fun c => In (fst (fst c)) (i :: rest)) cs').
    { eapply Forall_impl; [|exact IH]. intros x Hx. now right. }
    destruct c as [[[idx score] mag]|]; [|exact Hrest].
    constructor; [|exact Hrest].
    left. unfold stability_candidate, bind in Ec. cbv zeta in Ec.
    destruct (Py.Qltb _ _) in Ec; [|discriminate].
    destruct (Py.getitem dS_dh i) in Ec; [|discriminate].
    destruct (_ && _) in Ec; [|discriminate].
    now injection Ec as <- _ _.
Qed.

Lemma select_transitions_spec (spacing : Z) (candidates : list (Z * Q * Q)) :
  forall last len,
    let es := select_transitions spacing candidates last len in
    gaps_from spacing last es
    /\ (Z.of_nat (length es) <= Z.max 1 (3 - len))%Z
    /\ Forall (fun e => exists c, In c candidates /\ fst (fst c) = e) es.
Proof.
  induction candidates as [|[[idx score] mag] rest IH]; intros last len;
    cbv zeta.
  - simpl. repeat split; [lia|constructor].
  - cbn [select_transitions].
    destruct (idx - last >=? spacing)%Z eqn:Es.
    + apply Z.geb_le in Es.
      destruct (len + 1 >=? 3)%Z eqn:El.
      * simpl. repeat split; [lia|lia|].
        constructor; [|constructor]. eexists. split; [now left|reflexivity].
      * rewrite Z.geb_leb in El. apply Z.leb_gt in El.
        destruct (IH idx (len + 1)%Z) as (Hg & Hl & Hf). cbv zeta in *.
        split; [split; [lia|exact Hg]|]. split; [simpl length; lia|].
        constructor; [eexists; split; [now left|reflexivity]|].
        eapply Forall_impl; [|exact Hf].
        intros e (c & Hc & He). exists c. split; [now right|exact He].
    + destruct (IH last len) as (Hg & Hl & Hf). cbv zeta in *.
      split; [exact Hg|]. split; [exact Hl|].
      eapply Forall_impl; [|exact Hf].
      intros e (c & Hc & He). exists c. split; [now right|exact He].
Qed.

(** The shape of the list returned by the stability detector. *)
Lemma stability_transitions_shape
    (L : SciLib) (area heights : list Q) (min_points : Z)
    (transitions : list Z) :
  (1 <= min_points)%Z ->
  (2 * min_points <= Z.of_nat (length area))%Z ->
  find_stability_transitions L area heights min_points = Some transitions ->
  let n := Z.of_nat (length area) in
  exists interior,
    transitions = (0%Z :: interior) ++ [(n - 1)%Z]
    /\ (length interior <= 2)%nat
    /\ gaps_from (Z.max (min_points * 2) (py_int (inject_Z n * 0.15))) 0
                 interior
    /\ Forall (fun c => (min_points <= c < n - min_points)%Z) interior.
Proof.
  intros Hmp Hn H n. unfold find_stability_transitions in H. cbv zeta in H.
  fold n in H, Hn.
  assert (E : (n <? 2 * min_points)%Z = false) by (apply Z.ltb_ge; lia).
  rewrite E in H. unfold bind at 1 in H.
  destruct (compute_stability_metric L area heights 5)
    as [[[stability_ dS_dh] area_smooth]|]; [|discriminate].
  unfold bind at 1 in H.
  match type of H with
  | match ?t with Some _ => _ | None => _ end = _ =>
      destruct t as [threshold|]; [|discriminate]
  end.
  unfold bind at 1 in H.
  destruct (stability_candidates stability_ dS_dh n threshold
              (Py.range min_points (n - min_points))) as [cs|] eqn:Ecs;
    [|discriminate].
  apply stability_candidates_indices in Ecs.
  set (spacing := Z.max (min_points * 2) (py_int (inject_Z n * 0.15))) in *.
  destruct (select_transitions_spec spacing (sort_by_score_desc cs) 0%Z 1%Z)
    as (Hg & Hl & Hf).
  cbv zeta in Hg, Hl, Hf.
  set (es := select_transitions spacing (sort_by_score_desc cs) 0 1) in *.
  assert (Hrange : Forall (fun c => (min_points <= c < n - min_points)%Z) es).
  { eapply Forall_impl; [|exact Hf]. intros e (c & Hc & <-).
    apply (proj1 (sort_by_score_desc_in c cs)) in Hc.
    rewrite Forall_forall in Ecs. apply Ecs in Hc.
    now apply (proj1 (range_in _ _ _)) in Hc. }
  assert (Hbelow : Forall (fun c => (c < n - 1)%Z) es).
  { eapply Forall_impl; [|exact Hrange]. cbv beta. intros; lia. }
  assert (Hsorted : StronglySorted Z.lt ((0%Z :: es) ++ [(n - 1)%Z])).
  { apply (improved_transitions_sorted spacing); auto; unfold spacing; lia. }
  assert (Eclose : close_at_end (0%Z :: es) n = (0%Z :: es) ++ [(n - 1)%Z]).
  { unfold close_at_end.
    destruct (Py.last_item (0%Z :: es)) as [l|] eqn:El; [|reflexivity].
    apply last_item_in in El.
    assert (l < n - 1)%Z.
    { destruct El as [<-|El]; [lia|].
      rewrite Forall_forall in Hbelow. now apply Hbelow. }
    assert (E' : (l =? n - 1)%Z = false) by (apply Z.eqb_neq; lia).
    now rewrite E'. }
  rewrite Eclose, (sorted_set_id _ Hsorted) in H. injection H as <-.
  exists es. repeat split; auto. lia.
Qed.

(** X20.  With [min_points >= 1] and at least [2 * min_points] points,
    the stability detector returns at most three segments: a strictly
    increasing list from 0 to [n - 1] with at most two interior
    boundaries, each at least [max(2 * min_points, int(0.15 * n))] after
    its predecessor and at least [min_points] away from both ends. *)
Theorem stability_transitions_at_most_three_segments
    (L : SciLib) (area heights : list Q) (min_points : Z)
    (transitions : list Z) :
  (1 <= min_points)%Z ->
  (2 * min_points <= Z.of_nat (length area))%Z ->
  find_stability_transitions L area heights min_points = Some transitions ->
  let n := Z.of_nat (length area) in
  exists interior,
    transitions = (0%Z :: interior) ++ [(n - 1)%Z]
    /\ (length interior <= 2)%nat
    /\ gaps_from (Z.max (min_points * 2) (py_int (inject_Z n * 0.15))) 0
                 interior
    /\ Forall (fun c => (min_points <= c < n - min_points)%Z) interior
    /\ StronglySorted Z.lt transitions.
Proof.
  intros Hmp Hn H n.
  destruct (stability_transitions_shape L area heights min_points transitions
              Hmp Hn H) as (es & E & Hlen & Hg & Hrange).
  fold n in E, Hg, Hrange.
  exists es. split; [exact E|]. split; [exact Hlen|]. split; [exact Hg|].
  split; [exact Hrange|].
  rewrite E.
  apply (improved_transitions_sorted
           (Z.max (min_points * 2) (py_int (inject_Z n * 0.15)))).
  - lia.
  - unfold n. lia.
  - exact Hg.
  - eapply Forall_impl; [|exact Hrange]. cbv beta. intros c Hc. lia.
Qed.

Lemma stability_transitions_at_most_three_segments_witness :
  let n := Z.of_nat (length (map Area (cylinder_table 40))) in
  exists interior,
    [0; 25; 39]%Z = (0%Z :: interior) ++ [(n - 1)%Z]
    /\ (length interior <= 2)%nat
    /\ gaps_from (Z.max (12 * 2) (py_int (inject_Z n * 0.15))) 0 interior
    /\ Forall (fun c => (12 <= c < n - 12)%Z) interior
    /\ StronglySorted Z.lt [0; 25; 39]%Z.
Proof.
  apply (stability_transitions_at_most_three_segments stability_lib
           (map Area (cylinder_table 40)) (map Height_mm (cylinder_table 40))
           12 [0; 25; 39]%Z).
  - lia.
  - simpl. lia.
  - vm_compute. reflexivity.
Defined.

Lemma slice_in {A} (l : list A) (a b : Z) (x : A) :
  In x (Py.slice l a b) -> In x l.
Proof.
  unfold Py.slice. cbv zeta. intro H.
  set (s := skipn _ l) in H.
  assert (Hs : In x s).
  { rewrite <- (firstn_skipn
                  (Z.to_nat (Py.slice_bound (Z.of_nat (length l)) b
                             - Py.slice_bound (Z.of_nat (length l)) a)) s).
    apply in_or_app. now left. }
  unfold s in Hs.
  rewrite <- (firstn_skipn
                (Z.to_nat (Py.slice_bound (Z.of_nat (length l)) a)) l).
  apply in_or_app. now right.
Qed.

Lemma slice_length_le {A} (l : list A) (a b : Z) :
  (length (Py.slice l a b) <= length l)%nat.
Proof.
  unfold Py.slice. cbv zeta. rewrite length_firstn, length_skipn. lia.
Qed.

Lemma validate_interior_spec (L : SciLib) (area heights : list Q)
    (interior kept : list Z) :
  validate_interior L area heights interior = Some kept ->
  (length kept <= length interior)%nat
  /\ Forall (fun t => In t interior
                      /\ validate_transition L area heights t 5 = Some true)
            kept.
Proof.
  revert kept; induction interior as [|t rest IH]; intro kept.
  - intros [= <-]. split; [simpl; lia|constructor].
  - cbn [validate_interior]. unfold bind.
    destruct (validate_transition L area heights t 5) as [ok|] eqn:Eok;
      [|discriminate].
    destruct (validate_interior L area heights rest) as [tail|];
      [|discriminate].
    intros [= <-]. destruct (IH tail eq_refl) as [Hlen Hall].
    assert (Hrest : Forall (fun t' => In t' (t :: rest)
                                      /\ validate_transition L area heights t' 5
                                         = Some true) tail).
    { eapply Forall_impl; [|exact Hall]. intros x [Hx Hv].
      split; [now right|exact Hv]. }
    destruct ok.
    + split; [simpl; lia|]. constructor; [|exact Hrest].
      split; [now left|exact Eok].
    + split; [simpl; lia|exact Hrest].
Qed.

Lemma validate_transition_margin (L : SciLib) (area heights : list Q)
    (t min_points : Z) :
  validate_transition L area heights t min_points = Some true ->
  (min_points <= t <= Z.of_nat (length area) - min_points - 1)%Z.
Proof.
  unfold validate_transition. cbv zeta.
  destruct ((t <? min_points)
            || (Z.of_nat (length area) - min_points - 1 <? t))%Z eqn:E;
    [discriminate|].
  apply orb_false_iff in E. destruct E as [E1 E2].
  apply Z.ltb_ge in E1, E2. intros _. lia.
Qed.

Lemma insert_set_length (x : Z) (l : list Z) :
  (length (Py.insert_set x l) <= S (length l))%nat.
Proof.
  induction l as [|a t IH]; simpl; [lia|].
  destruct (x <? a)%Z; [simpl; lia|].
  destruct (x =? a)%Z; simpl; lia.
Qed.

Lemma sorted_set_length (l : list Z) :
  (length (Py.sorted_set l) <= length l)%nat.
Proof.
  induction l as [|a t IH]; simpl; [lia|].
  pose proof (insert_set_length a (Py.sorted_set t)). lia.
Qed.

Lemma validate_all_transitions_sorted
    (L : SciLib) (area heights : list Q) (transitions validated : list Z) :
  validate_all_transitions L area heights transitions = Some validated ->
  StronglySorted Z.lt validated.
Proof.
  unfold validate_all_transitions, bind.
  destruct (Py.getitem transitions 0) as [first|]; [|discriminate].
  destruct (validate_interior L area heights _) as [kept|]; [|discriminate].
  destruct (Py.last_item transitions) as [final|]; [|discriminate].
  intros [= <-].
  apply (sorted_set_sorted ((first :: kept) ++ [final])).
Qed.

(** What [validate_all_transitions] returns. *)
Lemma validate_all_transitions_spec
    (L : SciLib) (area heights : list Q) (transitions validated : list Z) :
  validate_all_transitions L area heights transitions = Some validated ->
  exists first final,
    Py.getitem transitions 0 = Some first
    /\ Py.last_item transitions = Some final
    /\ In first validated /\ In final validated
    /\ (length validated <= length transitions)%nat
    /\ forall t, In t validated ->
         t = first \/ t = final
         \/ (In t transitions
             /\ (5 <= t <= Z.of_nat (length area) - 6)%Z).
Proof.
  unfold validate_all_transitions, bind.
  destruct (Py.getitem transitions 0) as [first|] eqn:E0; [|discriminate].
  set (interior := Py.slice transitions 1 (Z.of_nat (length transitions) - 1)).
  destruct (validate_interior L area heights interior) as [kept|] eqn:Ek;
    [|discriminate].
  destruct (Py.last_item transitions) as [final|] eqn:El; [|discriminate].
  intros [= <-]. apply validate_interior_spec in Ek. destruct Ek as [Hlen Hall].
  change (Py.insert_set first (Py.sorted_set (kept ++ [final])))
    with (Py.sorted_set ((first :: kept) ++ [final])).
  exists first, final. split; [reflexivity|]. split; [reflexivity|].
  split; [apply (proj2 (sorted_set_in _ _)); simpl; now left|].
  split; [apply (proj2 (sorted_set_in _ _)); apply in_or_app; right; simpl;
          now left|].
  split.
  - pose proof (sorted_set_length ((first :: kept) ++ [final])) as Hs.
    rewrite length_app in Hs. cbn [length] in Hs.
    destruct transitions as [|a [|b t]]; [discriminate| |].
    + injection E0 as <-. injection El as <-.
      destruct kept; [|simpl in Hlen; lia].
      simpl. rewrite Z.ltb_irrefl, Z.eqb_refl. simpl. lia.
    + assert (Hint : (length interior + 2 <= length (a :: b :: t))%nat).
      { unfold interior, Py.slice, Py.slice_bound. cbv zeta.
        change (1 <? 0)%Z with false. cbv iota.
        rewrite length_firstn, length_skipn.
        destruct (Z.of_nat (length (a :: b :: t)) - 1 <? 0)%Z eqn:E;
          [apply Z.ltb_lt in E; simpl length in E; lia|].
        simpl length. lia. }
      lia.
  - intros t Ht. apply (proj1 (sorted_set_in _ _)) in Ht.
    apply in_app_or in Ht. simpl in Ht.
    destruct Ht as [[<-|Ht]|[<-|[]]]; auto.
    right. right. rewrite Forall_forall in Hall.
    destruct (Hall t Ht) as [Hin Hv].
    split; [now apply slice_in in Hin|].
    apply validate_transition_margin in Hv. lia.
Qed.

(** X21.  [validate_all_transitions] returns a strictly increasing list
    that keeps the first and the last transition it is given and adds
    nothing: every other index it returns is an interior transition
    of the input, at least 5 points away from both ends of the data. *)
Theorem stability_validation_prunes_interior_only
    (L : SciLib) (area heights : list Q) (transitions validated : list Z) :
  validate_all_transitions L area heights transitions = Some validated ->
  exists first final,
    Py.getitem transitions 0 = Some first
    /\ Py.last_item transitions = Some final
    /\ In first validated /\ In final validated
    /\ StronglySorted Z.lt validated
    /\ (length validated <= length transitions)%nat
    /\ forall t, In t validated ->
         t = first \/ t = final
         \/ (In t transitions
             /\ (5 <= t <= Z.of_nat (length area) - 6)%Z).
Proof.
  intro H.
  destruct (validate_all_transitions_spec L area heights transitions validated
              H) as (first & final & E0 & El & Hf & Hl & Hlen & Hin).
  exists first, final.
  split; [exact E0|]. split; [exact El|]. split; [exact Hf|].
  split; [exact Hl|].
  split; [exact (validate_all_transitions_sorted L area heights transitions
                   validated H)|].
  split; [exact Hlen|exact Hin].
Qed.

Lemma stability_validation_prunes_interior_only_witness :
  exists first final,
    Py.getitem [0; 25; 39]%Z 0 = Some first
    /\ Py.last_item [0; 25; 39]%Z = Some final
    /\ In first [0; 39]%Z /\ In final [0; 39]%Z
    /\ StronglySorted Z.lt [0; 39]%Z
    /\ (length [0; 39]%Z <= length [0; 25; 39]%Z)%nat
    /\ forall t, In t [0; 39]%Z ->
         t = first \/ t = final
         \/ (In t [0; 25; 39]%Z
             /\ (5 <= t
                 <= Z.of_nat (length (map Area (cylinder_table 40))) - 6)%Z).
Proof.
  apply (stability_validation_prunes_interior_only stability_lib
           (map Area (cylinder_table 40)) (map Height_mm (cylinder_table 40))
           [0; 25; 39]%Z [0; 39]%Z).
  vm_compute. reflexivity.
Defined.

(** X22.  With [min_points >= 1] and at least [2 * min_points] points,
    a transition list returned by the hybrid detector comes from the
    stability route; it is strictly increasing, holds the index 0 and
    the final index [n - 1], lies within the data and has at most four
    boundaries, that is at most three segments. *)
Theorem hybrid_transitions_at_most_three_segments
    (L : SciLib) (area heights : list Q) (min_points : Z)
    (transitions : list Z) (route : Route) :
  (1 <= min_points)%Z ->
  (2 * min_points <= Z.of_nat (length area))%Z ->
  find_optimal_transitions_hybrid L area heights min_points
  = Some (Some transitions, route) ->
  let n := Z.of_nat (length area) in
  route = stability
  /\ In 0%Z transitions /\ In (n - 1)%Z transitions
  /\ StronglySorted Z.lt transitions
  /\ (length transitions <= 4)%nat
  /\ Forall (fun t => (0 <= t <= n - 1)%Z) transitions.
Proof.
  intros Hmp Hn H n. unfold find_optimal_transitions_hybrid in H.
  cbv zeta in H. fold n in H, Hn.
  assert (E : (n <? 2 * min_points)%Z = false) by (apply Z.ltb_ge; lia).
  rewrite E in H. unfold bind at 1 in H.
  destruct (predict_segment_count L area heights) as [[p d]|]; [|discriminate].
  destruct (p <=? 2)%Z; [discriminate|].
  unfold bind at 1 in H.
  destruct (find_stability_transitions L area heights min_points)
    as [ts0|] eqn:Es; [|discriminate].
  unfold bind at 1 in H.
  destruct (validate_all_transitions L area heights ts0) as [ts|] eqn:Ev;
    [|discriminate].
  injection H as <- <-.
  destruct (stability_transitions_shape L area heights min_points ts0 Hmp Hn Es)
    as (es & Ets0 & Hlen & _ & Hrange).
  fold n in Ets0, Hrange.
  destruct (validate_all_transitions_spec L area heights ts0 ts Ev)
    as (first & final & E0 & El & Hf & Hl & Hlen' & Hin).
  pose proof (validate_all_transitions_sorted L area heights ts0 ts Ev)
    as Hsorted.
  rewrite Ets0 in E0, El. rewrite last_item_app in El.
  injection E0 as <-. injection El as <-.
  split; [reflexivity|]. split; [exact Hf|]. split; [exact Hl|].
  split; [exact Hsorted|]. split.
  - rewrite Ets0, length_app in Hlen'. simpl in Hlen'. lia.
  - apply Forall_forall. intros t Ht.
    destruct (Hin t Ht) as [->|[->|[Hts _]]]; [lia|lia|].
    rewrite Ets0 in Hts. apply in_app_or in Hts. simpl in Hts.
    destruct Hts as [[<-|Hts]|[<-|[]]]; [lia| |lia].
    rewrite Forall_forall in Hrange. apply Hrange in Hts. lia.
Qed.

Lemma hybrid_transitions_at_most_three_segments_witness :
  let n := Z.of_nat (length (map Area (cylinder_table 40))) in
  stability = stability
  /\ In 0%Z [0; 39]%Z /\ In (n - 1)%Z [0; 39]%Z
  /\ StronglySorted Z.lt [0; 39]%Z
  /\ (length [0; 39]%Z <= 4)%nat
  /\ Forall (fun t => (0 <= t <= n - 1)%Z) [0; 39]%Z.
Proof.
  apply (hybrid_transitions_at_most_three_segments staircase_lib
           (map Area (cylinder_table 40)) (map Height_mm (cylinder_table 40))
           12 [0; 39]%Z stability).
  - lia.
  - simpl. lia.
  - vm_compute. reflexivity.
Defined.

(** ** The merge pass and the fitting loop *)

Lemma try_merge_some (current next merged : Segment) :
  try_merge current next = Some merged ->
  seg_start merged = seg_start current
  /\ seg_end merged = seg_end next
  /\ seg_shape merged = seg_shape current
  /\ seg_shape current <> sphere_cap
  /\ seg_shape next <> sphere_cap.
Proof.
  unfold try_merge.
  destruct (negb (Shape_eqb (seg_shape next) (seg_shape current))
            || (seg_end current + 1 <? seg_start next)%Z); [discriminate|].
  destruct (seg_shape current) eqn:Ec; destruct (seg_shape next) eqn:En;
    simpl; try discriminate;
    destruct (seg_params current) as [|a [|b pc]];
    destruct (seg_params next) as [|c [|d pn]]; try discriminate;
    repeat match goal with
    | |- context [if ?c then _ else _] => destruct c
    end; try discriminate; intros [= <-]; simpl;
    repeat split; try assumption; try discriminate; reflexivity.
Qed.

Lemma last_default {A} (l : list A) (d d' : A) :
  l <> [] -> last l d = last l d'.
Proof.
  destruct l as [|a l]; [congruence|]. intros _.
  now rewrite !last_cons_default.
Qed.

Lemma merge_from_length (rest : list Segment) :
  forall current, (length (merge_from current rest) <= S (length rest))%nat.
Proof.
  induction rest as [|next rest IH]; intro current; [simpl; lia|].
  cbn [merge_from]. destruct (try_merge current next) as [merged|].
  - specialize (IH merged). simpl. lia.
  - specialize (IH next). simpl. lia.
Qed.

Lemma merge_from_head (rest : list Segment) :
  forall current,
  exists m tail, merge_from current rest = m :: tail
                 /\ seg_start m = seg_start current.
Proof.
  induction rest as [|next rest IH]; intro current; [simpl; eauto|].
  cbn [merge_from]. destruct (try_merge current next) as [merged|] eqn:Em.
  - destruct (IH merged) as (m & tail & E & Hm). exists m, tail.
    split; [exact E|]. apply try_merge_some in Em.
    destruct Em as (Hs & _). congruence.
  - eauto.
Qed.

Lemma merge_from_last (rest : list Segment) :
  forall current,
    seg_end (last (merge_from current rest) current)
    = seg_end (last rest current).
Proof.
  induction rest as [|next rest IH]; intro current; [reflexivity|].
  cbn [merge_from]. rewrite (last_cons_default next current rest).
  destruct (try_merge current next) as [merged|] eqn:Em.
  - destruct (merge_from_head rest merged) as (m & tail & E & _).
    rewrite (last_default _ current merged) by (rewrite E; discriminate).
    rewrite IH. apply try_merge_some in Em. destruct Em as (_ & He & _).
    destruct rest as [|r rest']; [exact He|].
    now rewrite !last_cons_default.
  - rewrite last_cons_default.
    destruct (merge_from_head rest next) as (m & tail & E & _).
    rewrite (last_default _ current next) by (rewrite E; discriminate).
    apply IH.
Qed.

Lemma merge_from_keeps_caps (rest : list Segment) :
  forall current s,
    In s (current :: rest) -> seg_shape s = sphere_cap ->
    In s (merge_from current rest).
Proof.
  induction rest as [|next rest IH]; intros current s Hin Hcap;
    [exact Hin|].
  cbn [merge_from]. destruct (try_merge current next) as [merged|] eqn:Em.
  - apply try_merge_some in Em. destruct Em as (_ & _ & _ & Hc & Hn).
    apply IH; [|exact Hcap].
    destruct Hin as [<-|[<-|Hin]]; [contradiction|contradiction|now right].
  - destruct Hin as [<-|Hin]; [now left|]. right. now apply IH.
Qed.

Lemma merge_from_shapes (rest : list Segment) :
  forall current m,
    In m (merge_from current rest) ->
    exists s, In s (current :: rest) /\ seg_shape s = seg_shape m.
Proof.
  induction rest as [|next rest IH]; intros current m Hm.
  - exists m. split; [exact Hm|reflexivity].
  - cbn [merge_from] in Hm.
    destruct (try_merge current next) as [merged|] eqn:Em.
    + apply try_merge_some in Em. destruct Em as (_ & _ & Hsh & _).
      destruct (IH merged m Hm) as (s & [<-|Hin] & Hs).
      * exists current. split; [now left|congruence].
      * exists s. split; [right; now right|exact Hs].
    + destruct Hm as [<-|Hm]; [exists current; split; [now left|reflexivity]|].
      destruct (IH next m Hm) as (s & Hin & Hs).
      exists s. split; [now right|exact Hs].
Qed.

(** X23.  The merge pass never adds a segment and returns none only for
    none; the merged list starts where the first segment starts and
    ends where the last one ends; every spherical-cap segment is kept
    as it is; and every merged segment has the shape of a segment of
    the input. *)
Theorem merge_pass_keeps_ends_and_caps (segments : list Segment) :
  let merged := merge_segments segments in
  (length merged <= length segments)%nat
  /\ (merged = [] <-> segments = [])
  /\ (forall d, seg_start (hd d merged) = seg_start (hd d segments))
  /\ (forall d, seg_end (last merged d) = seg_end (last segments d))
  /\ (forall s, In s segments -> seg_shape s = sphere_cap -> In s merged)
  /\ (forall m, In m merged ->
        exists s, In s segments /\ seg_shape s = seg_shape m).
Proof.
  cbv zeta. destruct segments as [|current rest].
  - simpl. repeat split; auto; try tauto.
  - cbn [merge_segments].
    destruct (merge_from_head rest current) as (m & tail & E & Hm).
    split; [apply merge_from_length|].
    split; [rewrite E; split; discriminate|].
    split; [intro d; rewrite E; exact Hm|].
    split.
    + intro d. rewrite (last_default _ d current) by (rewrite E; discriminate).
      rewrite merge_from_last. now rewrite last_cons_default.
    + split; [apply merge_from_keeps_caps|apply merge_from_shapes].
Qed.

Lemma attempt_fit_fails (L : SciLib) (s : Shape) (x y p0 lower upper : list Q) :
  (forall s x y p0 lower upper maxfev,
     curve_fit L s x y p0 lower upper maxfev = None) ->
  attempt_fit L s x y p0 lower upper = None.
Proof.
  intro H. unfold attempt_fit, bind.
  destruct (Py.getitem x 0); [|reflexivity].
  destruct (Py.getitem y 0); [|reflexivity].
  now rewrite H.
Qed.

(** X24.  When the least-squares solver fails for every model, the
    fitting loop still records a segment for the stretch: a cylinder
    whose radius is the guess [sqrt(median(area) / pi)], with a recorded
    fit error of 0. *)
Theorem failed_fits_fall_back_to_cylinder
    (L : SciLib) (df_areas : DataFrame) (start end_ : Z) (seg : Segment)
    (err : Q) :
  (forall s x y p0 lower upper maxfev,
     curve_fit L s x y p0 lower upper maxfev = None) ->
  fit_segment L df_areas start end_ = Some (seg, err) ->
  seg = mkSegment start end_ cylinder
          [sqrt L (Py.median (Py.slice (map Area df_areas) start (end_ + 1))
                   / pi L)]
  /\ err = 0.
Proof.
  intros Hfail. unfold fit_segment, bind. cbv zeta.
  destruct (Py.last_item _); [|discriminate].
  destruct (Py.getitem _ 0); [|discriminate].
  assert (E : forall area x y mean_area guess_r height_span,
             fit_candidates L area x y start end_ mean_area guess_r height_span
             = []).
  { intros. unfold fit_candidates. cbv zeta.
    assert (E1 : try_cylinder L x y guess_r = None).
    { unfold try_cylinder, bind. cbv zeta.
      now rewrite attempt_fit_fails by exact Hfail. }
    assert (E2 : try_frustum L area x y start end_ mean_area height_span
                 = None).
    { unfold try_frustum, bind. cbv zeta.
      destruct (if (start <? _)%Z then _ else _); [|reflexivity].
      destruct (Py.getitem area _); [|reflexivity].
      now rewrite attempt_fit_fails by exact Hfail. }
    assert (E3 : try_cone L area x y end_ height_span = None).
    { unfold try_cone, bind. cbv zeta.
      destruct (Py.getitem area _); [|reflexivity].
      now rewrite attempt_fit_fails by exact Hfail. }
    assert (E4 : try_sphere_cap L area x y start end_ = None).
    { unfold try_sphere_cap, bind. cbv zeta.
      destruct (Py.amax _); [|reflexivity].
      now rewrite attempt_fit_fails by exact Hfail. }
    rewrite E1, E2, E3, E4. reflexivity. }
  rewrite E. simpl. intros [= <- <-]. split; reflexivity.
Qed.

Lemma failed_fits_fall_back_to_cylinder_witness :
  mkSegment 0 14 cylinder [fixed_sqrt (100 / 3.14159)]
  = mkSegment 0 14 cylinder
      [sqrt (sample_lib [])
         (Py.median (Py.slice (map Area (cylinder_table 30)) 0 (14 + 1))
          / pi (sample_lib []))]
  /\ 0 = 0.
Proof.
  apply (failed_fits_fall_back_to_cylinder (sample_lib []) (cylinder_table 30)
           0 14 (mkSegment 0 14 cylinder [fixed_sqrt (100 / 3.14159)]) 0).
  - reflexivity.
  - vm_compute. reflexivity.
Defined.

Lemma fit_errors_length
    (L : SciLib) (df_areas : DataFrame) (segments : list Segment)
    (errors : list Q) :
  segment_and_fit L df_areas = Some (segments, errors) ->
  (length segments <= length errors)%nat.
Proof.
  unfold segment_and_fit, bind.
  destruct (detect_transitions L df_areas); [|discriminate].
  destruct (fit_loop L df_areas _) as [fitted|]; [|discriminate].
  intros [= <- <-].
  destruct fitted as [|[s e] fitted]; [simpl; lia|].
  cbn [map fst snd merge_segments].
  pose proof (merge_from_length (map fst fitted) s) as Hlen.
  rewrite length_map in Hlen. simpl. rewrite length_map. lia.
Qed.

(** X25.  The fitted errors are recorded before the merge pass: the
    pipeline returns at most as many segments as fit errors, and no
    segment exactly when it recorded no error. *)
Theorem fit_errors_cover_the_segments
    (L : SciLib) (df_areas : DataFrame) (segments : list Segment)
    (errors : list Q) :
  segment_and_fit L df_areas = Some (segments, errors) ->
  (length segments <= length errors)%nat
  /\ (segments = [] <-> errors = []).
Proof.
  intro H. split; [exact (fit_errors_length L df_areas segments errors H)|].
  unfold segment_and_fit, bind in H.
  destruct (detect_transitions L df_areas); [|discriminate].
  destruct (fit_loop L df_areas _) as [fitted|]; [|discriminate].
  injection H as <- <-.
  destruct fitted as [|[s e] fitted]; [simpl; repeat split; auto|].
  cbn [map fst snd merge_segments].
  destruct (merge_from_head (map fst fitted) s) as (m & tail & E & _).
  rewrite E. split; discriminate.
Qed.

Lemma fit_errors_cover_the_segments_witness :
  (length sample_segments <= length [0; 0])%nat
  /\ (sample_segments = [] <-> [0; 0] = []).
Proof.
  apply (fit_errors_cover_the_segments (sample_lib [14%Z]) (cylinder_table 30)
           sample_segments [0; 0]).
  vm_compute. reflexivity.
Defined.

Lemma root_copy_fit_loop_shapes (L : SciLib) (g : RootCopy.Globals)
    (df_areas : DataFrame) (transitions : list Z) :
  forall fitted,
    RootCopy.fit_loop L g df_areas transitions = Some fitted ->
    Forall (fun s => seg_shape s = cylinder \/ seg_shape s = frustum)
           (map fst fitted).
Proof.
  intros fitted Ef. apply root_copy_fit_loop_origin in Ef.
  apply Forall_forall. intros seg Hin.
  apply in_map_iff in Hin. destruct Hin as ([seg' err] & <- & Hin).
  rewrite Forall_forall in Ef. specialize (Ef _ Hin). simpl in Ef.
  exact (root_copy_two_models L g df_areas _ _ seg' err Ef).
Qed.

(** X26.  With its dictionaries as the module assigns them, the copy of
    the analyzer at the repository root returns only cylinders and
    frustums, one recorded error per segment (it has no merge pass), in
    a chain from index 0 whose segments span at least [min_points]
    points each and which stops at the final index or less than
    [min_points] points before it. *)
Theorem root_copy_segments_are_two_model_chain
    (L : SciLib) (df_areas : DataFrame) (segments : list Segment)
    (errors : list Q) :
  RootCopy.segment_and_fit L RootCopy.initial_globals df_areas
  = Some (segments, errors) ->
  let n := Z.of_nat (length df_areas) in
  length errors = length segments
  /\ Forall (fun s => seg_shape s = cylinder \/ seg_shape s = frustum)
            segments
  /\ exists e,
       chain DEFAULT_PARAMS.min_points 0 segments e
       /\ (e = (n - 1)%Z
           \/ ((0 <= e)%Z /\ (n - e < DEFAULT_PARAMS.min_points)%Z)).
Proof.
  intros H n.
  split; [|split].
  - unfold RootCopy.segment_and_fit, bind in H.
    destruct (RootCopy.detect_transitions _ _ _); [|discriminate].
    destruct (RootCopy.fit_loop L _ df_areas _); [|discriminate].
    injection H as <- <-. now rewrite !length_map.
  - unfold RootCopy.segment_and_fit, bind in H.
    destruct (RootCopy.detect_transitions _ _ _) as [ts|]; [|discriminate].
    destruct (RootCopy.fit_loop L _ df_areas _) as [fitted|] eqn:Ef;
      [|discriminate].
    injection H as <- _.
    now apply (root_copy_fit_loop_shapes L RootCopy.initial_globals
                 df_areas ts).
  - destruct (root_copy_segment_list_is_chain L RootCopy.initial_globals
                df_areas segments errors eq_refl ltac:(simpl; lia) H)
      as (e & Hch & He & _).
    exists e. split; [exact Hch|exact He].
Qed.

Lemma root_copy_segments_are_two_model_chain_witness :
  let r :=
    match RootCopy.segment_and_fit (sample_lib [14%Z]) RootCopy.initial_globals
                                   (cylinder_table 30) with
    | Some r => r
    | None => ([], [])
    end in
  let n := Z.of_nat (length (cylinder_table 30)) in
  length (snd r) = length (fst r)
  /\ Forall (fun s => seg_shape s = cylinder \/ seg_shape s = frustum) (fst r)
  /\ exists e,
       chain DEFAULT_PARAMS.min_points 0 (fst r) e
       /\ (e = (n - 1)%Z
           \/ ((0 <= e)%Z /\ (n - e < DEFAULT_PARAMS.min_points)%Z)).
Proof.
  apply (root_copy_segments_are_two_model_chain (sample_lib [14%Z])
           (cylinder_table 30)).
  vm_compute. reflexivity.
Defined.

(** ** What the jobs record *)

Lemma sum_le_max (l : list Q) (m : Q) :
  (forall y, In y l -> y <= m) ->
  Py.sum l <= m * inject_Z (Z.of_nat (length l)).
Proof.
  induction l as [|x t IH]; intro H.
  - change (Py.sum []) with 0.
    change (inject_Z (Z.of_nat (length (@nil Q)))) with 0. lra.
  - change (Py.sum (x :: t)) with (x + Py.sum t).
    change (length (x :: t)) with (S (length t)).
    rewrite Nat2Z.inj_succ. unfold Z.succ. rewrite inject_Z_plus.
    change (inject_Z 1) with 1.
    specialize (IH (fun y Hy => H y (or_intror Hy))).
    specialize (H x (or_introl eq_refl)).
    assert (E : m * (inject_Z (Z.of_nat (length t)) + 1)
                == m * inject_Z (Z.of_nat (length t)) + m) by ring.
    rewrite E. lra.
Qed.

Lemma mean_le_max (l : list Q) (m : Q) :
  l <> [] -> (forall y, In y l -> y <= m) -> Py.mean l <= m.
Proof.
  intros Hne H. unfold Py.mean.
  apply Qle_shift_div_r.
  - change 0 with (inject_Z 0). rewrite <- Zlt_Qlt.
    destruct l; [congruence|simpl; lia].
  - now apply sum_le_max.
Qed.

(** X27.  After a successful call of [segment_and_fit_optimized] with a
    job, the job holds one more completed step; its segment count is
    the number of segments returned, at most the number of recorded fit
    errors; its maximum fit error bounds every recorded error and its
    average fit error; and its profile point count is untouched. *)
Theorem fitting_statistics_are_consistent
    (L : SciLib) (df_areas : DataFrame) (job job' : AnalysisJob)
    (w w' : World) (segments : list Segment) :
  segment_and_fit_optimized L df_areas (Some job) w
  = Some (segments, Some job', w') ->
  segments_count job' = Z.of_nat (length segments)
  /\ (length segments <= length (fit_errors job'))%nat
  /\ Forall (fun e => e <= max_fit_error job') (fit_errors job')
  /\ avg_fit_error job' <= max_fit_error job'
  /\ length (steps_completed job') = S (length (steps_completed job))
  /\ profile_points job' = profile_points job.
Proof.
  unfold segment_and_fit_optimized, read_clock, add_warning, complete_step,
    read_clock, bind.
  destruct (segment_and_fit L df_areas) as [[segs errs]|] eqn:Es;
    [|destruct (Z.of_nat (length df_areas) <? 10)%Z; discriminate].
  apply fit_errors_length in Es.
  assert (Hstats :
            Forall (fun e => e <= match Py.amax errs with
                                  | Some m => m
                                  | None => 0
                                  end) errs
            /\ match errs with [] => 0 | _ :: _ => Py.mean errs end
               <= match Py.amax errs with Some m => m | None => 0 end).
  { destruct errs as [|e0 et]; [split; [constructor|simpl; lra]|].
    set (l := e0 :: et).
    change (match l with [] => 0 | _ :: _ => Py.mean l end) with (Py.mean l).
    destruct (Py.amax l) as [m|] eqn:Em; [|discriminate].
    apply amax_spec in Em. destruct Em as [_ Hmax].
    split; [apply Forall_forall; exact Hmax|].
    apply mean_le_max; [discriminate|exact Hmax]. }
  destruct Hstats as [Hall Havg].
  destruct (Z.of_nat (length df_areas) <? 10)%Z; simpl;
    intros [= <- <- _]; simpl;
    (split; [reflexivity|]); (split; [exact Es|]);
    (split; [exact Hall|]); (split; [exact Havg|]);
    (split; [rewrite length_app; simpl; lia|reflexivity]).
Qed.

Lemma fitting_statistics_are_consistent_witness :
  let r :=
    match
      segment_and_fit_optimized (sample_lib [14%Z]) (cylinder_table 30)
                                (Some new_job) still_clock
    with
    | Some (segments, Some job', w') => (segments, job', w')
    | _ => ([], new_job, still_clock)
    end in
  let segments := fst (fst r) in
  let job' := snd (fst r) in
  segments_count job' = Z.of_nat (length segments)
  /\ (length segments <= length (fit_errors job'))%nat
  /\ Forall (fun e => e <= max_fit_error job') (fit_errors job')
  /\ avg_fit_error job' <= max_fit_error job'
  /\ length (steps_completed job') = S (length (steps_completed new_job))
  /\ profile_points job' = profile_points new_job.
Proof.
  apply (fitting_statistics_are_consistent (sample_lib [14%Z])
           (cylinder_table 30) new_job _ still_clock
           (mkWorld (fun _ => 0) 3)).
  vm_compute. reflexivity.
Defined.

(** X28.  [create_enhanced_profile] called with a job either returns the
    direct radius-from-area profile and leaves the job as it was (a
    single segment, or a blend of fewer than two points), or records
    the profile step and a profile point count equal to the number of
    heights it returns, leaving the fit statistics untouched. *)
Theorem profile_step_records_point_count
    (L : SciLib) (segments : list Segment) (df_areas : DataFrame)
    (job job' : AnalysisJob) (hermite_tension : Q) (w w' : World)
    (z r : list Q) :
  create_enhanced_profile L segments df_areas (Some job) hermite_tension w
  = Some (z, r, Some job', w') ->
  (job' = job /\ (z, r) = direct_profile L df_areas)
  \/ ((2 <= length segments)%nat
      /\ profile_points job' = Z.of_nat (length z)
      /\ length (steps_completed job') = S (length (steps_completed job))
      /\ segments_count job' = segments_count job
      /\ fit_errors job' = fit_errors job).
Proof.
  unfold create_enhanced_profile, read_clock, complete_step, read_clock, bind.
  cbv zeta.
  destruct (Z.of_nat (length segments) <=? 1)%Z eqn:En.
  - simpl. intros [= <- <- <- _]. left. split; reflexivity.
  - apply Z.leb_gt in En.
    destruct (profile_loop L df_areas hermite_tension segments)
      as [[full_z full_r]|]; [|discriminate].
    destruct (1 <? Z.of_nat (length full_z))%Z.
    + simpl. intros [= <- <- <- _]. right. simpl.
      rewrite !length_map, length_app. simpl.
      repeat split; lia.
    + simpl. intros [= <- <- <- _]. left. split; reflexivity.
Qed.

Lemma profile_step_records_point_count_witness :
  let r :=
    match
      create_enhanced_profile (sample_lib []) sample_two_segments
                              (cylinder_table 30) (Some new_job) 0.6
                              still_clock
    with
    | Some (z, r, Some job', w') => (z, r, job', w')
    | _ => ([], [], new_job, still_clock)
    end in
  let z := fst (fst (fst r)) in
  let job' := snd (fst r) in
  (job' = new_job
   /\ (z, snd (fst (fst r))) = direct_profile (sample_lib []) (cylinder_table 30))
  \/ ((2 <= length sample_two_segments)%nat
      /\ profile_points job' = Z.of_nat (length z)
      /\ length (steps_completed job') = S (length (steps_completed new_job))
      /\ segments_count job' = segments_count new_job
      /\ fit_errors job' = fit_errors new_job).
Proof.
  apply (profile_step_records_point_count (sample_lib []) sample_two_segments
           (cylinder_table 30) new_job _ 0.6 still_clock
           (mkWorld (fun _ => 0) 3)).
  vm_compute. reflexivity.
Defined.

(** X29.  Every volume model assigns the volume 0 to the fill height 0
    (the spherical cap for a non-negative radius), so a fitted curve
    [model(x - x[0]) + y[0]] passes through the first measured point of
    its segment. *)
Theorem fitted_models_start_at_zero_volume
    (L : SciLib) (s : Shape) (x0 v : Q) (popt : list Q) :
  (s = sphere_cap -> Forall (fun R => 0 <= R) popt) ->
  volume_model L s (x0 - x0) popt = Some v ->
  v == 0.
Proof.
  intros Hcap.
  destruct s; destruct popt as [|a [|b [|c [|d t]]]]; simpl;
    try discriminate; intros [= <-].
  - unfold volume_cylinder. ring.
  - unfold volume_frustum. destruct (Qeq_bool c 0) eqn:E; [reflexivity|].
    apply Qeq_bool_neq in E. cbv zeta. field. exact E.
  - unfold volume_cone. destruct (Qeq_bool b 0) eqn:E; [reflexivity|].
    apply Qeq_bool_neq in E. cbv zeta. field. exact E.
  - specialize (Hcap eq_refl). inversion Hcap; subst.
    unfold volume_sphere_cap, Py.min. cbv zeta.
    destruct (Py.Qltb (2 * a) (x0 - x0)) eqn:E.
    + apply PyFacts.Qltb_true in E. lra.
    + field.
Qed.

Lemma fitted_models_start_at_zero_volume_witness :
  volume_sphere_cap (sample_lib []) (7 - 7) 10 == 0.
Proof.
  apply (fitted_models_start_at_zero_volume (sample_lib []) sphere_cap 7
           (volume_sphere_cap (sample_lib []) (7 - 7) 10) [10]).
  - intros _. repeat constructor. discriminate.
  - reflexivity.
Defined.

(** ** Radius arrays that do not match the heights *)

Lemma getitem_beyond {A} (l : list A) (i : Z) :
  (Z.of_nat (length l) <= i)%Z -> Py.getitem l i = None.
Proof.
  intro H. unfold Py.getitem, Py.index. cbv zeta.
  assert (E0 : (i <? 0)%Z = false) by (apply Z.ltb_ge; lia).
  rewrite E0.
  assert (E1 : ((0 <=? i) && (i <? Z.of_nat (length l)))%Z = false).
  { apply andb_false_iff. right. apply Z.ltb_ge. lia. }
  now rewrite E1.
Qed.

Lemma map_option_none {A B} (f : A -> option B) (l : list A) (a : A) :
  In a l -> f a = None -> map_option f l = None.
Proof.
  intros Hin Ha. induction l as [|x t IH]; [contradiction|].
  simpl. unfold bind. destruct Hin as [->|Hin].
  - now rewrite Ha.
  - destruct (f x); [|reflexivity]. now rewrite (IH Hin).
Qed.

Lemma vtk_points_none (L : SciLib) (cos sin : Q -> Q)
    (z_profile r_profile : list Q) (ks : list Z) (k : Z) :
  In k ks -> Py.getitem r_profile k = None ->
  forall st, vtk_points L cos sin z_profile r_profile ks st = None.
Proof.
  intros Hin Hk. induction ks as [|k0 ks IH]; [contradiction|].
  intro st. cbn [vtk_points]. unfold bind.
  destruct (Py.getitem z_profile k0); [|reflexivity].
  destruct Hin as [->|Hin]; [now rewrite Hk|].
  destruct (Py.getitem r_profile k0); [|reflexivity].
  now apply IH.
Qed.

(** X30.  For a profile of at least 3 heights with fewer radii than
    heights, the three exporters raise instead of writing a mesh: the
    DirectX and VTK exporters on the first missing radius, the STL
    exporter unless the radius array has length 1, which numpy
    broadcasts to every height. *)
Theorem exporters_reject_short_radius_arrays
    (L : SciLib) (cos sin : Q -> Q) (z_profile r_profile : list Q) :
  (3 <= length z_profile)%nat ->
  (length r_profile < length z_profile)%nat ->
  (length r_profile <> 1%nat ->
   export_stl_watertight L cos sin true z_profile r_profile = None)
  /\ export_directx L cos sin z_profile r_profile = None
  /\ export_vtk_hex L cos sin z_profile r_profile = None.
Proof.
  intros Hn Hr.
  assert (E : (Z.of_nat (length z_profile) <? 3)%Z = false)
    by (apply Z.ltb_ge; lia).
  destruct (shift_to_ground_some z_profile) as (z & Ez & Hz).
  { destruct z_profile; [simpl in Hn; lia|discriminate]. }
  assert (Hmiss : In (Z.of_nat (length r_profile))
                     (Py.range 0 (Z.of_nat (length z)))
                  /\ Py.getitem r_profile (Z.of_nat (length r_profile)) = None).
  { split; [apply range_in; lia|apply getitem_beyond; lia]. }
  destruct Hmiss as [Hin Hnone].
  split; [|split].
  - intro H1. unfold export_stl_watertight. simpl negb. cbv iota.
    rewrite E. unfold bind at 1. rewrite Ez.
    destruct (Py.amax z) as [total_h|]; [|reflexivity].
    unfold bind at 1. cbv zeta.
    assert (Eb : broadcast_to (length z) r_profile = None).
    { unfold broadcast_to.
      assert (E' : Nat.eqb (length r_profile) (length z) = false)
        by (apply Nat.eqb_neq; lia).
      rewrite E'. destruct r_profile as [|a [|b t]]; try reflexivity.
      simpl in H1. lia. }
    unfold bind at 1. now rewrite Eb.
  - unfold export_directx. rewrite E. unfold bind at 1. rewrite Ez.
    cbv zeta. unfold bind at 1.
    match goal with
    | |- match map_option ?f ?l with _ => _ end = _ =>
        rewrite (map_option_none f l (Z.of_nat (length r_profile)) Hin)
    end; [reflexivity|].
    unfold bind. destruct (Py.getitem z _); [|reflexivity].
    now rewrite Hnone.
  - unfold export_vtk_hex. rewrite E. unfold bind at 1. rewrite Ez.
    cbv zeta. unfold bind at 1.
    now rewrite (vtk_points_none L cos sin z r_profile _ _ Hin Hnone).
Qed.

Lemma exporters_reject_short_radius_arrays_witness :
  (length [5; 5] <> 1%nat ->
   export_stl_watertight (sample_lib []) (fun _ => 1) (fun _ => 0) true
                         [0; 1; 2] [5; 5] = None)
  /\ export_directx (sample_lib []) (fun _ => 1) (fun _ => 0) [0; 1; 2] [5; 5]
     = None
  /\ export_vtk_hex (sample_lib []) (fun _ => 1) (fun _ => 0) [0; 1; 2] [5; 5]
     = None.
Proof.
  apply (exporters_reject_short_radius_arrays (sample_lib []) (fun _ => 1)
           (fun _ => 0) [0; 1; 2] [5; 5]); simpl; lia.
Defined.
